(** * Window refresher (src/main.c): a shallow embedding and its properties

    The program sends Ctrl+F5 to a window picked by the user, at random
    intervals read from [options.config].  Everything it does goes through
    the Win32 API and the C library, so the embedding is a small monad that
    threads a clock and records every call with the answer it received:

    - the operating system (and the user, and other processes) is an
      arbitrary function [env : nat -> World]; the k-th call the program
      makes observes the snapshot [env k].  Nothing relates one snapshot to
      the next, so focus may be granted or stolen, windows may vanish and
      keys may be pressed between any two calls;
    - a finite [double] is the rational number it stands for ([Q]), and the
      arithmetic on doubles rounds each result to the nearest double
      ([round_double]); the non-finite results [atof] may return are kept
      apart in [double];
    - [HWND], [DWORD], [UINT] and [SHORT] values are integers ([Z]). *)

From Stdlib Require Import ZArith QArith Qround Qabs Qpower List Bool String Ascii Lia Lqa.
Import ListNotations.
Local Open Scope Z_scope.

(** ** Constants (main.c 35-46, and the Win32 headers) *)

Definition DEFAULT_MIN_DELAY_S : Q := 2.
Definition DEFAULT_MAX_DELAY_S : Q := 7.
Definition ALT_KEY_CHECK_DELAY_MS : Z := 500.
Definition FOCUS_SWITCH_ATTEMPTS : nat := 3.
Definition FOCUS_SWITCH_RETRY_DELAY_MS : Z := 100.
Definition FOCUS_SETTLE_DELAY_MS : Z := 350.
Definition POST_SENDINPUT_DELAY_MS : Z := 100.
Definition MAX_CONFIG_LINE_LENGTH : nat := 256.

Definition UINT_MAX : Z := 4294967295.
Definition INPUT_KEYBOARD : Z := 1.
Definition KEYEVENTF_KEYUP : Z := 2.
Definition VK_CONTROL : Z := 17.   (* 0x11 *)
Definition VK_MENU : Z := 18.      (* 0x12 *)
Definition VK_F5 : Z := 116.       (* 0x74 *)
Definition VK_LCONTROL : Z := 162. (* 0xA2 *)
Definition VK_RCONTROL : Z := 163. (* 0xA3 *)
Definition VK_LMENU : Z := 164.    (* 0xA4 *)
Definition VK_RMENU : Z := 165.    (* 0xA5 *)
Definition SW_RESTORE : Z := 9.

Definition HWND := Z.
Definition DWORD := Z.
Definition NULL : HWND := 0.

(** One keyboard [INPUT]: the fields main.c sets; the others stay zero
    from the [= {0}] initialiser. *)
Record INPUT := mkINPUT { type_ : Z; wVk : Z; dwFlags : Z }.

(** ** The world the program observes, and what it does to it *)

Record World := mkWorld {
  w_IsWindow : HWND -> bool;
  w_GetForegroundWindow : HWND;
  w_GetCurrentThreadId : DWORD;
  w_GetWindowThreadProcessId : HWND -> DWORD;
  w_AttachThreadInput : DWORD -> DWORD -> bool -> bool;
  w_IsIconic : HWND -> bool;
  w_GetAsyncKeyState : Z -> Z;
  w_SendInput : Z;
  w_CryptAcquireContext : bool;
  w_CryptGenRandom : option Z;
  w_rand : Z
}.

Inductive LogLevel := DEBUG | INFO | WARNING | ERROR.

Inductive event :=
| EvIsWindow (h : HWND) (r : bool)
| EvGetForegroundWindow (r : HWND)
| EvGetCurrentThreadId (r : DWORD)
| EvGetWindowThreadProcessId (h : HWND) (r : DWORD)
| EvAttachThreadInput (idAttach idAttachTo : DWORD) (fAttach r : bool)
| EvIsIconic (h : HWND) (r : bool)
| EvShowWindow (h : HWND) (nCmdShow : Z)
| EvSetForegroundWindow (h : HWND)
| EvSendInput (inputs : list INPUT) (r : Z)
| EvSleep (ms : Z)
| EvGetAsyncKeyState (vk r : Z)
| EvGetWindowText (h : HWND)
| EvCryptAcquireContext (r : bool)
| EvCryptGenRandom (r : option Z)
| EvCryptReleaseContext
| EvRand (r : Z)
| EvLog (level : LogLevel) (format : string)
| EvPrintf (format : string)
| EvFprintf (format : string).

(** ** The monad: a clock in, a value, the calls made and a clock out *)

Record Run (A : Type) := mkRun { value : A; events : list event; clock : nat }.
Arguments mkRun {A} _ _ _.
Arguments value {A} _.
Arguments events {A} _.
Arguments clock {A} _.

Definition M (A : Type) : Type := nat -> Run A.

Definition ret {A} (a : A) : M A := fun n => mkRun a [] n.

Definition bind {A B} (m : M A) (k : A -> M B) : M B :=
  fun n =>
    let r := m n in
    let r' := k (value r) (clock r) in
    mkRun (value r') (events r ++ events r') (clock r').

Declare Scope os_scope.
Delimit Scope os_scope with os.
Notation "x <- m ;; k" := (bind m (fun x => k))
  (at level 61, m at next level, right associativity) : os_scope.
Notation "m ;; k" := (bind m (fun _ => k))
  (at level 61, right associativity) : os_scope.
Local Open Scope os_scope.

(** Console and log output are recorded by their format strings (without a
    trailing newline and without embedded double quotes); they read nothing
    from the world and do not advance the clock. *)
Definition emit (e : event) : M unit := fun n => mkRun tt [e] n.
Definition printf (format : string) : M unit := emit (EvPrintf format).
Definition LogDebug (format : string) : M unit := emit (EvLog DEBUG format).
Definition LogInfo (format : string) : M unit := emit (EvLog INFO format).
Definition LogWarning (format : string) : M unit := emit (EvLog WARNING format).
Definition LogError (format : string) : M unit := emit (EvLog ERROR format).

(** ** The [double] arithmetic of the delay (IEEE 754 binary64)

    A finite [double] is read as the rational number it stands for.  Every
    operation of the C code on doubles is the exact operation followed by
    [round_double], the rounding to the nearest double, ties to the even
    significand: 53 significant bits, the least exponent -1074 (so the
    subnormal numbers are there).  No operation is fused with another and
    none keeps excess precision, as with SSE2 code on x86-64.  Overflow is
    not modelled: the values the program computes with stay below
    7200000. *)

Definition DBL_MANT_DIG : Z := 53.

(** The exponent of the least positive double, [2 ^ -1074]. *)
Definition DBL_TRUE_MIN_EXP : Z := -1074.

(** The nearest integer, the even one of the two when [x] is half-way. *)
Definition round_half_even (x : Q) : Z :=
  let f := Qfloor x in
  match (x - inject_Z f ?= 1 # 2)%Q with
  | Lt => f
  | Gt => f + 1
  | Eq => if Z.even f then f else f + 1
  end.

(** For [x] other than zero, the [k] with [2 ^ k <= |x| < 2 ^ (k + 1)]. *)
Definition ilog2 (x : Q) : Z :=
  let l := Z.log2 (Z.abs (Qnum x)) - Z.log2 (Zpos (Qden x)) in
  if Qle_bool (2 ^ l) (Qabs x) then l else l - 1.

(** The exponent of the last place of the doubles around [x]. *)
Definition ulp_exponent (x : Q) : Z :=
  Z.max (ilog2 x - (DBL_MANT_DIG - 1)) DBL_TRUE_MIN_EXP.

Definition round_double (x : Q) : Q :=
  if Qeq_bool x 0 then 0%Q
  else
    let e := ulp_exponent x in
    Qred (inject_Z (round_half_even (x / 2 ^ e)) * 2 ^ e).

(** [x] is a double. *)
Definition is_double (x : Q) : Prop := (round_double x == x)%Q.

Section Program.

Variable env : nat -> World.

(** A call that reads an answer from the current snapshot. *)
Definition os_call {A} (obs : World -> A) (ev : A -> event) : M A :=
  fun n => let r := obs (env n) in mkRun r [ev r] (S n).

(** A call whose result the program ignores. *)
Definition os_do (ev : event) : M unit := fun n => mkRun tt [ev] (S n).

Definition IsWindow (h : HWND) : M bool :=
  os_call (fun w => w_IsWindow w h) (EvIsWindow h).
Definition GetForegroundWindow : M HWND :=
  os_call w_GetForegroundWindow EvGetForegroundWindow.
Definition GetCurrentThreadId : M DWORD :=
  os_call w_GetCurrentThreadId EvGetCurrentThreadId.
Definition GetWindowThreadProcessId (h : HWND) : M DWORD :=
  os_call (fun w => w_GetWindowThreadProcessId w h) (EvGetWindowThreadProcessId h).
Definition AttachThreadInput (idAttach idAttachTo : DWORD) (fAttach : bool) : M bool :=
  os_call (fun w => w_AttachThreadInput w idAttach idAttachTo fAttach)
          (EvAttachThreadInput idAttach idAttachTo fAttach).
Definition IsIconic (h : HWND) : M bool :=
  os_call (fun w => w_IsIconic w h) (EvIsIconic h).
Definition ShowWindow (h : HWND) (nCmdShow : Z) : M unit := os_do (EvShowWindow h nCmdShow).
Definition SetForegroundWindow (h : HWND) : M unit := os_do (EvSetForegroundWindow h).
Definition SendInput (inputs : list INPUT) : M Z :=
  os_call w_SendInput (EvSendInput inputs).
Definition Sleep (ms : Z) : M unit := os_do (EvSleep ms).
Definition GetAsyncKeyState (vk : Z) : M Z :=
  os_call (fun w => w_GetAsyncKeyState w vk) (EvGetAsyncKeyState vk).
Definition GetWindowText (h : HWND) : M unit := os_do (EvGetWindowText h).
Definition CryptAcquireContext : M bool :=
  os_call w_CryptAcquireContext EvCryptAcquireContext.
(** [CryptGenRandom] fills an [unsigned int]: whatever the provider writes is
    read back modulo 2^32. *)
Definition CryptGenRandom : M (option Z) :=
  os_call (fun w => option_map (fun v => v mod 2 ^ 32) (w_CryptGenRandom w))
          EvCryptGenRandom.
Definition CryptReleaseContext : M unit := os_do EvCryptReleaseContext.
(** [rand] returns an [int] between 0 and RAND_MAX, which is at most
    INT_MAX. *)
Definition rand : M Z := os_call (fun w => w_rand w mod 2 ^ 31) EvRand.

(** ** Utilities (main.c 659-707) *)

(** main.c 692-696. *)
Definition WaitMilliseconds (milliseconds : Z) : M unit :=
  if 0 <? milliseconds then Sleep milliseconds else ret tt.

(** main.c 684-685:
    [scale = (double)random_value / (double)UINT_MAX;
     return min_s + scale * (max_s - min_s);]
    in double arithmetic: the two conversions, the division, the
    subtraction, the product and the sum are each rounded. *)
Definition scaled_delay (min_s max_s : Q) (random_value : Z) : Q :=
  let scale :=
    round_double (round_double (inject_Z random_value) /
                  round_double (inject_Z UINT_MAX)) in
  round_double (min_s + round_double (scale * round_double (max_s - min_s))).

(** main.c 659-686. *)
Definition GetRandomDelaySeconds (min_s max_s : Q) : M Q :=
  if Qle_bool max_s min_s then
    LogDebug "GetRandomDelay: min_s (%.2f) >= max_s (%.2f). Returning min_s." ;;
    ret min_s
  else
    acquired <- CryptAcquireContext ;;
    crypto <- (if acquired then
                 generated <- CryptGenRandom ;;
                 (match generated with
                  | Some _ => ret tt
                  | None =>
                      LogError "GetRandomDelay: CryptGenRandom failed. Error: %lu. Falling back to rand()."
                  end) ;;
                 CryptReleaseContext ;;
                 ret generated
               else
                 LogError "GetRandomDelay: CryptAcquireContext failed. Error: %lu. Falling back to rand()." ;;
                 ret None) ;;
    random_value <- (match crypto with
                     | Some v => ret v
                     | None => rand
                     end) ;;
    ret (scaled_delay min_s max_s random_value).

(** main.c 702-707: the three reads are short-circuited by [||]. *)
Definition key_down (state : Z) : bool := negb (Z.land state 32768 =? 0).

Definition IsAltKeyHeld : M bool :=
  a <- GetAsyncKeyState VK_MENU ;;
  if key_down a then ret true else
  l <- GetAsyncKeyState VK_LMENU ;;
  if key_down l then ret true else
  r <- GetAsyncKeyState VK_RMENU ;;
  ret (key_down r).

(** ** Focus arbitration (main.c 472-586) *)

(** main.c 510-521: the bounded retry loop, [remaining] attempts left. *)
Fixpoint set_foreground_attempts (hWndToActivate : HWND) (remaining : nat) : M bool :=
  match remaining with
  | O => ret false
  | S remaining' =>
      SetForegroundWindow hWndToActivate ;;
      WaitMilliseconds FOCUS_SWITCH_RETRY_DELAY_MS ;;
      fg <- GetForegroundWindow ;;
      if fg =? hWndToActivate then
        LogDebug "ActivateWindow: SetForegroundWindow for %p succeeded on attempt %d." ;;
        ret true
      else
        _ <- GetForegroundWindow ;;
        LogDebug "ActivateWindow: SetForegroundWindow for %p failed on attempt %d. Current FG: %p" ;;
        set_foreground_attempts hWndToActivate remaining'
  end.

(** main.c 472-542. *)
Definition ActivateWindowAndEnsureFocus (hWndToActivate hOriginalForeground : HWND) : M bool :=
  if hOriginalForeground =? hWndToActivate then
    LogDebug "ActivateWindow: Target window %p is already foreground." ;;
    ret true
  else
    LogDebug "ActivateWindow: Target %p is not foreground. Attempting to activate." ;;
    dwCurrentThreadId <- GetCurrentThreadId ;;
    dwTargetThreadId <- GetWindowThreadProcessId hWndToActivate ;;
    dwOriginalForegroundThreadId <- GetWindowThreadProcessId hOriginalForeground ;;
    attachedToTarget <-
      (if negb (dwTargetThreadId =? 0) && negb (dwTargetThreadId =? dwCurrentThreadId) then
         ok <- AttachThreadInput dwCurrentThreadId dwTargetThreadId true ;;
         if ok then ret true
         else LogWarning "ActivateWindow: Failed to attach to target thread %lu. Error: %lu" ;;
              ret false
       else ret false) ;;
    attachedToOriginalFG <-
      (if negb (hOriginalForeground =? NULL) && negb (dwOriginalForegroundThreadId =? 0) &&
          negb (dwOriginalForegroundThreadId =? dwCurrentThreadId) &&
          negb (dwOriginalForegroundThreadId =? dwTargetThreadId) then
         ok <- AttachThreadInput dwCurrentThreadId dwOriginalForegroundThreadId true ;;
         if ok then ret true
         else LogWarning "ActivateWindow: Failed to attach to original FG thread %lu. Error: %lu" ;;
              ret false
       else ret false) ;;
    iconic <- IsIconic hWndToActivate ;;
    (if iconic then
       LogDebug "ActivateWindow: Target %p is iconic, restoring." ;;
       ShowWindow hWndToActivate SW_RESTORE ;;
       WaitMilliseconds FOCUS_SWITCH_RETRY_DELAY_MS
     else ret tt) ;;
    focusSet <- set_foreground_attempts hWndToActivate FOCUS_SWITCH_ATTEMPTS ;;
    focusSet <-
      (if focusSet then
         LogDebug "ActivateWindow: Pausing (%dms) for system to settle." ;;
         WaitMilliseconds FOCUS_SETTLE_DELAY_MS ;;
         fg <- GetForegroundWindow ;;
         if negb (fg =? hWndToActivate) then
           _ <- GetForegroundWindow ;;
           LogWarning "ActivateWindow: Focus lost from target %p after settling pause. Current FG: %p." ;;
           ret false
         else
           LogDebug "ActivateWindow: Target %p still has focus after settling pause." ;;
           ret true
       else
         LogWarning "ActivateWindow: Failed to set foreground to target %p after %d attempts." ;;
         ret false) ;;
    (if attachedToOriginalFG
     then _ <- AttachThreadInput dwCurrentThreadId dwOriginalForegroundThreadId false ;; ret tt
     else ret tt) ;;
    (if attachedToTarget
     then _ <- AttachThreadInput dwCurrentThreadId dwTargetThreadId false ;; ret tt
     else ret tt) ;;
    ret focusSet.

(** main.c 550-586.  The guard's [||] is short-circuited: [IsWindow] is asked
    only for a non-null original window that is not the target. *)
Definition RestoreOriginalFocus (hOriginalForeground hTargetWindow : HWND)
    (focusSwitchedSuccessfully : bool) : M unit :=
  nothing_to_restore <-
    (if (hOriginalForeground =? hTargetWindow) || (hOriginalForeground =? NULL) then ret true
     else alive <- IsWindow hOriginalForeground ;; ret (negb alive)) ;;
  if nothing_to_restore then ret tt
  else if negb focusSwitchedSuccessfully then
    LogDebug "RestoreFocus: Input was not sent to target, not aggressively restoring original focus."
  else
    currentFgAfterInput <- GetForegroundWindow ;;
    if (currentFgAfterInput =? hTargetWindow) || negb (currentFgAfterInput =? hOriginalForeground) then
      LogDebug "RestoreFocus: Attempting to restore original foreground to HWND %p" ;;
      WaitMilliseconds FOCUS_SWITCH_RETRY_DELAY_MS ;;
      dwCurrentThreadId <- GetCurrentThreadId ;;
      dwOriginalFGThreadId <- GetWindowThreadProcessId hOriginalForeground ;;
      let needsAttach :=
        negb (dwOriginalFGThreadId =? 0) && negb (dwOriginalFGThreadId =? dwCurrentThreadId) in
      (if needsAttach
       then _ <- AttachThreadInput dwCurrentThreadId dwOriginalFGThreadId true ;; ret tt
       else ret tt) ;;
      iconic <- IsIconic hOriginalForeground ;;
      (if iconic then ShowWindow hOriginalForeground SW_RESTORE else ret tt) ;;
      SetForegroundWindow hOriginalForeground ;;
      (if needsAttach
       then _ <- AttachThreadInput dwCurrentThreadId dwOriginalFGThreadId false ;; ret tt
       else ret tt) ;;
      fg <- GetForegroundWindow ;;
      if fg =? hOriginalForeground then
        LogDebug "RestoreFocus: Successfully restored foreground to HWND %p"
      else
        _ <- GetForegroundWindow ;;
        LogWarning "RestoreFocus: Failed to restore foreground to HWND %p. Current FG: %p"
    else
      LogDebug "RestoreFocus: Original foreground window %p is already active or user switched. No restore needed.".

(** ** Keystroke injection (main.c 595-647) *)

(** main.c 625-629: Ctrl down, F5 down, F5 up, Ctrl up. *)
Definition ctrl_f5_inputs : list INPUT :=
  [ mkINPUT INPUT_KEYBOARD VK_CONTROL 0;
    mkINPUT INPUT_KEYBOARD VK_F5 0;
    mkINPUT INPUT_KEYBOARD VK_F5 KEYEVENTF_KEYUP;
    mkINPUT INPUT_KEYBOARD VK_CONTROL KEYEVENTF_KEYUP ].

(** main.c 595-647. *)
Definition SendCtrlF5Keystroke (targetHwnd : HWND) : M unit :=
  alive <- IsWindow targetHwnd ;;
  if negb alive then
    LogWarning "SendCtrlF5: Target HWND %p is invalid. Skipping." ;;
    printf "Warning: The target window seems to be closed. Keystroke not sent."
  else
    hOriginalForeground <- GetForegroundWindow ;;
    let targetWasAlreadyForeground := hOriginalForeground =? targetHwnd in
    focusSetForInput <-
      (if negb targetWasAlreadyForeground then
         ActivateWindowAndEnsureFocus targetHwnd hOriginalForeground
       else
         LogDebug "SendCtrlF5: Target window %p is already foreground." ;;
         ret targetWasAlreadyForeground) ;;
    focusSetForInput <-
      (if focusSetForInput then
         iconic <- IsIconic targetHwnd ;;
         focusSetForInput <-
           (if iconic then
              LogDebug "SendCtrlF5: Target %p became iconic before SendInput. Restoring." ;;
              ShowWindow targetHwnd SW_RESTORE ;;
              WaitMilliseconds FOCUS_SWITCH_RETRY_DELAY_MS ;;
              fg <- GetForegroundWindow ;;
              if negb (fg =? targetHwnd) then
                LogWarning "SendCtrlF5: Failed to keep target %p foreground after restore. Skipping SendInput." ;;
                ret false
              else ret true
            else ret true) ;;
         (if focusSetForInput then
            uSent <- SendInput ctrl_f5_inputs ;;
            if negb (uSent =? 4) then
              LogError "SendCtrlF5 (SendInput): Failed. Sent %u of 4. Error: %lu"
            else
              LogDebug "SendCtrlF5 (SendInput): Sent Ctrl+F5 to HWND %p."
          else ret tt) ;;
         ret focusSetForInput
       else
         printf "Info: Could not reliably switch to target window. Keystroke for Ctrl+F5 skipped this cycle." ;;
         ret false) ;;
    if negb targetWasAlreadyForeground then
      RestoreOriginalFocus hOriginalForeground targetHwnd focusSetForInput
    else ret tt.

(** ** The dispatcher loop (main.c 142-176) *)

(** [(DWORD)(wait_duration_s * 1000.0)]: the product is rounded to a
    double, and the conversion drops its fraction. *)
Definition delay_ms (wait_duration_s : Q) : Z :=
  let ms := round_double (wait_duration_s * 1000) in Z.quot (Qnum ms) (Zpos (Qden ms)).

Inductive control := Break | Continue.

Section Dispatcher.

(** The globals the loop reads: the target handle picked at start-up and
    the bounds left by [LoadConfiguration]. *)
Variable g_hTargetWindow : HWND.
Variables g_min_delay_seconds g_max_delay_seconds : Q.

(** One pass through the body of [while (TRUE)], main.c 144-175: how the
    pass leaves the body, and [keystroke_count] afterwards. *)
Definition loop_body (keystroke_count : Z) : M (control * Z) :=
  alive <- IsWindow g_hTargetWindow ;;
  if negb alive then
    printf "Target window (HWND %p) no longer exists. Stopping." ;;
    LogWarning "Main: Target window HWND %p no longer exists. Exiting loop." ;;
    ret (Break, keystroke_count)
  else
    wait_duration_s <- GetRandomDelaySeconds g_min_delay_seconds g_max_delay_seconds ;;
    GetWindowText g_hTargetWindow ;;
    printf "Waiting for %.2fs before sending Ctrl+F5 to %s..." ;;
    LogDebug "Main: Waiting for %.3f seconds." ;;
    WaitMilliseconds (delay_ms wait_duration_s) ;;
    held <- IsAltKeyHeld ;;
    if held then
      printf "Info: Alt key is currently pressed. Skipping keystroke to avoid conflict." ;;
      LogDebug "Main: Alt key detected as pressed. Deferring SendCtrlF5Keystroke." ;;
      WaitMilliseconds ALT_KEY_CHECK_DELAY_MS ;;
      ret (Continue, keystroke_count)
    else
      alive <- IsWindow g_hTargetWindow ;;
      if negb alive then
        printf "Target window (HWND %p) disappeared before sending keystroke. Stopping." ;;
        LogWarning "Main: Target window HWND %p disappeared during wait. Exiting loop." ;;
        ret (Break, keystroke_count)
      else
        let keystroke_count := keystroke_count + 1 in
        printf "Sending Ctrl+F5 (Count: %d) to window %s..." ;;
        SendCtrlF5Keystroke g_hTargetWindow ;;
        WaitMilliseconds POST_SENDINPUT_DELAY_MS ;;
        ret (Continue, keystroke_count).

(** [while (TRUE) { ... }], unrolled at most [passes] times. *)
Fixpoint main_loop (passes : nat) (keystroke_count : Z) : M (control * Z) :=
  match passes with
  | O => ret (Continue, keystroke_count)
  | S passes' =>
      r <- loop_body keystroke_count ;;
      match fst r with
      | Break => ret r
      | Continue => main_loop passes' (snd r)
      end
  end.

End Dispatcher.

End Program.

(** ** Configuration (main.c 275-380) *)

(** What [atof] can return: a finite value, an infinity or a NaN.  Ordered
    comparisons follow IEEE 754: any comparison with a NaN is false. *)
Inductive double := Finite (q : Q) | Infinite (negative : bool) | NaN.

Definition Qlt_bool (x y : Q) : bool := negb (Qle_bool y x).

Definition double_lt (a b : double) : bool :=
  match a, b with
  | Finite x, Finite y => Qlt_bool x y
  | Finite _, Infinite negative => negb negative
  | Infinite negative, Finite _ => negative
  | Infinite n1, Infinite n2 => n1 && negb n2
  | _, _ => false
  end.

(** The rational a finite double holds. *)
Definition finite_value (d : double) : Q :=
  match d with Finite q => q | _ => 0%Q end.

(** [isspace] in the C locale: space and the controls 9 to 13. *)
Definition isspace (c : ascii) : bool :=
  let n := nat_of_ascii c in (n =? 32)%nat || ((9 <=? n)%nat && (n <=? 13)%nat).

Definition newline : ascii := ascii_of_nat 10.
Definition tab : ascii := ascii_of_nat 9.
Definition NUL : ascii := ascii_of_nat 0.

(** A buffer read as a C string ends at its first NUL. *)
Fixpoint c_str (buffer : string) : string :=
  match buffer with
  | EmptyString => EmptyString
  | String c rest => if Ascii.eqb c NUL then EmptyString else String c (c_str rest)
  end.

(** The successive results of [fgets(line, sizeof(line), configFile)] until
    it returns NULL: each stops after a newline or when [room] characters
    (the buffer size less one) have been stored.  [file] is the text as the
    stdio layer delivers it; [line_rev] is the current buffer, reversed. *)
Fixpoint fgets_lines (file : string) (line_rev : list ascii) (room : nat) : list string :=
  match file with
  | EmptyString =>
      match line_rev with
      | [] => []
      | _ => [string_of_list_ascii (rev line_rev)]
      end
  | String c rest =>
      if Ascii.eqb c newline || (room =? 1)%nat then
        string_of_list_ascii (rev (c :: line_rev))
          :: fgets_lines rest [] (MAX_CONFIG_LINE_LENGTH - 1)
      else fgets_lines rest (c :: line_rev) (room - 1)
  end.

Fixpoint skip_space (s : string) : string :=
  match s with
  | String c rest => if isspace c then skip_space rest else s
  | EmptyString => s
  end.

Fixpoint drop_trailing_space (s : string) : string :=
  match s with
  | EmptyString => EmptyString
  | String c rest =>
      match drop_trailing_space rest with
      | EmptyString => if isspace c then EmptyString else String c EmptyString
      | kept => String c kept
      end
  end.

(** main.c 275-286.  After the leading blanks are skipped the first character
    is not a blank, so the backward scan, which stops at [str], removes
    exactly the trailing blanks. *)
Definition TrimWhitespace (str : string) : string :=
  match skip_space str with
  | EmptyString => EmptyString
  | s => drop_trailing_space s
  end.

(** The longest prefix of at most [width] characters accepted by [p], and
    what follows it. *)
Fixpoint scan_while (p : ascii -> bool) (width : nat) (s : string) : string * string :=
  match width, s with
  | S width', String c rest =>
      if p c then let (taken, left) := scan_while p width' rest in (String c taken, left)
      else (EmptyString, s)
  | _, _ => (EmptyString, s)
  end.

Definition is_empty (s : string) : bool :=
  match s with EmptyString => true | _ => false end.

(** [sscanf(trimmed_line, "%127[^= \t] = %127s", key, value_str)]: the number
    of conversions stored, with the key and the value. *)
Definition sscanf_key_value (trimmed_line : string) : Z * string * string :=
  let in_key c := negb (Ascii.eqb c "="%char || Ascii.eqb c " "%char || Ascii.eqb c tab) in
  let (key, after_key) := scan_while in_key 127 trimmed_line in
  if is_empty key then (0, EmptyString, EmptyString)
  else
    match skip_space after_key with
    | String "="%char after_eq =>
        let (value_str, _) := scan_while (fun c => negb (isspace c)) 127 (skip_space after_eq) in
        if is_empty value_str then (1, key, EmptyString) else (2, key, value_str)
    | _ => (1, key, EmptyString)
    end.

(** main.c 292-307; [fopen_w] tells whether the file could be opened for
    writing. *)
Definition CreateDefaultConfigFile (fopen_w : bool) : M bool :=
  if negb fopen_w then
    printf "Warning: Could not create default '%s'." ;;
    LogWarning "LoadConfig: Failed to create default '%s'." ;;
    ret false
  else
    emit (EvFprintf "# Configuration for Window Refresher") ;;
    emit (EvFprintf "# Delays are in seconds (can be fractional, e.g., 2.5)") ;;
    emit (EvFprintf "min_delay = %.1f") ;;
    emit (EvFprintf "max_delay = %.1f") ;;
    printf "Info: A default '%s' has been created." ;;
    LogInfo "LoadConfig: Created default '%s'." ;;
    ret true.

Section Configuration.

(** The C library's [atof]. *)
Variable atof : string -> double.

(** The two globals, [(g_min_delay_seconds, g_max_delay_seconds)]. *)
Definition delays : Type := (Q * Q)%type.

(** main.c 335-366: the body of the read loop for one line. *)
Definition read_line (line : string) (g : delays) : M delays :=
  let trimmed_line := TrimWhitespace (c_str line) in
  match trimmed_line with
  | EmptyString => ret g
  | String first _ =>
      if Ascii.eqb first "#"%char || Ascii.eqb first ";"%char then ret g
      else
        let '(converted, key, value_str) := sscanf_key_value trimmed_line in
        if converted =? 2 then
          let trimmed_key := TrimWhitespace key in
          let trimmed_value_str := TrimWhitespace value_str in
          let parsed_val := atof trimmed_value_str in
          if String.eqb trimmed_key "min_delay" then
            if double_lt (Finite 0) parsed_val && double_lt parsed_val (Finite 3600) then
              LogDebug "LoadConfig: Loaded min_delay = %.2f" ;;
              ret (finite_value parsed_val, snd g)
            else
              LogWarning "LoadConfig: Invalid value for min_delay on line %d: '%s'. Using default or previous." ;;
              ret g
          else if String.eqb trimmed_key "max_delay" then
            if double_lt (Finite 0) parsed_val && double_lt parsed_val (Finite 3600) then
              LogDebug "LoadConfig: Loaded max_delay = %.2f" ;;
              ret (fst g, finite_value parsed_val)
            else
              LogWarning "LoadConfig: Invalid value for max_delay on line %d: '%s'. Using default or previous." ;;
              ret g
          else
            LogWarning "LoadConfig: Unknown key '%s' on line %d." ;;
            ret g
        else
          LogWarning "LoadConfig: Could not parse line %d: '%s'" ;;
          ret g
  end.

(** main.c 334-367: [while (fgets(...) != NULL)]. *)
Fixpoint read_lines (lines : list string) (g : delays) : M delays :=
  match lines with
  | [] => ret g
  | line :: rest => g' <- read_line line g ;; read_lines rest g'
  end.

(** main.c 314-380.  [configFile] is what [fopen(CONFIG_FILE_NAME, "r")]
    gives: [None] when the file cannot be opened. *)
Definition LoadConfiguration (configFile : option string) (fopen_w : bool) : M delays :=
  let g := (DEFAULT_MIN_DELAY_S, DEFAULT_MAX_DELAY_S) in
  match configFile with
  | None =>
      printf "Info: '%s' not found. Using default delay values (Min: %.1fs, Max: %.1fs)." ;;
      LogInfo "LoadConfig: '%s' not found. Using default delays." ;;
      _ <- CreateDefaultConfigFile fopen_w ;;
      ret g
  | Some file =>
      LogInfo "LoadConfig: Reading configuration from '%s'." ;;
      g <- read_lines (fgets_lines file [] (MAX_CONFIG_LINE_LENGTH - 1)) g ;;
      g <- (if Qlt_bool (snd g) (fst g) then
              printf "Warning: min_delay (%.1fs) in config is greater than max_delay (%.1fs). Swapping them." ;;
              LogWarning "LoadConfig: min_delay > max_delay. Swapping. Min: %.2f, Max: %.2f" ;;
              ret (snd g, fst g)
            else ret g) ;;
      printf "Info: Using delays - Min: %.1fs, Max: %.1fs (from '%s')." ;;
      ret g
  end.

End Configuration.

(** A reading of decimal text, enough for the plain numbers of a config file:
    an optional sign, digits, and an optional fraction.  Text that does not
    start with a number reads as zero, as [atof] reports it. *)
Definition digit_of (c : ascii) : option Z :=
  let n := nat_of_ascii c in
  if (48 <=? n)%nat && (n <=? 57)%nat then Some (Z.of_nat (n - 48)) else None.

Fixpoint read_digits (s : string) (acc : Z) (count : nat) : Z * nat * string :=
  match s with
  | String c rest =>
      match digit_of c with
      | Some d => read_digits rest (10 * acc + d) (S count)
      | None => (acc, count, s)
      end
  | EmptyString => (acc, count, s)
  end.

Definition atof_decimal (s : string) : double :=
  let s := skip_space s in
  let '(negative, s) :=
    match s with
    | String "-"%char rest => (true, rest)
    | String "+"%char rest => (false, rest)
    | _ => (false, s)
    end in
  let '(whole, whole_digits, s) := read_digits s 0 O in
  let '(numerator, fraction_digits) :=
    match s with
    | String "."%char rest =>
        let '(n, k, _) := read_digits rest whole O in (n, k)
    | _ => (whole, O)
    end in
  let magnitude := (inject_Z numerator / inject_Z (10 ^ Z.of_nat fraction_digits))%Q in
  if ((whole_digits + fraction_digits)%nat =? 0)%nat then Finite 0
  else Finite (if negative then - magnitude else magnitude)%Q.

(** ** Reading a run: what the recorded calls say *)

(** [quiet p m]: whatever the clock, [m] makes no call that [p] selects. *)
Definition quiet {A} (p : event -> bool) (m : M A) : Prop :=
  forall n, existsb p (events (m n)) = false.

Definition is_injection (e : event) : bool :=
  match e with EvSendInput _ _ => true | _ => false end.

Definition is_join_call (e : event) : bool :=
  match e with EvAttachThreadInput _ _ _ _ => true | _ => false end.

Definition is_activation (e : event) : bool :=
  match e with EvSetForegroundWindow _ => true | _ => false end.

Definition is_key_read (e : event) : bool :=
  match e with EvGetAsyncKeyState _ _ => true | _ => false end.

Definition is_settle_pause (e : event) : bool :=
  match e with EvSleep ms => ms =? FOCUS_SETTLE_DELAY_MS | _ => false end.

(** A read of one of the three Alt keys that found it down. *)
Definition is_alt_down (e : event) : bool :=
  match e with
  | EvGetAsyncKeyState vk state =>
      ((vk =? VK_MENU) || (vk =? VK_LMENU) || (vk =? VK_RMENU)) && key_down state
  | _ => false
  end.

Definition alt_seen_down (evs : list event) : bool := existsb is_alt_down evs.

(** The [SendInput] calls of a run, each with the events submitted and the
    count the system accepted. *)
Definition injections (evs : list event) : list (list INPUT * Z) :=
  flat_map (fun e => match e with EvSendInput i r => [(i, r)] | _ => [] end) evs.

(** The thread-input history of a run: the joins that succeeded and every
    unjoin issued, in the order of the calls. *)
Inductive join_step :=
| Join (idAttach idAttachTo : DWORD)
| Unjoin (idAttach idAttachTo : DWORD).

Definition join_log (evs : list event) : list join_step :=
  flat_map (fun e => match e with
                     | EvAttachThreadInput a b true true => [Join a b]
                     | EvAttachThreadInput a b false _ => [Unjoin a b]
                     | _ => []
                     end) evs.

Definition joins (evs : list event) : list (DWORD * DWORD) :=
  flat_map (fun e => match e with
                     | EvAttachThreadInput a b true true => [(a, b)]
                     | _ => []
                     end) evs.

Definition failed_joins (evs : list event) : list (DWORD * DWORD) :=
  flat_map (fun e => match e with
                     | EvAttachThreadInput a b true false => [(a, b)]
                     | _ => []
                     end) evs.

Definition unjoins (evs : list event) : list (DWORD * DWORD) :=
  flat_map (fun e => match e with
                     | EvAttachThreadInput a b false _ => [(a, b)]
                     | _ => []
                     end) evs.

(** The foreground window read right after the settle pause, if the run
    paused to settle. *)
Fixpoint settle_recheck (evs : list event) : option HWND :=
  match evs with
  | [] => None
  | EvSleep ms :: rest =>
      if ms =? FOCUS_SETTLE_DELAY_MS then
        match rest with
        | EvGetForegroundWindow fg :: _ => Some fg
        | _ => None
        end
      else settle_recheck rest
  | _ :: rest => settle_recheck rest
  end.

(** The draw that [GetRandomDelaySeconds] scales: a 32-bit value read from
    [CryptGenRandom], or from [rand] when the provider fails. *)
Definition drawn (evs : list event) (random_value : Z) : Prop :=
  In (EvCryptGenRandom (Some random_value)) evs \/ In (EvRand random_value) evs.

(** [parsed_val > 0.0 && parsed_val < 3600.0], main.c 348 and 355. *)
Definition valid_delay (parsed_val : double) : bool :=
  double_lt (Finite 0) parsed_val && double_lt parsed_val (Finite 3600).

(** The key and the value a config line assigns, as [read_line] extracts
    them: nothing for a blank line, a comment or a line [sscanf] cannot
    split. *)
Definition assignment (line : string) : option (string * string) :=
  match TrimWhitespace (c_str line) with
  | EmptyString => None
  | String first rest =>
      if Ascii.eqb first "#"%char || Ascii.eqb first ";"%char then None
      else
        let '(converted, key, value_str) := sscanf_key_value (String first rest) in
        if converted =? 2 then Some (TrimWhitespace key, TrimWhitespace value_str)
        else None
  end.

(** The text is not empty and its last character is a newline. *)
Fixpoint ends_in_newline (s : string) : bool :=
  match s with
  | EmptyString => false
  | String c rest =>
      match rest with
      | EmptyString => Ascii.eqb c newline
      | _ => ends_in_newline rest
      end
  end.

(** Both delays lie strictly between 0 and 3600 seconds. *)
Definition in_bounds (g : delays) : Prop :=
  ((0 < fst g)%Q /\ (fst g < 3600)%Q) /\ ((0 < snd g)%Q /\ (snd g < 3600)%Q).

(** The three messages with which a delivery says that it made no
    injection: the target is not a window (main.c 597), the focus could not
    be switched (main.c 639), the focus was lost after un-minimising
    (main.c 618). *)
Definition is_skip_notice (e : event) : bool :=
  match e with
  | EvLog WARNING format =>
      String.eqb format "SendCtrlF5: Target HWND %p is invalid. Skipping." ||
      String.eqb format
        "SendCtrlF5: Failed to keep target %p foreground after restore. Skipping SendInput."
  | EvPrintf format =>
      String.eqb format
        "Info: Could not reliably switch to target window. Keystroke for Ctrl+F5 skipped this cycle."
  | _ => false
  end.

(** ** Sample worlds *)

(** The target (window 1) is alive, in front and not minimised, no key is
    down, every join and every injection succeeds, and the provider fills
    the draw with ones. *)
Definition calm_world : World :=
  {| w_IsWindow := fun _ => true;
     w_GetForegroundWindow := 1;
     w_GetCurrentThreadId := 10;
     w_GetWindowThreadProcessId := fun h => 10 + h;
     w_AttachThreadInput := fun _ _ _ => true;
     w_IsIconic := fun _ => false;
     w_GetAsyncKeyState := fun _ => 0;
     w_SendInput := 4;
     w_CryptAcquireContext := true;
     w_CryptGenRandom := Some UINT_MAX;
     w_rand := 0 |}.

Definition with_keys (w : World) (keys : Z -> Z) : World :=
  {| w_IsWindow := w_IsWindow w;
     w_GetForegroundWindow := w_GetForegroundWindow w;
     w_GetCurrentThreadId := w_GetCurrentThreadId w;
     w_GetWindowThreadProcessId := w_GetWindowThreadProcessId w;
     w_AttachThreadInput := w_AttachThreadInput w;
     w_IsIconic := w_IsIconic w;
     w_GetAsyncKeyState := keys;
     w_SendInput := w_SendInput w;
     w_CryptAcquireContext := w_CryptAcquireContext w;
     w_CryptGenRandom := w_CryptGenRandom w;
     w_rand := w_rand w |}.

Definition with_foreground (w : World) (fg : HWND) : World :=
  {| w_IsWindow := w_IsWindow w;
     w_GetForegroundWindow := fg;
     w_GetCurrentThreadId := w_GetCurrentThreadId w;
     w_GetWindowThreadProcessId := w_GetWindowThreadProcessId w;
     w_AttachThreadInput := w_AttachThreadInput w;
     w_IsIconic := w_IsIconic w;
     w_GetAsyncKeyState := w_GetAsyncKeyState w;
     w_SendInput := w_SendInput w;
     w_CryptAcquireContext := w_CryptAcquireContext w;
     w_CryptGenRandom := w_CryptGenRandom w;
     w_rand := w_rand w |}.

Definition with_windows (w : World) (alive : HWND -> bool) : World :=
  {| w_IsWindow := alive;
     w_GetForegroundWindow := w_GetForegroundWindow w;
     w_GetCurrentThreadId := w_GetCurrentThreadId w;
     w_GetWindowThreadProcessId := w_GetWindowThreadProcessId w;
     w_AttachThreadInput := w_AttachThreadInput w;
     w_IsIconic := w_IsIconic w;
     w_GetAsyncKeyState := w_GetAsyncKeyState w;
     w_SendInput := w_SendInput w;
     w_CryptAcquireContext := w_CryptAcquireContext w;
     w_CryptGenRandom := w_CryptGenRandom w;
     w_rand := w_rand w |}.

(** The state [GetAsyncKeyState] reports for a key that is down: the top
    bit of the [SHORT] is set. *)
Definition KEY_DOWN_STATE : Z := -32768.

(** The user holds Ctrl (either side) and no Alt key. *)
Definition ctrl_held_world : World :=
  with_keys calm_world
    (fun vk => if (vk =? VK_CONTROL) || (vk =? VK_LCONTROL) || (vk =? VK_RCONTROL)
               then KEY_DOWN_STATE else 0).

(** The user holds the left Alt key. *)
Definition alt_held_world : World :=
  with_keys calm_world
    (fun vk => if (vk =? VK_MENU) || (vk =? VK_LMENU) then KEY_DOWN_STATE else 0).

(** Alt is down when the first pass reads the keys (its seventh call) and
    released afterwards. *)
Definition alt_then_released (k : nat) : World :=
  if (k =? 6)%nat then alt_held_world else calm_world.

(** Another window (2) is in front; the target (1) gets the foreground as
    soon as it is asked for, and has lost it again when the settle pause
    ends (the thirteenth call of [SendCtrlF5Keystroke]). *)
Definition focus_stolen_back (k : nat) : World :=
  if (k <? 10)%nat then with_foreground calm_world 2
  else if (k =? 12)%nat then with_foreground calm_world 2
  else calm_world.

(** Another window (2) is in front; the target (1) gets the foreground as
    soon as it is asked for and keeps it. *)
Definition focus_granted (k : nat) : World :=
  if (k <? 10)%nat then with_foreground calm_world 2 else calm_world.

(** The target window is gone. *)
Definition target_gone (k : nat) : World := with_windows calm_world (fun _ => false).

(** Another window (2) is in front; the join to the target's thread (11) is
    refused, the join to the other window's thread (12) is granted, and the
    target never gets the foreground. *)
Definition join_refused (k : nat) : World :=
  {| w_IsWindow := fun _ => true;
     w_GetForegroundWindow := 2;
     w_GetCurrentThreadId := 10;
     w_GetWindowThreadProcessId := fun h => 10 + h;
     w_AttachThreadInput := fun _ idAttachTo _ => negb (idAttachTo =? 11);
     w_IsIconic := fun _ => false;
     w_GetAsyncKeyState := fun _ => 0;
     w_SendInput := 4;
     w_CryptAcquireContext := true;
     w_CryptGenRandom := Some UINT_MAX;
     w_rand := 0 |}.

(** The target is in front, but the system accepts only three of the four
    events. *)
Definition partial_injection (k : nat) : World :=
  {| w_IsWindow := fun _ => true;
     w_GetForegroundWindow := 1;
     w_GetCurrentThreadId := 10;
     w_GetWindowThreadProcessId := fun h => 10 + h;
     w_AttachThreadInput := fun _ _ _ => true;
     w_IsIconic := fun _ => false;
     w_GetAsyncKeyState := fun _ => 0;
     w_SendInput := 3;
     w_CryptAcquireContext := true;
     w_CryptGenRandom := Some UINT_MAX;
     w_rand := 0 |}.

Definition line_feed : string := String newline EmptyString.

(** Two config files: the delays in the wrong order, and a minimum that is
    out of range next to a maximum that is fine. *)
Definition swapped_config : string :=
  ("min_delay=10" ++ line_feed ++ "max_delay=5" ++ line_feed)%string.

Definition out_of_range_config : string :=
  ("min_delay=9999" ++ line_feed ++ "max_delay=5" ++ line_feed)%string.


(** [atof] on plain decimal text: the double nearest to the decimal. *)
Definition atof_double (s : string) : double :=
  match atof_decimal s with
  | Finite q => Finite (round_double q)
  | d => d
  end.

(** Both delays are doubles. *)
Definition both_doubles (g : delays) : Prop := is_double (fst g) /\ is_double (snd g).

(** ** Window selection (main.c 411-462) *)

Definition MAIN_LOOP_POLL_INTERVAL_MS : Z := 50.
Definition VK_LBUTTON : Z := 1.
Definition GA_ROOT : Z := 2.
Definition GA_ROOTOWNER : Z := 3.

Section Selection.

Variable env : nat -> World.

(** What the three calls made after the click answer.  Each is made at most
    once with given arguments, so a function of the arguments is as general
    as an answer that changes with time: [GetCursorPos] gives the position
    or fails, [WindowFromPoint] and [GetAncestor] give a handle or NULL. *)
Variable GetCursorPos : option (Z * Z).
Variable WindowFromPoint : Z * Z -> HWND.
Variable GetAncestor : HWND -> Z -> HWND.

(** The state of the left button at the read made at clock [k]. *)
Definition button_down (k : nat) : bool :=
  key_down (w_GetAsyncKeyState (env k) VK_LBUTTON).

(** main.c 423-425 and 429-431: [while (button is not as wanted) wait], for
    at most [polls] reads of the button; the answer tells whether the loop
    was left. *)
Fixpoint poll_button (want_down : bool) (polls : nat) : M bool :=
  match polls with
  | O => ret false
  | S polls' =>
      state <- GetAsyncKeyState env VK_LBUTTON ;;
      if Bool.eqb (key_down state) want_down then ret true
      else
        WaitMilliseconds MAIN_LOOP_POLL_INTERVAL_MS ;;
        poll_button want_down polls'
  end.

(** main.c 411-462.  [None]: still polling when the [polls] reads allowed
    to one of the two loops are used up; [Some h]: the function returned
    [h], NULL included. *)
Definition GetTopLevelWindowFromClick (polls : nat) : M (option HWND) :=
  printf "--- Window Selection ---" ;;
  printf "Please CLICK ANYWHERE on the window you want to target." ;;
  printf "Waiting for your click..." ;;
  LogDebug "GetTopLevelWindowFromClick: Waiting for left mouse button click." ;;
  pressed <- poll_button true polls ;;
  if negb pressed then ret None else
  LogDebug "GetTopLevelWindowFromClick: Left mouse button pressed." ;;
  released <- poll_button false polls ;;
  if negb released then ret None else
  LogDebug "GetTopLevelWindowFromClick: Left mouse button released." ;;
  match GetCursorPos with
  | Some cursorPos =>
      let clickedHwnd := WindowFromPoint cursorPos in
      if negb (clickedHwnd =? NULL) then
        let topLevelHwnd := GetAncestor clickedHwnd GA_ROOTOWNER in
        let topLevelHwnd :=
          if topLevelHwnd =? NULL then GetAncestor clickedHwnd GA_ROOT else topLevelHwnd in
        let topLevelHwnd :=
          if topLevelHwnd =? NULL then clickedHwnd else topLevelHwnd in
        GetWindowText topLevelHwnd ;;
        printf "Window selected: %s (HWND: %p)" ;;
        LogInfo "GetTopLevelWindowFromClick: Click at (%ld, %ld). WindowFromPoint HWND: %p. Top-level HWND: %p. Title: %s" ;;
        ret (Some topLevelHwnd)
      else
        printf "Could not identify a window at the click position." ;;
        LogWarning "GetTopLevelWindowFromClick: WindowFromPoint returned NULL." ;;
        ret (Some NULL)
  | None =>
      printf "Failed to get cursor position." ;;
      LogError "GetTopLevelWindowFromClick: GetCursorPos failed. Error: %lu" ;;
      ret (Some NULL)
  end.

End Selection.

(** ** More readings of a run *)

(** The largest value of an [int], the type of [keystroke_count]. *)
Definition INT_MAX : Z := 2147483647.

(** The windows [SetForegroundWindow] was called on, in order. *)
Definition activation_targets (evs : list event) : list HWND :=
  flat_map (fun e => match e with EvSetForegroundWindow h => [h] | _ => [] end) evs.

(** The time slept, in milliseconds. *)
Definition total_sleep (evs : list event) : Z :=
  fold_right (fun e acc => match e with EvSleep ms => ms + acc | _ => acc end) 0 evs.

(** The calls that touch the focus state: joins and unjoins, window
    restores and foreground requests. *)
Definition is_focus_call (e : event) : bool :=
  match e with
  | EvAttachThreadInput _ _ _ _ | EvShowWindow _ _ | EvSetForegroundWindow _ => true
  | _ => false
  end.

Definition focus_calls (evs : list event) : list event := filter is_focus_call evs.

(** A [Sleep] for no time at all, or less. *)
Definition is_empty_sleep (e : event) : bool :=
  match e with EvSleep ms => ms <=? 0 | _ => false end.



(** The joins still open after a run that started with the joins [open]:
    a join that succeeds is added, an unjoin removes the pair it names. *)
Definition same_pair (p q : DWORD * DWORD) : bool :=
  (fst p =? fst q) && (snd p =? snd q).

Fixpoint open_joins (open : list (DWORD * DWORD)) (evs : list event) : list (DWORD * DWORD) :=
  match evs with
  | [] => open
  | EvAttachThreadInput a b true true :: rest => open_joins ((a, b) :: open) rest
  | EvAttachThreadInput a b false _ :: rest =>
      open_joins (filter (fun p => negb (same_pair p (a, b))) open) rest
  | _ :: rest => open_joins open rest
  end.

(** The foreground window last read, [last] if the run reads none. *)
Fixpoint last_foreground_read (last : option HWND) (evs : list event) : option HWND :=
  match evs with
  | [] => last
  | EvGetForegroundWindow h :: rest => last_foreground_read (Some h) rest
  | _ :: rest => last_foreground_read last rest
  end.

(** For each [SendInput] call of a run, the foreground window last read
    before it. *)
Fixpoint foreground_at_injections (last : option HWND) (evs : list event)
  : list (option HWND) :=
  match evs with
  | [] => []
  | EvGetForegroundWindow h :: rest => foreground_at_injections (Some h) rest
  | EvSendInput _ _ :: rest => last :: foreground_at_injections last rest
  | _ :: rest => foreground_at_injections last rest
  end.

(** The keys [GetAsyncKeyState] was asked about, in order. *)
Definition keys_read (evs : list event) : list Z :=
  flat_map (fun e => match e with EvGetAsyncKeyState vk _ => [vk] | _ => [] end) evs.

(** Two worlds that differ at most in the state of keys other than the
    three Alt keys. *)
Definition same_but_other_keys (w1 w2 : World) : Prop :=
  (forall h, w_IsWindow w1 h = w_IsWindow w2 h) /\
  w_GetForegroundWindow w1 = w_GetForegroundWindow w2 /\
  w_GetCurrentThreadId w1 = w_GetCurrentThreadId w2 /\
  (forall h, w_GetWindowThreadProcessId w1 h = w_GetWindowThreadProcessId w2 h) /\
  (forall a b f, w_AttachThreadInput w1 a b f = w_AttachThreadInput w2 a b f) /\
  (forall h, w_IsIconic w1 h = w_IsIconic w2 h) /\
  w_GetAsyncKeyState w1 VK_MENU = w_GetAsyncKeyState w2 VK_MENU /\
  w_GetAsyncKeyState w1 VK_LMENU = w_GetAsyncKeyState w2 VK_LMENU /\
  w_GetAsyncKeyState w1 VK_RMENU = w_GetAsyncKeyState w2 VK_RMENU /\
  w_SendInput w1 = w_SendInput w2 /\
  w_CryptAcquireContext w1 = w_CryptAcquireContext w2 /\
  w_CryptGenRandom w1 = w_CryptGenRandom w2 /\
  w_rand w1 = w_rand w2.

(** ** More readings of text *)

Fixpoint string_forall (p : ascii -> bool) (s : string) : bool :=
  match s with
  | EmptyString => true
  | String c rest => p c && string_forall p rest
  end.

(** The text is empty, or neither starts nor ends with a blank. *)
Definition starts_with (p : ascii -> bool) (s : string) : bool :=
  match s with
  | EmptyString => false
  | String c _ => p c
  end.

Fixpoint ends_with (p : ascii -> bool) (s : string) : bool :=
  match s with
  | EmptyString => false
  | String c rest =>
      match rest with
      | EmptyString => p c
      | _ => ends_with p rest
      end
  end.

Definition not_space (c : ascii) : bool := negb (isspace c).

Definition trimmed (s : string) : bool :=
  is_empty s || (starts_with not_space s && ends_with not_space s).

(** A space or a tab. *)
Definition is_blank (c : ascii) : bool := Ascii.eqb c " "%char || Ascii.eqb c tab.

(** A character of a key: no blank of any kind, no [=], no NUL. *)
Definition key_char (c : ascii) : bool :=
  negb (isspace c) && negb (Ascii.eqb c "="%char) && negb (Ascii.eqb c NUL).

(** A character of a value: no blank of any kind, no NUL. *)
Definition value_char (c : ascii) : bool := negb (isspace c) && negb (Ascii.eqb c NUL).

(** The formats of the [fprintf] calls of a run, in order. *)
Definition fprintf_formats (evs : list event) : list string :=
  flat_map (fun e => match e with EvFprintf format => [format] | _ => [] end) evs.

Definition is_fprintf (e : event) : bool :=
  match e with EvFprintf _ => true | _ => false end.

Definition is_warning (e : event) : bool :=
  match e with EvLog WARNING _ => true | _ => false end.

(** The provider cannot be acquired; [rand] answers 32767. *)
Definition provider_down (k : nat) : World :=
  {| w_IsWindow := fun _ => true;
     w_GetForegroundWindow := 1;
     w_GetCurrentThreadId := 10;
     w_GetWindowThreadProcessId := fun h => 10 + h;
     w_AttachThreadInput := fun _ _ _ => true;
     w_IsIconic := fun _ => false;
     w_GetAsyncKeyState := fun _ => 0;
     w_SendInput := 4;
     w_CryptAcquireContext := false;
     w_CryptGenRandom := None;
     w_rand := 32767 |}.

(** The left button is down at the fifth call (the third read of the first
    loop of the selection) and up at every other time. *)
Definition single_click (k : nat) : World :=
  if (k =? 4)%nat
  then with_keys calm_world (fun vk => if vk =? VK_LBUTTON then KEY_DOWN_STATE else 0)
  else calm_world.

(** A desktop where every window has a root (its handle plus one) and none
    has a root owner. *)
Definition root_of (h : HWND) (flags : Z) : HWND :=
  if flags =? GA_ROOT then h + 1 else NULL.

(** A stretch of 255 characters without a newline. *)
Definition long_comment : string :=
  string_of_list_ascii (repeat "#"%char 255).


(** * Properties *)

(** ** Running the monad *)

Lemma events_bind {A B} (m : M A) (k : A -> M B) n :
  events (bind m k n) = events (m n) ++ events (k (value (m n)) (clock (m n))).
Proof. reflexivity. Qed.

Lemma value_bind {A B} (m : M A) (k : A -> M B) n :
  value (bind m k n) = value (k (value (m n)) (clock (m n))).
Proof. reflexivity. Qed.

Lemma clock_bind {A B} (m : M A) (k : A -> M B) n :
  clock (bind m k n) = clock (k (value (m n)) (clock (m n))).
Proof. reflexivity. Qed.

Lemma quiet_ret {A} p (a : A) : quiet p (ret a).
Proof. intro n. reflexivity. Qed.

Lemma quiet_bind {A B} p (m : M A) (k : A -> M B) :
  quiet p m -> (forall a, quiet p (k a)) -> quiet p (bind m k).
Proof.
  intros Hm Hk n. rewrite events_bind, existsb_app, Hm, Hk. reflexivity.
Qed.

Lemma quiet_emit p e : p e = false -> quiet p (emit e).
Proof. intros H n. simpl. now rewrite H. Qed.

Lemma quiet_os_call {A} env p (obs : World -> A) ev :
  (forall r, p (ev r) = false) -> quiet p (os_call env obs ev).
Proof. intros H n. simpl. now rewrite H. Qed.

Lemma quiet_os_do p e : p e = false -> quiet p (os_do e).
Proof. intros H n. simpl. now rewrite H. Qed.

Create HintDb quiet_db.
#[local] Hint Resolve quiet_ret : quiet_db.

(** Splits a program along its binds and branches and closes the leaves,
    which are calls whose events [p] visibly rejects. *)
Ltac quiet_step :=
  match goal with
  | |- quiet _ (bind _ _) => apply quiet_bind; [ | intro ]
  | |- quiet _ (ret _) => apply quiet_ret
  | |- quiet _ (emit _) => apply quiet_emit; reflexivity
  | |- quiet _ (os_call _ _ _) => apply quiet_os_call; intro; reflexivity
  | |- quiet _ (os_do _) => apply quiet_os_do; reflexivity
  | |- quiet _ (if ?b then _ else _) => destruct b
  | |- quiet _ (match ?x with _ => _ end) => destruct x
  | |- quiet _ _ => solve [ auto with quiet_db ]
  end.

Ltac quiet_tac :=
  unfold printf, LogDebug, LogInfo, LogWarning, LogError, WaitMilliseconds,
    IsWindow, GetForegroundWindow, GetCurrentThreadId, GetWindowThreadProcessId,
    AttachThreadInput, IsIconic, ShowWindow, SetForegroundWindow, SendInput, Sleep,
    GetAsyncKeyState, GetWindowText, CryptAcquireContext, CryptGenRandom,
    CryptReleaseContext, rand;
  repeat quiet_step.

Section Quiet.

Variable env : nat -> World.

Lemma GetRandomDelaySeconds_quiet p min_s max_s :
  (forall l f, p (EvLog l f) = false) ->
  (forall r, p (EvCryptAcquireContext r) = false) ->
  (forall r, p (EvCryptGenRandom r) = false) ->
  p EvCryptReleaseContext = false ->
  (forall r, p (EvRand r) = false) ->
  quiet p (GetRandomDelaySeconds env min_s max_s).
Proof.
  intros Hl Ha Hg Hr Hd. unfold GetRandomDelaySeconds.
  unfold LogDebug, LogError, CryptAcquireContext, CryptGenRandom, CryptReleaseContext, rand.
  repeat match goal with
  | |- quiet _ (bind _ _) => apply quiet_bind; [ | intro ]
  | |- quiet _ (ret _) => apply quiet_ret
  | |- quiet _ (emit _) => apply quiet_emit; auto
  | |- quiet _ (os_call _ _ _) => apply quiet_os_call; auto
  | |- quiet _ (os_do _) => apply quiet_os_do; auto
  | |- quiet _ (if ?b then _ else _) => destruct b
  | |- quiet _ (match ?x with _ => _ end) => destruct x
  end.
Qed.

Lemma set_foreground_attempts_no_injection h k :
  quiet is_injection (set_foreground_attempts env h k).
Proof. induction k; simpl; quiet_tac. Qed.

Lemma set_foreground_attempts_no_join h k :
  quiet is_join_call (set_foreground_attempts env h k).
Proof. induction k; simpl; quiet_tac. Qed.

Lemma set_foreground_attempts_no_key_read h k :
  quiet is_key_read (set_foreground_attempts env h k).
Proof. induction k; simpl; quiet_tac. Qed.

#[local] Hint Resolve set_foreground_attempts_no_injection
  set_foreground_attempts_no_join set_foreground_attempts_no_key_read : quiet_db.

Lemma ActivateWindowAndEnsureFocus_no_injection t o :
  quiet is_injection (ActivateWindowAndEnsureFocus env t o).
Proof. unfold ActivateWindowAndEnsureFocus. quiet_tac. Qed.

Lemma ActivateWindowAndEnsureFocus_no_key_read t o :
  quiet is_key_read (ActivateWindowAndEnsureFocus env t o).
Proof. unfold ActivateWindowAndEnsureFocus. quiet_tac. Qed.

Lemma RestoreOriginalFocus_no_injection o t ok :
  quiet is_injection (RestoreOriginalFocus env o t ok).
Proof. unfold RestoreOriginalFocus. quiet_tac. Qed.

Lemma RestoreOriginalFocus_no_key_read o t ok :
  quiet is_key_read (RestoreOriginalFocus env o t ok).
Proof. unfold RestoreOriginalFocus. quiet_tac. Qed.

#[local] Hint Resolve ActivateWindowAndEnsureFocus_no_injection
  ActivateWindowAndEnsureFocus_no_key_read RestoreOriginalFocus_no_injection
  RestoreOriginalFocus_no_key_read : quiet_db.

Lemma SendCtrlF5Keystroke_no_key_read t :
  quiet is_key_read (SendCtrlF5Keystroke env t).
Proof. unfold SendCtrlF5Keystroke. quiet_tac. Qed.

End Quiet.

(** ** The rounding to [double] *)

Lemma round_half_even_comp x y : (x == y)%Q -> round_half_even x = round_half_even y.
Proof.
  intro H. unfold round_half_even.
  rewrite (Qfloor_comp x y H).
  assert (Hc : (x - inject_Z (Qfloor y) ?= 1 # 2)%Q = (y - inject_Z (Qfloor y) ?= 1 # 2)%Q).
  { apply Qcompare_comp; [now rewrite H | reflexivity]. }
  now rewrite Hc.
Qed.

Lemma round_half_even_Z n : round_half_even (inject_Z n) = n.
Proof.
  unfold round_half_even. rewrite Qfloor_Z.
  assert (H : (inject_Z n - inject_Z n < 1 # 2)%Q) by lra.
  now rewrite (proj1 (Qlt_alt _ _) H).
Qed.

(** The fraction left by the floor. *)
Lemma Qfloor_fraction x : (0 <= x - inject_Z (Qfloor x) < 1)%Q.
Proof.
  pose proof (Qfloor_le x) as Hlo. pose proof (Qlt_floor x) as Hhi.
  rewrite inject_Z_plus in Hhi. change (inject_Z 1) with 1%Q in Hhi. split; lra.
Qed.

Lemma round_half_even_cases x :
  (round_half_even x = Qfloor x /\ (x - inject_Z (Qfloor x) <= 1 # 2)%Q) \/
  (round_half_even x = Qfloor x + 1 /\ (1 # 2 <= x - inject_Z (Qfloor x))%Q).
Proof.
  unfold round_half_even.
  destruct (x - inject_Z (Qfloor x) ?= 1 # 2)%Q eqn:Hc.
  - apply (proj2 (Qeq_alt _ _)) in Hc. destruct (Z.even (Qfloor x)); [left | right]; split;
      try reflexivity; lra.
  - apply (proj2 (Qlt_alt _ _)) in Hc. left. split; [reflexivity | lra].
  - apply (proj2 (Qgt_alt _ _)) in Hc. right. split; [reflexivity | lra].
Qed.

Lemma round_half_even_monotone x y :
  (x <= y)%Q -> round_half_even x <= round_half_even y.
Proof.
  intro Hxy. pose proof (Qfloor_resp_le x y Hxy) as Hf.
  destruct (Z.eq_dec (Qfloor x) (Qfloor y)) as [Heq | Hne].
  - unfold round_half_even. rewrite <- Heq.
    assert (Hr : (x - inject_Z (Qfloor x) <= y - inject_Z (Qfloor x))%Q) by lra.
    destruct (x - inject_Z (Qfloor x) ?= 1 # 2)%Q eqn:Hcx;
      destruct (y - inject_Z (Qfloor x) ?= 1 # 2)%Q eqn:Hcy;
      first [apply (proj2 (Qeq_alt _ _)) in Hcx | apply (proj2 (Qlt_alt _ _)) in Hcx
            | apply (proj2 (Qgt_alt _ _)) in Hcx];
      first [apply (proj2 (Qeq_alt _ _)) in Hcy | apply (proj2 (Qlt_alt _ _)) in Hcy
            | apply (proj2 (Qgt_alt _ _)) in Hcy];
      try lra; destruct (Z.even (Qfloor x)); lia.
  - destruct (round_half_even_cases x) as [[-> _] | [-> _]];
      destruct (round_half_even_cases y) as [[-> _] | [-> _]]; lia.
Qed.

Lemma round_half_even_ge x n : (inject_Z n <= x)%Q -> n <= round_half_even x.
Proof.
  intro H. rewrite <- (round_half_even_Z n). now apply round_half_even_monotone.
Qed.

Lemma round_half_even_le x n : (x <= inject_Z n)%Q -> round_half_even x <= n.
Proof.
  intro H. rewrite <- (round_half_even_Z n). now apply round_half_even_monotone.
Qed.

(** The nearest integer is at most one half away. *)
Lemma round_half_even_near x :
  (x - (1 # 2) <= inject_Z (round_half_even x) <= x + (1 # 2))%Q.
Proof.
  pose proof (Qfloor_fraction x) as [H0 H1].
  destruct (round_half_even_cases x) as [[-> H] | [-> H]];
    rewrite ?inject_Z_plus; change (inject_Z 1) with 1%Q; split; lra.
Qed.

(** *** Powers of two *)

Lemma pow2_pos e : (0 < 2 ^ e)%Q.
Proof. apply Qpower_0_lt. reflexivity. Qed.

Lemma pow2_plus a b : (2 ^ (a + b) == 2 ^ a * 2 ^ b)%Q.
Proof. apply Qpower_plus. discriminate. Qed.

Lemma pow2_le a b : a <= b -> (2 ^ a <= 2 ^ b)%Q.
Proof. intro H. apply Qpower_le_compat_l; [exact H | discriminate]. Qed.

Lemma pow2_lt a b : a < b -> (2 ^ a < 2 ^ b)%Q.
Proof. intro H. apply Qpower_lt_compat_l; [exact H | reflexivity]. Qed.

Lemma pow2_lt_inv a b : (2 ^ a < 2 ^ b)%Q -> a < b.
Proof. intro H. apply (Qpower_lt_compat_l_inv 2); [exact H | reflexivity]. Qed.

Lemma pow2_Z k : 0 <= k -> (inject_Z (2 ^ k) == 2 ^ k)%Q.
Proof. intro H. now rewrite Zpower_Qpower. Qed.

Lemma pow2_split a b : (2 ^ a == 2 ^ (a - b) * 2 ^ b)%Q.
Proof. rewrite <- pow2_plus. now replace (a - b + b) with a by lia. Qed.

(** *** The binade of a number *)

Lemma ilog2_spec x :
  ~ (x == 0)%Q -> (2 ^ ilog2 x <= Qabs x)%Q /\ (Qabs x < 2 ^ (ilog2 x + 1))%Q.
Proof.
  intro Hx. destruct x as [num den]. unfold ilog2. cbn [Qnum Qden].
  assert (Hn : 0 < Z.abs num).
  { destruct num; [exfalso; apply Hx; reflexivity | reflexivity | reflexivity]. }
  set (n := Z.abs num) in *. set (a := Z.log2 n). set (b := Z.log2 (Zpos den)).
  assert (Ha : 2 ^ a <= n < 2 ^ (a + 1)).
  { unfold a. replace (Z.log2 n + 1) with (Z.succ (Z.log2 n)) by lia.
    apply Z.log2_spec. exact Hn. }
  assert (Hb : 2 ^ b <= Zpos den < 2 ^ (b + 1)).
  { unfold b. replace (Z.log2 (Zpos den) + 1) with (Z.succ (Z.log2 (Zpos den))) by lia.
    apply Z.log2_spec. reflexivity. }
  assert (Ha0 : 0 <= a) by apply Z.log2_nonneg.
  assert (Hb0 : 0 <= b) by apply Z.log2_nonneg.
  assert (Habs : (Qabs (num # den) == inject_Z n / inject_Z (Zpos den))%Q).
  { unfold Qabs. fold n. apply Qmake_Qdiv. }
  assert (Hd : (0 < inject_Z (Zpos den))%Q) by reflexivity.
  (* the four bounds as rationals *)
  assert (Qa1 : (2 ^ a <= inject_Z n)%Q).
  { rewrite <- pow2_Z by lia. rewrite <- Zle_Qle. lia. }
  assert (Qa2 : (inject_Z n < 2 ^ (a + 1))%Q).
  { rewrite <- pow2_Z by lia. rewrite <- Zlt_Qlt. lia. }
  assert (Qb1 : (2 ^ b <= inject_Z (Zpos den))%Q).
  { rewrite <- pow2_Z by lia. rewrite <- Zle_Qle. lia. }
  assert (Qb2 : (inject_Z (Zpos den) < 2 ^ (b + 1))%Q).
  { rewrite <- pow2_Z by lia. rewrite <- Zlt_Qlt. lia. }
  assert (Hup : (Qabs (num # den) < 2 ^ (a - b + 1))%Q).
  { rewrite Habs. apply Qlt_shift_div_r; [exact Hd|].
    assert (Hs : (2 ^ (a + 1) == 2 ^ (a - b + 1) * 2 ^ b)%Q).
    { rewrite <- pow2_plus. now replace (a - b + 1 + b) with (a + 1) by lia. }
    pose proof (pow2_pos (a - b + 1)). nra. }
  assert (Hlow : (2 ^ (a - b - 1) < Qabs (num # den))%Q).
  { rewrite Habs. apply Qlt_shift_div_l; [exact Hd|].
    assert (Hs : (2 ^ a == 2 ^ (a - b - 1) * 2 ^ (b + 1))%Q).
    { rewrite <- pow2_plus. now replace (a - b - 1 + (b + 1)) with a by lia. }
    pose proof (pow2_pos (a - b - 1)). nra. }
  destruct (Qle_bool (2 ^ (a - b)) (Qabs (num # den))) eqn:Ht.
  - apply Qle_bool_iff in Ht. split; [exact Ht | exact Hup].
  - assert (Hlt : (Qabs (num # den) < 2 ^ (a - b))%Q).
    { apply Qnot_le_lt. intro H. apply Qle_bool_iff in H. congruence. }
    split; [apply Qlt_le_weak, Hlow|].
    now replace (a - b - 1 + 1) with (a - b) by lia.
Qed.

Lemma ilog2_unique x k :
  (2 ^ k <= Qabs x)%Q -> (Qabs x < 2 ^ (k + 1))%Q -> ilog2 x = k.
Proof.
  intros Hlo Hhi.
  assert (Hx : ~ (x == 0)%Q).
  { intro H. rewrite H in Hlo. pose proof (pow2_pos k). simpl in Hlo. lra. }
  destruct (ilog2_spec x Hx) as [Slo Shi].
  assert (H1 : ilog2 x < k + 1) by (apply pow2_lt_inv; lra).
  assert (H2 : k < ilog2 x + 1) by (apply pow2_lt_inv; lra).
  lia.
Qed.

Lemma ilog2_comp x y : ~ (y == 0)%Q -> (x == y)%Q -> ilog2 x = ilog2 y.
Proof.
  intros Hnz H. destruct (ilog2_spec y Hnz) as [Slo Shi].
  apply ilog2_unique; now rewrite H.
Qed.

Lemma ilog2_monotone x y :
  ~ (x == 0)%Q -> (Qabs x <= Qabs y)%Q -> ilog2 x <= ilog2 y.
Proof.
  intros Hx Hxy.
  assert (Hy : ~ (y == 0)%Q).
  { intro H. rewrite H in Hxy. change (Qabs 0) with 0%Q in Hxy.
    apply Qabs_Qle_condition in Hxy. apply Hx. lra. }
  destruct (ilog2_spec x Hx) as [Xlo _]. destruct (ilog2_spec y Hy) as [_ Yhi].
  assert (H : ilog2 x < ilog2 y + 1) by (apply pow2_lt_inv; lra).
  lia.
Qed.

(** *** [round_double] *)

Lemma round_double_zero x : (x == 0)%Q -> round_double x = 0%Q.
Proof. intro H. unfold round_double. apply Qeq_bool_iff in H. now rewrite H. Qed.

Lemma round_double_eq x :
  ~ (x == 0)%Q ->
  (round_double x ==
   inject_Z (round_half_even (x / 2 ^ ulp_exponent x)) * 2 ^ ulp_exponent x)%Q.
Proof.
  intro H. unfold round_double. destruct (Qeq_bool x 0) eqn:E.
  - apply Qeq_bool_iff in E. contradiction.
  - apply Qred_correct.
Qed.

Lemma ulp_exponent_comp x y : ~ (y == 0)%Q -> (x == y)%Q -> ulp_exponent x = ulp_exponent y.
Proof. intros Hnz H. unfold ulp_exponent. now rewrite (ilog2_comp x y Hnz H). Qed.

#[global] Instance round_double_comp : Proper (Qeq ==> Qeq) round_double.
Proof.
  intros x y H. destruct (Qeq_dec y 0) as [Hz | Hnz].
  - rewrite (round_double_zero y Hz), (round_double_zero x); [reflexivity | now rewrite H].
  - assert (Hx : ~ (x == 0)%Q) by now rewrite H.
    rewrite (round_double_eq x Hx), (round_double_eq y Hnz).
    rewrite (ulp_exponent_comp x y Hnz H).
    rewrite (round_half_even_comp (x / 2 ^ ulp_exponent y) (y / 2 ^ ulp_exponent y));
      [reflexivity | now rewrite H].
Qed.

#[global] Instance is_double_comp : Proper (Qeq ==> iff) is_double.
Proof. intros x y H. unfold is_double. now rewrite H. Qed.

(** A multiple of the last place above [x] is above the rounding of [x],
    and one below is below. *)
Lemma round_double_le_grid x n :
  ~ (x == 0)%Q -> (x <= inject_Z n * 2 ^ ulp_exponent x)%Q ->
  (round_double x <= inject_Z n * 2 ^ ulp_exponent x)%Q.
Proof.
  intros Hx H. rewrite (round_double_eq x Hx).
  pose proof (pow2_pos (ulp_exponent x)) as He.
  apply Qmult_le_compat_r; [|now apply Qlt_le_weak].
  rewrite <- Zle_Qle. apply round_half_even_le.
  apply Qle_shift_div_r; assumption.
Qed.

Lemma round_double_ge_grid x n :
  ~ (x == 0)%Q -> (inject_Z n * 2 ^ ulp_exponent x <= x)%Q ->
  (inject_Z n * 2 ^ ulp_exponent x <= round_double x)%Q.
Proof.
  intros Hx H. rewrite (round_double_eq x Hx).
  pose proof (pow2_pos (ulp_exponent x)) as He.
  apply Qmult_le_compat_r; [|now apply Qlt_le_weak].
  rewrite <- Zle_Qle. apply round_half_even_ge.
  apply Qle_shift_div_l; assumption.
Qed.

Lemma round_double_nonneg x : (0 <= x)%Q -> (0 <= round_double x)%Q.
Proof.
  intro H. destruct (Qeq_dec x 0) as [Hz | Hnz].
  - rewrite (round_double_zero x Hz). apply Qle_refl.
  - pose proof (round_double_ge_grid x 0 Hnz) as Hg.
    change (inject_Z 0) with 0%Q in Hg. rewrite Qmult_0_l in Hg. now apply Hg.
Qed.

(** Rounding keeps the order (of numbers that are not negative, which is
    all the delay computes with). *)
Lemma round_double_monotone x y :
  (0 <= x)%Q -> (x <= y)%Q -> (round_double x <= round_double y)%Q.
Proof.
  intros H0 Hxy.
  destruct (Qeq_dec x 0) as [Hz | Hx].
  { rewrite (round_double_zero x Hz). apply round_double_nonneg. lra. }
  assert (Hxpos : (0 < x)%Q).
  { destruct (Qlt_le_dec 0 x) as [H | H]; [exact H|]. exfalso. apply Hx. lra. }
  assert (Hy : ~ (y == 0)%Q) by (intro H; lra).
  assert (Hax : (Qabs x == x)%Q) by (apply Qabs_pos; lra).
  assert (Hay : (Qabs y == y)%Q) by (apply Qabs_pos; lra).
  assert (Hk : ilog2 x <= ilog2 y).
  { apply ilog2_monotone; [exact Hx | now rewrite Hax, Hay]. }
  destruct (ilog2_spec x Hx) as [Xlo Xhi]. destruct (ilog2_spec y Hy) as [Ylo Yhi].
  rewrite Hax in Xlo, Xhi. rewrite Hay in Ylo, Yhi.
  destruct (Z.eq_dec (ulp_exponent x) (ulp_exponent y)) as [He | Hne].
  - rewrite (round_double_eq x Hx), (round_double_eq y Hy), He.
    pose proof (pow2_pos (ulp_exponent y)) as Hp.
    apply Qmult_le_compat_r; [|now apply Qlt_le_weak].
    rewrite <- Zle_Qle. apply round_half_even_monotone.
    apply Qmult_le_compat_r; [exact Hxy|]. apply Qlt_le_weak, Qinv_lt_0_compat, Hp.
  - (* [y] lies in a higher binade: the power of two between them separates the roundings *)
    unfold ulp_exponent, DBL_MANT_DIG, DBL_TRUE_MIN_EXP in Hne.
    assert (Hey : ulp_exponent y = ilog2 y - 52)
      by (unfold ulp_exponent, DBL_MANT_DIG, DBL_TRUE_MIN_EXP; lia).
    assert (Hex : ilog2 x - 52 <= ulp_exponent x < ulp_exponent y)
      by (unfold ulp_exponent, DBL_MANT_DIG, DBL_TRUE_MIN_EXP in *; lia).
    set (ex := ulp_exponent x) in *. set (ey := ulp_exponent y) in *.
    set (ky := ilog2 y) in *.
    apply Qle_trans with (2 ^ ky)%Q.
    + assert (Hs : (2 ^ ky == inject_Z (2 ^ (ky - ex)) * 2 ^ ex)%Q).
      { rewrite pow2_Z by lia. apply pow2_split. }
      rewrite Hs. apply round_double_le_grid; [exact Hx|]. fold ex. rewrite <- Hs.
      apply Qle_trans with (2 ^ (ilog2 x + 1))%Q; [now apply Qlt_le_weak|].
      apply pow2_le. lia.
    + assert (Hs : (2 ^ ky == inject_Z (2 ^ 52) * 2 ^ ey)%Q).
      { rewrite pow2_Z by lia. rewrite (pow2_split ky ey).
        now replace (ky - ey) with 52 by lia. }
      rewrite Hs. apply round_double_ge_grid; [exact Hy|]. fold ey. now rewrite <- Hs.
Qed.

(** The numbers [j * 2 ^ t] with [0 < j < 2 ^ 53] and [t] not below the
    least exponent are doubles. *)
Lemma is_double_format j t :
  0 < j < 2 ^ 53 -> DBL_TRUE_MIN_EXP <= t -> is_double (inject_Z j * 2 ^ t).
Proof.
  intros [Hj0 Hj1] Ht. unfold is_double.
  set (y := (inject_Z j * 2 ^ t)%Q).
  pose proof (pow2_pos t) as Hpt.
  assert (Hjq : (0 < inject_Z j)%Q) by (change 0%Q with (inject_Z 0); now rewrite <- Zlt_Qlt).
  assert (Hypos : (0 < y)%Q) by (unfold y; nra).
  assert (Hy : ~ (y == 0)%Q) by (intro H; lra).
  assert (Hay : (Qabs y == y)%Q) by (apply Qabs_pos; lra).
  set (a := Z.log2 j).
  assert (Ha : 2 ^ a <= j < 2 ^ (a + 1)).
  { unfold a. replace (Z.log2 j + 1) with (Z.succ (Z.log2 j)) by lia.
    apply Z.log2_spec. exact Hj0. }
  assert (Ha0 : 0 <= a) by apply Z.log2_nonneg.
  assert (Ha52 : a <= 52).
  { assert (H : a < 53) by (apply Z.log2_lt_pow2; [exact Hj0 | exact Hj1]). lia. }
  assert (Hk : ilog2 y = a + t).
  { apply ilog2_unique; rewrite Hay; unfold y.
    - rewrite pow2_plus. apply Qmult_le_compat_r; [|now apply Qlt_le_weak].
      rewrite <- pow2_Z by lia. rewrite <- Zle_Qle. lia.
    - replace (a + t + 1) with (a + 1 + t) by lia. rewrite pow2_plus.
      apply Qmult_lt_compat_r; [exact Hpt|].
      rewrite <- pow2_Z by lia. rewrite <- Zlt_Qlt. lia. }
  assert (He : ulp_exponent y <= t).
  { unfold ulp_exponent, DBL_MANT_DIG. rewrite Hk. unfold DBL_TRUE_MIN_EXP in *. lia. }
  set (e := ulp_exponent y) in *.
  pose proof (pow2_pos e) as Hpe.
  assert (Hq : (y / 2 ^ e == inject_Z (j * 2 ^ (t - e)))%Q).
  { unfold y. rewrite inject_Z_mult, pow2_Z by lia. rewrite (pow2_split t e).
    field. intro H. lra. }
  rewrite (round_double_eq y Hy). fold e.
  rewrite (round_half_even_comp _ _ Hq), round_half_even_Z.
  unfold y. rewrite inject_Z_mult, pow2_Z by lia. rewrite (pow2_split t e). ring.
Qed.

(** The rounding of a number is a double: rounding again changes nothing. *)
Lemma round_double_idempotent x : (0 <= x)%Q -> is_double (round_double x).
Proof.
  intro H0. destruct (Qeq_dec x 0) as [Hz | Hx].
  { rewrite (round_double_zero x Hz). unfold is_double. reflexivity. }
  assert (Hxpos : (0 < x)%Q).
  { destruct (Qlt_le_dec 0 x) as [H | H]; [exact H|]. exfalso. apply Hx. lra. }
  assert (Hax : (Qabs x == x)%Q) by (apply Qabs_pos; lra).
  destruct (ilog2_spec x Hx) as [_ Xhi]. rewrite Hax in Xhi.
  set (e := ulp_exponent x).
  assert (He : ilog2 x - 52 <= e /\ DBL_TRUE_MIN_EXP <= e)
    by (unfold e, ulp_exponent, DBL_MANT_DIG; lia).
  pose proof (pow2_pos e) as Hpe.
  set (m := round_half_even (x / 2 ^ e)).
  assert (Hm0 : 0 <= m).
  { apply round_half_even_ge. change (inject_Z 0) with 0%Q.
    apply Qle_shift_div_l; [exact Hpe | lra]. }
  assert (Hm1 : m <= 2 ^ 53).
  { apply round_half_even_le. apply Qle_shift_div_r; [exact Hpe|].
    rewrite pow2_Z by lia. rewrite <- pow2_plus.
    apply Qle_trans with (2 ^ (ilog2 x + 1))%Q; [now apply Qlt_le_weak|].
    apply pow2_le. lia. }
  assert (Hr : (round_double x == inject_Z m * 2 ^ e)%Q) by apply (round_double_eq x Hx).
  rewrite Hr.
  destruct (Z.eq_dec m 0) as [-> | Hm].
  { change (inject_Z 0) with 0%Q. rewrite Qmult_0_l. unfold is_double. reflexivity. }
  destruct (Z.eq_dec m (2 ^ 53)) as [-> | Hmtop].
  - assert (Hs : (inject_Z (2 ^ 53) * 2 ^ e == inject_Z (2 ^ 52) * 2 ^ (e + 1))%Q).
    { rewrite !pow2_Z by lia. rewrite <- !pow2_plus. now replace (53 + e) with (52 + (e + 1)) by lia. }
    rewrite Hs. apply is_double_format; [lia | lia].
  - apply is_double_format; [lia | lia].
Qed.

(** Away from the subnormal range the rounding moves a number by at most
    one part in [2 ^ 53]. *)
Lemma round_double_error x :
  (2 ^ (-1022) <= x)%Q ->
  (x - x * 2 ^ (-53) <= round_double x <= x + x * 2 ^ (-53))%Q.
Proof.
  intro Hn. pose proof (pow2_pos (-1022)) as Hp.
  assert (Hxpos : (0 < x)%Q) by lra.
  assert (Hx : ~ (x == 0)%Q) by (intro H; lra).
  assert (Hax : (Qabs x == x)%Q) by (apply Qabs_pos; lra).
  destruct (ilog2_spec x Hx) as [Xlo Xhi]. rewrite Hax in Xlo, Xhi.
  assert (Hk : -1022 <= ilog2 x).
  { assert (H : -1022 < ilog2 x + 1) by (apply pow2_lt_inv; lra). lia. }
  assert (He : ulp_exponent x = ilog2 x - 52)
    by (unfold ulp_exponent, DBL_MANT_DIG, DBL_TRUE_MIN_EXP; lia).
  rewrite (round_double_eq x Hx), He.
  set (e := ilog2 x - 52). pose proof (pow2_pos e) as Hpe.
  pose proof (round_half_even_near (x / 2 ^ e)) as [Nlo Nhi].
  set (m := inject_Z (round_half_even (x / 2 ^ e))) in *.
  assert (Hq : (x / 2 ^ e * 2 ^ e == x)%Q) by (field; intro H; lra).
  assert (Hulp : (2 ^ e * (1 # 2) <= x * 2 ^ (-53))%Q).
  { assert (Hs : (2 ^ e * (1 # 2) == 2 ^ ilog2 x * 2 ^ (-53))%Q).
    { unfold e. replace (ilog2 x - 52) with (ilog2 x + -52) by lia.
      rewrite pow2_plus. change (2 ^ (-52))%Q with (1 # 4503599627370496)%Q.
      change (2 ^ (-53))%Q with (1 # 9007199254740992)%Q. ring. }
    rewrite Hs. apply Qmult_le_compat_r; [exact Xlo|]. apply Qlt_le_weak, pow2_pos. }
  split.
  - apply Qle_trans with ((x / 2 ^ e - (1 # 2)) * 2 ^ e)%Q.
    + setoid_replace ((x / 2 ^ e - (1 # 2)) * 2 ^ e)%Q
        with (x - 2 ^ e * (1 # 2))%Q by (field; intro H; lra).
      lra.
    + apply Qmult_le_compat_r; [exact Nlo | now apply Qlt_le_weak].
  - apply Qle_trans with ((x / 2 ^ e + (1 # 2)) * 2 ^ e)%Q.
    + apply Qmult_le_compat_r; [exact Nhi | now apply Qlt_le_weak].
    + setoid_replace ((x / 2 ^ e + (1 # 2)) * 2 ^ e)%Q
        with (x + 2 ^ e * (1 # 2))%Q by (field; intro H; lra).
      lra.
Qed.

(** The rounding at work: 0.1 is not a double; the odd integers above
    [2 ^ 53] are not, and ties go to the even significand; half of the
    least positive double rounds to zero, one and a half of it to twice
    it. *)
Example round_double_samples :
  round_double (1 # 10) = (3602879701896397 # 36028797018963968)%Q /\
  round_double (inject_Z (2 ^ 53 + 1)) = inject_Z (2 ^ 53) /\
  round_double (inject_Z (2 ^ 53 + 3)) = inject_Z (2 ^ 53 + 4) /\
  (round_double (2 ^ (-1075)) == 0)%Q /\
  (round_double (3 * 2 ^ (-1075)) == 2 ^ (-1073))%Q.
Proof. vm_compute. repeat split. Qed.

(** ** RandomInterval: the range of [GetRandomDelaySeconds] *)

Lemma Qlt_bool_iff x y : Qlt_bool x y = true <-> (x < y)%Q.
Proof.
  unfold Qlt_bool. rewrite negb_true_iff, <- not_true_iff_false, Qle_bool_iff.
  split; [apply Qnot_le_lt | apply Qlt_not_le].
Qed.

Lemma Qlt_bool_false x y : Qlt_bool x y = false <-> (y <= x)%Q.
Proof. unfold Qlt_bool. rewrite negb_false_iff. apply Qle_bool_iff. Qed.

Lemma double_UINT_MAX : round_double (inject_Z UINT_MAX) = inject_Z UINT_MAX.
Proof. vm_compute. reflexivity. Qed.

(** The fraction [random_value / UINT_MAX], rounded, lies in [0, 1] and
    grows with the draw. *)
Lemma unit_scale (random_value : Z) :
  0 <= random_value <= UINT_MAX ->
  (0 <= round_double (round_double (inject_Z random_value) /
                      round_double (inject_Z UINT_MAX)) <= 1)%Q.
Proof.
  intros [Hlo Hhi]. rewrite double_UINT_MAX.
  assert (HU : (0 < inject_Z UINT_MAX)%Q) by reflexivity.
  assert (Hv0 : (0 <= inject_Z random_value)%Q)
    by (change 0%Q with (inject_Z 0); now rewrite <- Zle_Qle).
  assert (Hr0 : (0 <= round_double (inject_Z random_value))%Q)
    by now apply round_double_nonneg.
  assert (Hr1 : (round_double (inject_Z random_value) <= inject_Z UINT_MAX)%Q).
  { rewrite <- double_UINT_MAX. apply round_double_monotone; [exact Hv0|].
    now rewrite <- Zle_Qle. }
  assert (Hq0 : (0 <= round_double (inject_Z random_value) / inject_Z UINT_MAX)%Q).
  { apply Qle_shift_div_l; [exact HU | lra]. }
  split.
  - now apply round_double_nonneg.
  - change 1%Q with (round_double 1). apply round_double_monotone; [exact Hq0|].
    apply Qle_shift_div_r; [exact HU | lra].
Qed.

Lemma scale_monotone (v v' : Z) :
  0 <= v <= v' ->
  (round_double (round_double (inject_Z v) / round_double (inject_Z UINT_MAX)) <=
   round_double (round_double (inject_Z v') / round_double (inject_Z UINT_MAX)))%Q.
Proof.
  intros [Hlo Hle]. rewrite double_UINT_MAX.
  assert (HU : (0 < inject_Z UINT_MAX)%Q) by reflexivity.
  assert (Hv0 : (0 <= inject_Z v)%Q)
    by (change 0%Q with (inject_Z 0); now rewrite <- Zle_Qle).
  assert (Hr0 : (0 <= round_double (inject_Z v))%Q) by now apply round_double_nonneg.
  assert (Hr : (round_double (inject_Z v) <= round_double (inject_Z v'))%Q).
  { apply round_double_monotone; [exact Hv0 | now rewrite <- Zle_Qle]. }
  apply round_double_monotone.
  - apply Qle_shift_div_l; [exact HU | lra].
  - apply Qmult_le_compat_r; [exact Hr|]. apply Qlt_le_weak, Qinv_lt_0_compat, HU.
Qed.

(** A larger draw never gives a shorter delay. *)
Lemma scaled_delay_monotone (min_s max_s : Q) (v v' : Z) :
  (0 <= min_s)%Q -> (min_s <= max_s)%Q -> 0 <= v <= v' -> v' <= UINT_MAX ->
  (scaled_delay min_s max_s v <= scaled_delay min_s max_s v')%Q.
Proof.
  intros Hmin Hle Hv Hv'. unfold scaled_delay.
  pose proof (scale_monotone v v' Hv) as Hs.
  destruct (unit_scale v ltac:(lia)) as [Hs0 _].
  set (scale := round_double (round_double (inject_Z v) / round_double (inject_Z UINT_MAX))) in *.
  set (scale' := round_double (round_double (inject_Z v') / round_double (inject_Z UINT_MAX))) in *.
  assert (Hd : (0 <= round_double (max_s - min_s))%Q) by (apply round_double_nonneg; lra).
  set (d := round_double (max_s - min_s)) in *.
  assert (Hp0 : (0 <= round_double (scale * d))%Q) by (apply round_double_nonneg; nra).
  assert (Hp : (round_double (scale * d) <= round_double (scale' * d))%Q)
    by (apply round_double_monotone; nra).
  apply round_double_monotone; lra.
Qed.

(** The draw 0 gives the minimum. *)
Lemma scaled_delay_bottom (min_s max_s : Q) :
  is_double min_s -> (scaled_delay min_s max_s 0 == min_s)%Q.
Proof.
  intro Hmin. unfold scaled_delay.
  assert (Hs : round_double (round_double (inject_Z 0) / round_double (inject_Z UINT_MAX)) = 0%Q)
    by (vm_compute; reflexivity).
  rewrite Hs.
  assert (Hp : (round_double (0 * round_double (max_s - min_s)) == 0)%Q).
  { rewrite round_double_zero; [reflexivity | ring]. }
  rewrite Hp. setoid_replace (min_s + 0)%Q with min_s by ring. exact Hmin.
Qed.

(** The draw [UINT_MAX] gives the top of the range, [min + (max - min)] as
    the doubles compute it. *)
Lemma scaled_delay_top (min_s max_s : Q) :
  (min_s <= max_s)%Q ->
  (scaled_delay min_s max_s UINT_MAX ==
   round_double (min_s + round_double (max_s - min_s)))%Q.
Proof.
  intro Hle. unfold scaled_delay.
  assert (Hs : round_double (round_double (inject_Z UINT_MAX) / round_double (inject_Z UINT_MAX))
               = 1%Q) by (vm_compute; reflexivity).
  rewrite Hs.
  assert (Hd : is_double (round_double (max_s - min_s)))
    by (apply round_double_idempotent; lra).
  setoid_replace (1 * round_double (max_s - min_s))%Q
    with (round_double (max_s - min_s)) by ring.
  unfold is_double in Hd. now rewrite Hd.
Qed.

Lemma scaled_delay_range (min_s max_s : Q) (random_value : Z) :
  (0 <= min_s)%Q -> (min_s <= max_s)%Q -> is_double min_s ->
  0 <= random_value <= UINT_MAX ->
  (min_s <= scaled_delay min_s max_s random_value <=
   round_double (min_s + round_double (max_s - min_s)))%Q.
Proof.
  intros H0 Hle Hmin [Hlo Hhi]. split.
  - rewrite <- (scaled_delay_bottom min_s max_s Hmin) at 1.
    apply scaled_delay_monotone; try assumption; lia.
  - rewrite <- (scaled_delay_top min_s max_s Hle).
    apply scaled_delay_monotone; try assumption; [lia | unfold UINT_MAX; lia].
Qed.

(** The top of the range is the maximum up to rounding: within one part in
    [2 ^ 51] of it, when the difference of the bounds is not subnormal. *)
Lemma top_near_max (min_s max_s : Q) :
  (0 <= min_s)%Q -> (2 ^ (-1022) <= max_s - min_s)%Q ->
  (max_s - max_s * 2 ^ (-51) <= round_double (min_s + round_double (max_s - min_s))
   <= max_s + max_s * 2 ^ (-51))%Q.
Proof.
  intros H0 Hn.
  pose proof (round_double_error (max_s - min_s) Hn) as [Dlo Dhi].
  set (d := round_double (max_s - min_s)) in *.
  assert (Hu : (2 ^ (-53) == 1 # 9007199254740992)%Q) by reflexivity.
  assert (Hu2 : (2 ^ (-51) == 1 # 2251799813685248)%Q) by reflexivity.
  assert (Hp : (2 ^ (-1022) <= d)%Q).
  { assert (Hq : (round_double (2 ^ (-1022)) == 2 ^ (-1022))%Q).
    { assert (Hf : is_double (inject_Z 1 * 2 ^ (-1022)))
        by (apply is_double_format; [lia | unfold DBL_TRUE_MIN_EXP; lia]).
      assert (He : (inject_Z 1 * 2 ^ (-1022) == 2 ^ (-1022))%Q) by ring.
      rewrite He in Hf. exact Hf. }
    rewrite <- Hq. apply round_double_monotone; [apply Qlt_le_weak, pow2_pos | exact Hn]. }
  assert (Hs : (2 ^ (-1022) <= min_s + d)%Q) by lra.
  pose proof (round_double_error (min_s + d) Hs) as [Slo Shi].
  assert (Hmax : (0 <= max_s)%Q) by (pose proof (pow2_pos (-1022)); lra).
  set (s := (min_s + d)%Q) in *. set (t := round_double s) in *.
  set (u := (2 ^ (-53))%Q) in *.
  assert (Hu0 : (0 <= u)%Q) by (unfold u; discriminate).
  assert (Hu1 : (u <= 1)%Q) by (unfold u; discriminate).
  assert (H4 : (2 ^ (-51) == 4 * u)%Q) by reflexivity.
  rewrite H4. clear Hu Hu2 H4.
  assert (Hmu : (0 <= min_s * u)%Q) by (apply Qmult_le_0_compat; assumption).
  assert (Hxu : (0 <= max_s * u)%Q) by (apply Qmult_le_0_compat; assumption).
  assert (Hs1 : (s <= max_s + max_s * u)%Q) by (unfold s; lra).
  assert (Hs0 : (max_s - max_s * u <= s)%Q) by (unfold s; lra).
  assert (Hs2 : (0 <= s)%Q) by (pose proof (pow2_pos (-1022)); lra).
  assert (Hsu1 : (s * u <= (max_s + max_s * u) * u)%Q)
    by (apply Qmult_le_compat_r; assumption).
  assert (Hxuu : (max_s * u * u <= max_s * u)%Q).
  { pose proof (Qmult_le_compat_r u 1 (max_s * u) Hu1 Hxu) as H. lra. }
  split; lra.
Qed.

(** A crude bound: below 7200 for bounds below 3600. *)
Lemma top_below_7200 (min_s max_s : Q) :
  (0 <= min_s)%Q -> (min_s <= max_s)%Q -> (max_s <= 3600)%Q ->
  (round_double (min_s + round_double (max_s - min_s)) <= 7200)%Q.
Proof.
  intros H0 Hle Hmax.
  assert (Hd : (round_double (max_s - min_s) <= 3600)%Q).
  { change 3600%Q with (round_double 3600). apply round_double_monotone; lra. }
  assert (Hd0 : (0 <= round_double (max_s - min_s))%Q) by (apply round_double_nonneg; lra).
  change 7200%Q with (round_double 7200). apply round_double_monotone; lra.
Qed.
Lemma GetRandomDelaySeconds_draw env (min_s max_s : Q) n :
  (min_s < max_s)%Q ->
  exists random_value,
    0 <= random_value <= UINT_MAX /\
    drawn (events (GetRandomDelaySeconds env min_s max_s n)) random_value /\
    value (GetRandomDelaySeconds env min_s max_s n) = scaled_delay min_s max_s random_value.
Proof.
  intro Hlt. unfold GetRandomDelaySeconds, drawn.
  assert (Hb : Qle_bool max_s min_s = false).
  { apply not_true_iff_false. rewrite Qle_bool_iff. now apply Qlt_not_le. }
  rewrite Hb. simpl.
  assert (H32 : forall v, 0 <= v mod 2 ^ 32 <= UINT_MAX).
  { intro v. pose proof (Z.mod_pos_bound v (2 ^ 32) ltac:(lia)). unfold UINT_MAX. lia. }
  assert (H31 : forall v, 0 <= v mod 2 ^ 31 <= UINT_MAX).
  { intro v. pose proof (Z.mod_pos_bound v (2 ^ 31) ltac:(lia)). unfold UINT_MAX. lia. }
  destruct (w_CryptAcquireContext (env n)); simpl.
  - destruct (w_CryptGenRandom (env (S n))) as [v|]; simpl.
    + exists (v mod 2 ^ 32).
      split; [apply H32|]. split; [left; simpl; auto 10 | reflexivity].
    + exists (w_rand (env (S (S (S n)))) mod 2 ^ 31).
      split; [apply H31|]. split; [right; simpl; auto 10 | reflexivity].
  - exists (w_rand (env (S n)) mod 2 ^ 31).
    split; [apply H31|]. split; [right; simpl; auto 10 | reflexivity].
Qed.


(** C2, as the code has it: for double bounds with [0 < min < max < 3600]
    the delay is a double from [min] up to the top of the range,
    [min + (max - min)] as the doubles compute it, which the draw
    [UINT_MAX] gives.  The top is the maximum only up to rounding: it is
    below 7200 and, when the difference of the bounds is not subnormal,
    within one part in [2 ^ 51] of the maximum; it can be the maximum and
    it can lie above it.  A larger draw never gives a shorter delay. *)
Theorem GetRandomDelaySeconds_range env (min_s max_s : Q) (n : nat) :
  (0 < min_s)%Q -> (min_s < max_s)%Q -> (max_s < 3600)%Q ->
  is_double min_s -> is_double max_s ->
  let r := GetRandomDelaySeconds env min_s max_s n in
  let top := round_double (min_s + round_double (max_s - min_s)) in
  (min_s <= value r <= top)%Q /\
  is_double (value r) /\
  (top <= 7200)%Q /\
  ((2 ^ (-1022) <= max_s - min_s)%Q ->
   (max_s - max_s * 2 ^ (-51) <= top <= max_s + max_s * 2 ^ (-51))%Q) /\
  (exists random_value,
    0 <= random_value <= UINT_MAX /\
    drawn (events r) random_value /\
    value r = scaled_delay min_s max_s random_value /\
    (random_value = UINT_MAX -> (value r == top)%Q)) /\
  (forall v v', 0 <= v <= v' -> v' <= UINT_MAX ->
     (scaled_delay min_s max_s v <= scaled_delay min_s max_s v')%Q).
Proof.
  intros H0 Hlt H3600 Hmin _ r top.
  assert (H0' : (0 <= min_s)%Q) by lra.
  assert (Hle : (min_s <= max_s)%Q) by lra.
  destruct (GetRandomDelaySeconds_draw env min_s max_s n Hlt) as (rv & Hrv & Hd & Hv).
  fold r in Hd, Hv.
  pose proof (scaled_delay_range min_s max_s rv H0' Hle Hmin Hrv) as Hin.
  split; [now rewrite Hv|]. split.
  { rewrite Hv. unfold scaled_delay. apply round_double_idempotent.
    destruct (unit_scale rv Hrv) as [Hs0 _].
    assert (Hd0 : (0 <= round_double (max_s - min_s))%Q) by (apply round_double_nonneg; lra).
    assert (Hp0 : (0 <= round_double
                     (round_double (round_double (inject_Z rv) / round_double (inject_Z UINT_MAX)) *
                      round_double (max_s - min_s)))%Q)
      by (apply round_double_nonneg; nra).
    lra. }
  split; [apply top_below_7200; lra|].
  split; [intro Hn; now apply top_near_max|].
  split.
  - exists rv. repeat split; try tauto.
    intros ->. rewrite Hv. now apply scaled_delay_top.
  - intros v v' Hvv Hv'. now apply scaled_delay_monotone.
Qed.

Lemma GetRandomDelaySeconds_range_witness :
  let r := GetRandomDelaySeconds (fun _ => calm_world) 2 7 O in
  (0 < 2)%Q /\ (2 < 7)%Q /\ (7 < 3600)%Q /\ is_double 2 /\ is_double 7 /\
  (2 <= value r <= 7)%Q /\
  exists random_value,
    0 <= random_value <= UINT_MAX /\
    drawn (events r) random_value /\
    value r = scaled_delay 2 7 random_value.
Proof.
  assert (H2 : is_double 2) by (vm_compute; reflexivity).
  assert (H7 : is_double 7) by (vm_compute; reflexivity).
  intro r. split; [reflexivity|]. split; [reflexivity|]. split; [reflexivity|].
  split; [exact H2|]. split; [exact H7|].
  destruct (GetRandomDelaySeconds_range (fun _ => calm_world) 2 7 O
              eq_refl eq_refl eq_refl H2 H7)
    as (Hin & _ & _ & _ & (rv & Hrv & Hd & Hv & _) & _).
  split; [exact Hin|]. exists rv. auto.
Defined.

(** C2, as stated, fails: with bounds 2 and 7 and a draw of [UINT_MAX] the
    delay is 7, which is not strictly below the maximum. *)
Lemma GetRandomDelaySeconds_reaches_max :
  (0 < 2)%Q /\ (2 < 7)%Q /\ (7 < 3600)%Q /\
  ~ (2 <= value (GetRandomDelaySeconds (fun _ => calm_world) 2 7 O) /\
     value (GetRandomDelaySeconds (fun _ => calm_world) 2 7 O) < 7)%Q.
Proof.
  repeat split; try reflexivity.
  intros [_ H]. vm_compute in H. discriminate H.
Qed.

(** Nor is the maximum a bound: with the doubles nearest to 0.3 and 0.9 and
    a draw of [UINT_MAX] the delay is the double after the maximum,
    0.9000000000000001. *)
Example GetRandomDelaySeconds_exceeds_max :
  let min_s := round_double (3 # 10) in
  let max_s := round_double (9 # 10) in
  let r := GetRandomDelaySeconds (fun _ => calm_world) min_s max_s O in
  is_double min_s /\ is_double max_s /\
  (0 < min_s)%Q /\ (min_s < max_s)%Q /\ (max_s < 3600)%Q /\
  drawn (events r) UINT_MAX /\
  value r = (4053239664633447 # 4503599627370496)%Q /\
  (max_s < value r)%Q.
Proof.
  intros min_s max_s r.
  split; [vm_compute; reflexivity|]. split; [vm_compute; reflexivity|].
  split; [vm_compute; reflexivity|]. split; [vm_compute; reflexivity|].
  split; [vm_compute; reflexivity|].
  split; [left; vm_compute; auto 10|].
  split; vm_compute; reflexivity.
Qed.

(** A draw below [UINT_MAX] can give the maximum too: bounds 6.999999 and
    7, draw [UINT_MAX - 1]. *)
Example GetRandomDelaySeconds_max_below_top_draw :
  let min_s := round_double (6999999 # 1000000) in
  (min_s < 7)%Q /\ scaled_delay min_s 7 (UINT_MAX - 1) = 7%Q.
Proof. vm_compute. split; reflexivity. Qed.

(** ** Reading runs: projections and case analysis *)

Lemma injections_app a b : injections (a ++ b) = injections a ++ injections b.
Proof. apply flat_map_app. Qed.

Lemma no_injection evs : existsb is_injection evs = false -> injections evs = [].
Proof.
  induction evs as [|e evs IH]; [reflexivity|]. simpl.
  destruct e; simpl; try exact IH; discriminate.
Qed.

Lemma existsb_weaken (p q : event -> bool) evs :
  (forall e, p e = true -> q e = true) ->
  existsb q evs = false -> existsb p evs = false.
Proof.
  intros Hpq. induction evs as [|e evs IH]; [reflexivity|]. simpl.
  rewrite orb_false_iff. intros [Hq Hrest]. rewrite (IH Hrest), orb_false_r.
  destruct (p e) eqn:Hp; [|reflexivity]. rewrite (Hpq e Hp) in Hq. discriminate.
Qed.

Lemma no_key_read_no_alt evs : existsb is_key_read evs = false -> alt_seen_down evs = false.
Proof.
  apply existsb_weaken. intros [] H; simpl in *; try discriminate; reflexivity.
Qed.

(** A stretch without a settle pause does not hide the re-check. *)
Lemma settle_recheck_skip a b :
  existsb is_settle_pause a = false -> settle_recheck (a ++ b) = settle_recheck b.
Proof.
  induction a as [|e a IH]; [reflexivity|]. simpl.
  rewrite orb_false_iff. intros [He Ha].
  destruct e; simpl in *; try (apply IH; exact Ha).
  rewrite He. apply IH; exact Ha.
Qed.

Lemma settle_recheck_none evs :
  existsb is_settle_pause evs = false -> settle_recheck evs = None.
Proof.
  intro H. rewrite <- (app_nil_r evs). now rewrite settle_recheck_skip.
Qed.

(** A re-check found in a stretch is the re-check of any longer run. *)
Lemma settle_recheck_found a b fg :
  settle_recheck a = Some fg -> settle_recheck (a ++ b) = Some fg.
Proof.
  induction a as [|e a IH]; [discriminate|]. simpl.
  destruct e; try exact IH.
  destruct (ms =? FOCUS_SETTLE_DELAY_MS); [|exact IH].
  destruct a as [|e' a']; [discriminate|]. destruct e'; try discriminate. trivial.
Qed.

(** Case analysis on a test the run is stuck on, innermost first. *)
Ltac branch :=
  match goal with
  | |- context [if ?b then _ else _] =>
      lazymatch b with
      | context [if _ then _ else _] => fail
      | _ => destruct b eqn:?
      end
  end.

Ltac branches := repeat (branch; simpl).

(** Finds an event in a run written with [::] and [++]. *)
Ltac in_events :=
  simpl;
  repeat first
    [ left; reflexivity
    | match goal with |- _ \/ _ => right end
    | apply in_eq
    | apply in_cons
    | apply in_or_app; first [ left; solve [in_events] | right ] ].

Lemma flat_map_quiet {B} (p : event -> bool) (f : event -> list B) evs :
  (forall e, p e = false -> f e = []) ->
  existsb p evs = false -> flat_map f evs = [].
Proof.
  intros Hf. induction evs as [|e evs IH]; [reflexivity|]. simpl.
  rewrite orb_false_iff. intros [He Hr]. now rewrite (Hf e He), (IH Hr).
Qed.

(** Turns the boolean tests collected along a path into facts. *)
Ltac eqb_facts :=
  repeat match goal with
  | H : _ && _ = true |- _ => apply andb_true_iff in H; destruct H
  | H : negb _ = true |- _ => apply negb_true_iff in H
  | H : negb _ = false |- _ => apply negb_false_iff in H
  | H : (_ =? _) = true |- _ => apply Z.eqb_eq in H
  | H : (_ =? _) = false |- _ => apply Z.eqb_neq in H
  end.

(** ** FocusArbiter: [ActivateWindowAndEnsureFocus] *)

Section FocusArbiter.

Variable env : nat -> World.

Lemma set_foreground_attempts_no_settle h k :
  quiet is_settle_pause (set_foreground_attempts env h k).
Proof. induction k; simpl; quiet_tac. Qed.

Lemma attempts_join_free {B} (f : event -> list B) h k n :
  (forall e, is_join_call e = false -> f e = []) ->
  flat_map f (events (set_foreground_attempts env h k n)) = [].
Proof.
  intro Hf. apply (flat_map_quiet is_join_call); [exact Hf|].
  apply set_foreground_attempts_no_join.
Qed.

(** The session that finds the target already in front: one log line, no
    call to the system, and the answer TRUE. *)
Lemma ActivateWindowAndEnsureFocus_already_foreground t n :
  ActivateWindowAndEnsureFocus env t t n =
  mkRun true [EvLog DEBUG "ActivateWindow: Target window %p is already foreground."] n.
Proof. unfold ActivateWindowAndEnsureFocus. rewrite Z.eqb_refl. reflexivity. Qed.

Opaque set_foreground_attempts.

(** C4: in every run of [ActivateWindowAndEnsureFocus], whatever its
    outcome, the thread-input history is the joins that succeeded (at most
    two, to distinct threads) followed by exactly their unjoins in reverse
    order; a join that failed is never unjoined. *)
Theorem joins_unwound_in_reverse (t o : HWND) (n : nat) :
  let r := ActivateWindowAndEnsureFocus env t o n in
  let js := joins (events r) in
  join_log (events r) =
    map (fun p => Join (fst p) (snd p)) js ++
    map (fun p => Unjoin (fst p) (snd p)) (rev js) /\
  unjoins (events r) = rev js /\
  NoDup js /\ (List.length js <= 2)%nat /\
  (forall p, In p (failed_joins (events r)) -> ~ In p (unjoins (events r))).
Proof.
  unfold ActivateWindowAndEnsureFocus. cbv zeta.
  destruct (o =? t) eqn:E0.
  { simpl. repeat split; auto using NoDup_nil. }
  unfold join_log, joins, unjoins, failed_joins.
  simpl. branches.
  all: rewrite ?flat_map_app, ?attempts_join_free
    by (intros []; simpl; intros; try discriminate; reflexivity).
  all: simpl; eqb_facts.
  all: repeat split; try reflexivity; simpl; try lia.
  all: try (repeat constructor; simpl; intuition congruence).
  all: intros p Hf Hu; intuition congruence.
Qed.

(** What the settle pause decides: when the run pauses to settle, its
    answer is whether the window read after the pause is the target; a run
    that never pauses to settle has no settle pause anywhere. *)
Lemma ActivateWindowAndEnsureFocus_settle t o n :
  let r := ActivateWindowAndEnsureFocus env t o n in
  match settle_recheck (events r) with
  | Some fg => value r = (fg =? t)
  | None => existsb is_settle_pause (events r) = false
  end.
Proof.
  unfold ActivateWindowAndEnsureFocus. cbv zeta.
  destruct (o =? t) eqn:E0; [reflexivity|].
  simpl. branches.
  all: rewrite ?settle_recheck_skip by apply set_foreground_attempts_no_settle.
  all: simpl; rewrite ?Heqb, ?Heqb0, ?Heqb1, ?Heqb2, ?Heqb3, ?Heqb4, ?Heqb5; simpl.
  all: rewrite ?existsb_app, ?set_foreground_attempts_no_settle; simpl.
  all: try reflexivity.
  all: eqb_facts; symmetry; try (apply Z.eqb_eq; assumption); try (apply Z.eqb_neq; assumption).
Qed.

Transparent set_foreground_attempts.

End FocusArbiter.

(** ** KeystrokeInjector: [SendCtrlF5Keystroke] *)

Section KeystrokeInjector.

Variable env : nat -> World.

Lemma RestoreOriginalFocus_no_settle o t ok :
  quiet is_settle_pause (RestoreOriginalFocus env o t ok).
Proof. unfold RestoreOriginalFocus. quiet_tac. Qed.

Opaque ActivateWindowAndEnsureFocus RestoreOriginalFocus.

(** C10: when [IsWindow] reports that the target is gone,
    [SendCtrlF5Keystroke] returns after that single call: it logs a warning,
    prints a notice, and injects nothing, joins nothing and neither moves the
    foreground nor shows a window. *)
Theorem SendCtrlF5Keystroke_invalid_target (t : HWND) (n : nat) :
  w_IsWindow (env n) t = false ->
  let r := SendCtrlF5Keystroke env t n in
  events r =
    [ EvIsWindow t false;
      EvLog WARNING "SendCtrlF5: Target HWND %p is invalid. Skipping.";
      EvPrintf "Warning: The target window seems to be closed. Keystroke not sent." ] /\
  clock r = S n /\
  injections (events r) = [] /\
  join_log (events r) = [] /\
  existsb is_join_call (events r) = false /\
  existsb is_activation (events r) = false.
Proof.
  intro H. unfold SendCtrlF5Keystroke. simpl. rewrite H. simpl. repeat split.
Qed.

(** A run of [SendCtrlF5Keystroke] calls [SendInput] at most once, with the
    four events of the combo; a count other than four is logged as an
    error. *)
Lemma SendCtrlF5Keystroke_injections (t : HWND) (n : nat) :
  let evs := events (SendCtrlF5Keystroke env t n) in
  injections evs = [] \/
  exists uSent,
    injections evs =
      [ ([ mkINPUT INPUT_KEYBOARD VK_CONTROL 0;
           mkINPUT INPUT_KEYBOARD VK_F5 0;
           mkINPUT INPUT_KEYBOARD VK_F5 KEYEVENTF_KEYUP;
           mkINPUT INPUT_KEYBOARD VK_CONTROL KEYEVENTF_KEYUP ], uSent) ] /\
    (uSent <> 4 ->
     In (EvLog ERROR "SendCtrlF5 (SendInput): Failed. Sent %u of 4. Error: %lu") evs).
Proof.
  unfold SendCtrlF5Keystroke. simpl.
  destruct (w_IsWindow (env n) t); simpl; [|now left].
  set (o := w_GetForegroundWindow (env (S n))).
  destruct (o =? t) eqn:Eo; simpl.
  - branches; try (now left).
    all: right; eexists; split; [reflexivity|]; intro Hne.
    all: eqb_facts; try contradiction; in_events.
  - rewrite !injections_app.
    rewrite (no_injection _ (ActivateWindowAndEnsureFocus_no_injection env t o _)).
    rewrite (no_injection _ (RestoreOriginalFocus_no_injection env _ _ _ _)).
    rewrite app_nil_r. simpl.
    branches; try (now left).
    all: right; eexists; split; [reflexivity|]; intro Hne.
    all: eqb_facts; try contradiction.
    all: in_events.
Qed.

(** C7: when the target is the foreground window at the start of the
    session, the session is secured at once (the arbiter answers TRUE after
    one log line), and the delivery makes no thread-input join, no
    [SetForegroundWindow] call and no restore: it goes straight to the
    injection, which happens if the window is not minimised. *)
Theorem SendCtrlF5Keystroke_already_foreground (t : HWND) (n : nat) :
  w_IsWindow (env n) t = true ->
  w_GetForegroundWindow (env (S n)) = t ->
  let r := SendCtrlF5Keystroke env t n in
  ActivateWindowAndEnsureFocus env t t n =
    mkRun true [EvLog DEBUG "ActivateWindow: Target window %p is already foreground."] n /\
  existsb is_join_call (events r) = false /\
  existsb is_activation (events r) = false /\
  (forall h, In (EvShowWindow h SW_RESTORE) (events r) -> h = t) /\
  (forall l f, In (EvLog l f) (events r) ->
     f <> "RestoreFocus: Attempting to restore original foreground to HWND %p"%string) /\
  (w_IsIconic (env (S (S n))) t = false ->
   injections (events r) = [(ctrl_f5_inputs, w_SendInput (env (S (S (S n)))))]).
Proof.
  intros Ha Hf. split; [apply ActivateWindowAndEnsureFocus_already_foreground|].
  unfold SendCtrlF5Keystroke. simpl. rewrite Ha. simpl. rewrite Hf, Z.eqb_refl. simpl.
  repeat split.
  - branches; reflexivity.
  - branches; reflexivity.
  - intro h. branches; simpl; intuition (try discriminate); congruence.
  - intros l f. branches; simpl; intuition (try discriminate); congruence.
  - intros ->. simpl. branches; reflexivity.
Qed.

(** C5: when the window read after the settle pause is not the target, the
    arbiter answers FALSE, and the delivery that ran the session makes no
    [SendInput] call and reports the skipped keystroke. *)
Theorem focus_lost_after_settle (t : HWND) :
  (forall o n fg,
      settle_recheck (events (ActivateWindowAndEnsureFocus env t o n)) = Some fg ->
      fg <> t ->
      value (ActivateWindowAndEnsureFocus env t o n) = false) /\
  (forall n fg,
      settle_recheck (events (SendCtrlF5Keystroke env t n)) = Some fg ->
      fg <> t ->
      injections (events (SendCtrlF5Keystroke env t n)) = [] /\
      In (EvPrintf "Info: Could not reliably switch to target window. Keystroke for Ctrl+F5 skipped this cycle.")
         (events (SendCtrlF5Keystroke env t n))).
Proof.
  split.
  - intros o n fg Hs Hne.
    pose proof (ActivateWindowAndEnsureFocus_settle env t o n) as H.
    cbv zeta in H. rewrite Hs in H. rewrite H. now apply Z.eqb_neq.
  - intros n fg. unfold SendCtrlF5Keystroke. simpl.
    destruct (w_IsWindow (env n) t); simpl; [|discriminate].
    set (o := w_GetForegroundWindow (env (S n))).
    destruct (o =? t) eqn:Eo; simpl.
    + branches; discriminate.
    + pose proof (ActivateWindowAndEnsureFocus_settle env t o (S (S n))) as H.
      cbv zeta in H.
      destruct (settle_recheck (events (ActivateWindowAndEnsureFocus env t o (S (S n)))))
        as [fg'|] eqn:Hs.
      * rewrite (settle_recheck_found _ _ _ Hs). intros Hfg Hne.
        injection Hfg as ->. apply Z.eqb_neq in Hne. rewrite Hne in H. rewrite H. simpl.
        split; [|in_events].
        apply no_injection. rewrite !existsb_app. simpl.
        now rewrite (ActivateWindowAndEnsureFocus_no_injection env t o _),
          (RestoreOriginalFocus_no_injection env _ _ _ _).
      * rewrite (settle_recheck_skip _ _ H). intro Hfg. exfalso. revert Hfg.
        branches.
        all: rewrite ?settle_recheck_none by apply RestoreOriginalFocus_no_settle.
        all: rewrite ?(settle_recheck_none _ (RestoreOriginalFocus_no_settle _ _ _ _)).
        all: discriminate.
Qed.

Transparent ActivateWindowAndEnsureFocus RestoreOriginalFocus.

End KeystrokeInjector.

(** ** Dispatcher: one pass of the loop and the next *)

Section DispatcherLoop.

Variable env : nat -> World.
Variable target : HWND.
Variables min_s max_s : Q.

Lemma GetRandomDelaySeconds_no_alt : quiet is_alt_down (GetRandomDelaySeconds env min_s max_s).
Proof. apply GetRandomDelaySeconds_quiet; reflexivity. Qed.

Lemma GetRandomDelaySeconds_no_injection :
  quiet is_injection (GetRandomDelaySeconds env min_s max_s).
Proof. apply GetRandomDelaySeconds_quiet; reflexivity. Qed.

Lemma SendCtrlF5Keystroke_no_alt t n :
  alt_seen_down (events (SendCtrlF5Keystroke env t n)) = false.
Proof. apply no_key_read_no_alt, SendCtrlF5Keystroke_no_key_read. Qed.

(** [IsAltKeyHeld] answers TRUE exactly when one of its reads found an Alt
    key down; it never injects. *)
Lemma IsAltKeyHeld_value n :
  value (IsAltKeyHeld env n) = alt_seen_down (events (IsAltKeyHeld env n)).
Proof.
  unfold IsAltKeyHeld, alt_seen_down. simpl. branches; simpl; rewrite ?orb_false_r; reflexivity.
Qed.

Lemma IsAltKeyHeld_no_injection : quiet is_injection (IsAltKeyHeld env).
Proof. unfold IsAltKeyHeld. quiet_tac. Qed.

Opaque GetRandomDelaySeconds SendCtrlF5Keystroke IsAltKeyHeld.

(** A pass in which an Alt key is read down got past the first liveness
    check, and it is [IsAltKeyHeld] that read the key. *)
Lemma alt_seen_in_pass count n :
  let d := GetRandomDelaySeconds env min_s max_s (S n) in
  let w := WaitMilliseconds (delay_ms (value d)) (S (clock d)) in
  alt_seen_down (events (loop_body env target min_s max_s count n)) = true ->
  w_IsWindow (env n) target = true /\ value (IsAltKeyHeld env (clock w)) = true.
Proof.
  intros d w. unfold loop_body, alt_seen_down. simpl.
  destruct (w_IsWindow (env n) target); simpl; [|discriminate].
  fold d. fold w. rewrite IsAltKeyHeld_value.
  destruct (alt_seen_down (events (IsAltKeyHeld env (clock w)))) eqn:Hheld; simpl; [auto|].
  rewrite !existsb_app. simpl. rewrite !existsb_app. simpl.
  unfold d at 1. rewrite GetRandomDelaySeconds_no_alt.
  unfold alt_seen_down in Hheld. rewrite Hheld.
  assert (Hw : existsb is_alt_down (events w) = false).
  { unfold w, WaitMilliseconds. branches; reflexivity. }
  rewrite Hw. simpl. branches; try discriminate.
  rewrite !existsb_app. simpl.
  pose proof (SendCtrlF5Keystroke_no_alt target) as Hs. unfold alt_seen_down in Hs.
  rewrite Hs. unfold WaitMilliseconds. simpl. discriminate.
Qed.

(** The pass in which [IsAltKeyHeld] answers TRUE, call by call. *)
Lemma held_pass count n :
  let d := GetRandomDelaySeconds env min_s max_s (S n) in
  let w := WaitMilliseconds (delay_ms (value d)) (S (clock d)) in
  w_IsWindow (env n) target = true ->
  value (IsAltKeyHeld env (clock w)) = true ->
  value (loop_body env target min_s max_s count n) = (Continue, count) /\
  events (loop_body env target min_s max_s count n) =
    (EvIsWindow target true :: events d ++
     [ EvGetWindowText target;
       EvPrintf "Waiting for %.2fs before sending Ctrl+F5 to %s...";
       EvLog DEBUG "Main: Waiting for %.3f seconds." ] ++
     events w ++ events (IsAltKeyHeld env (clock w))) ++
    [ EvPrintf "Info: Alt key is currently pressed. Skipping keystroke to avoid conflict.";
      EvLog DEBUG "Main: Alt key detected as pressed. Deferring SendCtrlF5Keystroke.";
      EvSleep ALT_KEY_CHECK_DELAY_MS ].
Proof.
  intros d w Ha Hheld. unfold loop_body. simpl. rewrite Ha. simpl.
  fold d. fold w. rewrite Hheld. simpl. split; [reflexivity|].
  repeat (progress (simpl; rewrite <- ?app_assoc)). reflexivity.
Qed.

(** A pass that finds the target alive starts with a fresh draw and the
    wait for it, and reads the keys next. *)
Lemma loop_body_alive count c :
  w_IsWindow (env c) target = true ->
  let d := GetRandomDelaySeconds env min_s max_s (S c) in
  let w := WaitMilliseconds (delay_ms (value d)) (S (clock d)) in
  exists rest,
    events (loop_body env target min_s max_s count c) =
      EvIsWindow target true :: events d ++
      [ EvGetWindowText target;
        EvPrintf "Waiting for %.2fs before sending Ctrl+F5 to %s...";
        EvLog DEBUG "Main: Waiting for %.3f seconds." ] ++
      events w ++ events (IsAltKeyHeld env (clock w)) ++ rest.
Proof.
  intros Ha d w. unfold loop_body. simpl. rewrite Ha. simpl.
  eexists. fold d. fold w. reflexivity.
Qed.

(** A pass that finds the target gone leaves the loop at once. *)
Lemma loop_body_gone count c :
  w_IsWindow (env c) target = false ->
  injections (events (loop_body env target min_s max_s count c)) = [] /\
  fst (value (loop_body env target min_s max_s count c)) = Break.
Proof. intro Ha. unfold loop_body. simpl. rewrite Ha. split; reflexivity. Qed.

Lemma main_loop_step passes count n :
  main_loop env target min_s max_s (S passes) count n =
  bind (loop_body env target min_s max_s count)
       (fun r => match fst r with
                 | Break => ret r
                 | Continue => main_loop env target min_s max_s passes (snd r)
                 end) n.
Proof. reflexivity. Qed.

(** C1, as the code has it: the key the loop checks is Alt.  In a pass in
    which one of the reads of VK_MENU, VK_LMENU or VK_RMENU after the wait
    finds the key down, no keystroke is injected, the keystroke count is
    left alone, and the pass ends with the fixed 500 ms pause and restarts
    the loop. *)
Theorem alt_held_skips_injection (keystroke_count : Z) (n : nat) :
  let r := loop_body env target min_s max_s keystroke_count n in
  alt_seen_down (events r) = true ->
  value r = (Continue, keystroke_count) /\
  injections (events r) = [] /\
  exists before,
    events r = before ++
      [ EvPrintf "Info: Alt key is currently pressed. Skipping keystroke to avoid conflict.";
        EvLog DEBUG "Main: Alt key detected as pressed. Deferring SendCtrlF5Keystroke.";
        EvSleep 500 ].
Proof.
  intros r Hseen. subst r.
  destruct (alt_seen_in_pass keystroke_count n Hseen) as [Halive Hheld].
  destruct (held_pass keystroke_count n Halive Hheld) as [Hvalue Hevents].
  split; [exact Hvalue|]. rewrite Hevents. split; [|eexists; reflexivity].
  apply no_injection. repeat (progress (simpl; rewrite ?existsb_app)).
  rewrite GetRandomDelaySeconds_no_injection, IsAltKeyHeld_no_injection. simpl.
  unfold WaitMilliseconds. branches; reflexivity.
Qed.

(** C3, as the code has it: after the pass that found Alt down ends with
    its 500 ms pause, the loop runs the next pass from the top.  If the
    target is still a window, that pass draws a fresh delay and waits it out
    before it reads the keys again, and only then can it inject; if the
    target is gone it stops without injecting. *)
Theorem alt_penalty_then_fresh_wait (keystroke_count : Z) (n passes : nat) :
  let r := loop_body env target min_s max_s keystroke_count n in
  alt_seen_down (events r) = true ->
  let next := loop_body env target min_s max_s keystroke_count (clock r) in
  let d := GetRandomDelaySeconds env min_s max_s (S (clock r)) in
  let w := WaitMilliseconds (delay_ms (value d)) (S (clock d)) in
  (exists before, events r = before ++ [EvSleep ALT_KEY_CHECK_DELAY_MS]) /\
  (exists later,
     events (main_loop env target min_s max_s (S (S passes)) keystroke_count n) =
     events r ++ events next ++ later) /\
  (w_IsWindow (env (clock r)) target = true ->
   exists rest,
     events next =
       EvIsWindow target true :: events d ++
       [ EvGetWindowText target;
         EvPrintf "Waiting for %.2fs before sending Ctrl+F5 to %s...";
         EvLog DEBUG "Main: Waiting for %.3f seconds." ] ++
       events w ++ events (IsAltKeyHeld env (clock w)) ++ rest) /\
  (w_IsWindow (env (clock r)) target = false ->
   injections (events next) = [] /\ fst (value next) = Break).
Proof.
  intros r Hseen next d w.
  destruct (alt_seen_in_pass keystroke_count n Hseen) as [Halive Hheld].
  destruct (held_pass keystroke_count n Halive Hheld) as [Hv Hev].
  fold r in Hv, Hev. repeat split.
  - eexists. rewrite Hev.
    change [ EvPrintf "Info: Alt key is currently pressed. Skipping keystroke to avoid conflict.";
             EvLog DEBUG "Main: Alt key detected as pressed. Deferring SendCtrlF5Keystroke.";
             EvSleep ALT_KEY_CHECK_DELAY_MS ]
      with ([ EvPrintf "Info: Alt key is currently pressed. Skipping keystroke to avoid conflict.";
              EvLog DEBUG "Main: Alt key detected as pressed. Deferring SendCtrlF5Keystroke." ]
            ++ [EvSleep ALT_KEY_CHECK_DELAY_MS]).
    rewrite app_assoc. reflexivity.
  - eexists. rewrite main_loop_step, events_bind. fold r. rewrite Hv.
    cbn [fst snd]. rewrite main_loop_step, events_bind. fold next. reflexivity.
  - intro Ha. apply loop_body_alive, Ha.
  - apply loop_body_gone, H.
  - apply loop_body_gone, H.
Qed.

(** The only injections of a pass are those of its one delivery. *)
Lemma loop_body_injections count n :
  injections (events (loop_body env target min_s max_s count n)) = [] \/
  exists m,
    injections (events (loop_body env target min_s max_s count n)) =
    injections (events (SendCtrlF5Keystroke env target m)).
Proof.
  unfold loop_body. simpl.
  destruct (w_IsWindow (env n) target); simpl; [|now left].
  set (d := GetRandomDelaySeconds env min_s max_s (S n)).
  set (w := WaitMilliseconds (delay_ms (value d)) (S (clock d))).
  assert (Hd : injections (events d) = []).
  { apply no_injection, GetRandomDelaySeconds_no_injection. }
  assert (Hw : injections (events w) = []).
  { unfold w, WaitMilliseconds. branches; reflexivity. }
  assert (Hk : injections (events (IsAltKeyHeld env (clock w))) = []).
  { apply no_injection, IsAltKeyHeld_no_injection. }
  change (flat_map (fun e => match e with EvSendInput i r => [(i, r)] | _ => [] end))
    with injections.
  rewrite !injections_app, Hd. simpl. rewrite !injections_app, Hw, Hk. simpl.
  destruct (value (IsAltKeyHeld env (clock w))); simpl; [now left|].
  branches; [now left|]. right.
  rewrite !injections_app. unfold WaitMilliseconds. simpl. rewrite app_nil_r.
  eexists. reflexivity.
Qed.

Transparent GetRandomDelaySeconds SendCtrlF5Keystroke IsAltKeyHeld.

End DispatcherLoop.

Lemma set_foreground_attempts_no_skip_notice env h k :
  quiet is_skip_notice (set_foreground_attempts env h k).
Proof. induction k; simpl; quiet_tac. Qed.

Lemma ActivateWindowAndEnsureFocus_no_skip_notice env t o :
  quiet is_skip_notice (ActivateWindowAndEnsureFocus env t o).
Proof.
  pose proof (set_foreground_attempts_no_skip_notice env t FOCUS_SWITCH_ATTEMPTS) as H.
  unfold ActivateWindowAndEnsureFocus. quiet_tac; exact H.
Qed.

Lemma RestoreOriginalFocus_no_skip_notice env o t ok :
  quiet is_skip_notice (RestoreOriginalFocus env o t ok).
Proof. unfold RestoreOriginalFocus. quiet_tac. Qed.

Opaque ActivateWindowAndEnsureFocus RestoreOriginalFocus.

(** What a delivery does with [SendInput], case by case.  [session] is the
    focus session: the arbiter's run, or the one log line when the target
    is already in front. *)
Lemma SendCtrlF5Keystroke_delivery (env : nat -> World) (t : HWND) (n : nat) :
  let evs := events (SendCtrlF5Keystroke env t n) in
  let fg := w_GetForegroundWindow (env (S n)) in
  let session :=
    if fg =? t
    then mkRun true [EvLog DEBUG "SendCtrlF5: Target window %p is already foreground."] (S (S n))
    else ActivateWindowAndEnsureFocus env t fg (S (S n)) in
  let c := clock session in
  let sent uSent :=
    injections evs = [(ctrl_f5_inputs, uSent)] /\
    existsb is_skip_notice evs = false /\
    In (EvLog (if uSent =? 4 then DEBUG else ERROR)
              (if uSent =? 4
               then "SendCtrlF5 (SendInput): Sent Ctrl+F5 to HWND %p."
               else "SendCtrlF5 (SendInput): Failed. Sent %u of 4. Error: %lu")) evs in
  let skipped := injections evs = [] /\ existsb is_skip_notice evs = true in
  if negb (w_IsWindow (env n) t) then skipped
  else if negb (value session) then skipped
  else if negb (w_IsIconic (env c) t) then sent (w_SendInput (env (S c)))
  else if w_GetForegroundWindow (env (S (S (S c)))) =? t
       then sent (w_SendInput (env (S (S (S (S c))))))
       else skipped.
Proof.
  cbv zeta. unfold SendCtrlF5Keystroke. simpl.
  destruct (w_IsWindow (env n) t); simpl; [|split; reflexivity].
  set (o := w_GetForegroundWindow (env (S n))).
  destruct (o =? t) eqn:Eo; simpl.
  - destruct (w_IsIconic (env (S (S n))) t); simpl.
    + destruct (w_GetForegroundWindow (env (S (S (S (S (S n)))))) =? t); simpl.
      * destruct (w_SendInput (env (S (S (S (S (S (S n)))))))  =? 4) eqn:E4; simpl;
          (split; [reflexivity|]); (split; [reflexivity|]); in_events.
      * split; reflexivity.
    + destruct (w_SendInput (env (S (S (S n)))) =? 4) eqn:E4; simpl;
        (split; [reflexivity|]); (split; [reflexivity|]); in_events.
  - rewrite !injections_app, !existsb_app.
    rewrite (no_injection _ (ActivateWindowAndEnsureFocus_no_injection env t o _)).
    rewrite (no_injection _ (RestoreOriginalFocus_no_injection env _ _ _ _)).
    rewrite (ActivateWindowAndEnsureFocus_no_skip_notice env t o _).
    rewrite (RestoreOriginalFocus_no_skip_notice env _ _ _ _).
    rewrite app_nil_r, orb_false_r. simpl.
    set (a := ActivateWindowAndEnsureFocus env t o (S (S n))).
    destruct (value a); simpl; [|split; reflexivity].
    destruct (w_IsIconic (env (clock a)) t); simpl.
    + destruct (w_GetForegroundWindow (env (S (S (S (clock a))))) =? t); simpl;
        [|split; reflexivity].
      destruct (w_SendInput (env (S (S (S (S (clock a)))))) =? 4) eqn:E4; simpl;
        (split; [reflexivity|]); (split; [reflexivity|]); in_events.
    + destruct (w_SendInput (env (S (clock a))) =? 4) eqn:E4; simpl;
        (split; [reflexivity|]); (split; [reflexivity|]); in_events.
Qed.

Transparent ActivateWindowAndEnsureFocus RestoreOriginalFocus.

(** C6: a delivery that goes ahead submits the combo in exactly one call.
    Whenever the target is a window and the focus session ends with the
    focus held (the target was in front already, or the arbiter answered
    TRUE), and the target is not minimised or is still in front after being
    restored, [SendInput] is called once, with Ctrl down, F5 down, F5 up,
    Ctrl up in that order, and what the run holds of injections is that one
    call with the count the system accepted.  In every run the injections
    are that one call or none; there is none only when one of the three
    skip notices was given; a count other than four is logged as an error
    and the call is not repeated: a pass of the loop never makes a second
    [SendInput] call. *)
Theorem SendCtrlF5Keystroke_single_call (env : nat -> World) (target : HWND) :
  (forall n,
     let evs := events (SendCtrlF5Keystroke env target n) in
     let fg := w_GetForegroundWindow (env (S n)) in
     let session :=
       if fg =? target
       then mkRun true
              [EvLog DEBUG "SendCtrlF5: Target window %p is already foreground."] (S (S n))
       else ActivateWindowAndEnsureFocus env target fg (S (S n)) in
     let c := clock session in
     w_IsWindow (env n) target = true ->
     value session = true ->
     (w_IsIconic (env c) target = false ->
      injections evs = [(ctrl_f5_inputs, w_SendInput (env (S c)))]) /\
     (w_IsIconic (env c) target = true ->
      w_GetForegroundWindow (env (S (S (S c)))) = target ->
      injections evs = [(ctrl_f5_inputs, w_SendInput (env (S (S (S (S c))))))])) /\
  (forall n,
     let evs := events (SendCtrlF5Keystroke env target n) in
     (injections evs = [] /\ existsb is_skip_notice evs = true) \/
     exists uSent,
       injections evs =
         [ ([ mkINPUT INPUT_KEYBOARD VK_CONTROL 0;
              mkINPUT INPUT_KEYBOARD VK_F5 0;
              mkINPUT INPUT_KEYBOARD VK_F5 KEYEVENTF_KEYUP;
              mkINPUT INPUT_KEYBOARD VK_CONTROL KEYEVENTF_KEYUP ], uSent) ] /\
       existsb is_skip_notice evs = false /\
       (uSent <> 4 ->
        In (EvLog ERROR "SendCtrlF5 (SendInput): Failed. Sent %u of 4. Error: %lu") evs)) /\
  (forall min_s max_s keystroke_count n,
     (List.length
        (injections (events (loop_body env target min_s max_s keystroke_count n))) <= 1)%nat).
Proof.
  split; [|split].
  - intros n evs fg session c Halive Hheld.
    pose proof (SendCtrlF5Keystroke_delivery env target n) as H. cbv zeta in H.
    fold fg in H. fold session in H. fold c in H. fold evs in H.
    rewrite Halive, Hheld in H. cbn [negb] in H.
    split.
    + intro Hic. rewrite Hic in H. cbn [negb] in H. apply H.
    + intros Hic Hfg. rewrite Hic, Hfg, Z.eqb_refl in H. cbn [negb] in H. apply H.
  - intros n evs.
    pose proof (SendCtrlF5Keystroke_delivery env target n) as H. cbv zeta in H.
    fold evs in H.
    repeat match type of H with
    | if ?b then _ else _ => destruct b
    end;
      try (left; exact H);
      right; eexists; (destruct H as (Hinj & Hskip & Hlog));
      (split; [exact Hinj|]); (split; [exact Hskip|]); intro Hne;
      apply Z.eqb_neq in Hne; rewrite Hne in Hlog; exact Hlog.
  - intros min_s max_s count n.
    destruct (loop_body_injections env target min_s max_s count n) as [-> | (m & ->)];
      [simpl; lia|].
    destruct (SendCtrlF5Keystroke_injections env target m) as [-> | (uSent & -> & _)];
      simpl; lia.
Qed.

(** ** ConfigLoader: [LoadConfiguration] *)

Lemma valid_delay_finite d :
  valid_delay d = true -> exists q, d = Finite q /\ (0 < q)%Q /\ (q < 3600)%Q.
Proof.
  unfold valid_delay. destruct d as [q|negative|]; simpl.
  - rewrite andb_true_iff, !Qlt_bool_iff. intros [H0 H1]. exists q. auto.
  - destruct negative; discriminate.
  - discriminate.
Qed.

(** A value [atof] could not read comes back as zero and is not valid. *)
Lemma valid_delay_zero : valid_delay (Finite 0) = false.
Proof. reflexivity. Qed.

(** [fgets] starts afresh after a newline: the lines of a text that ends in
    a newline are not affected by what follows it. *)
Lemma fgets_lines_app a b : forall line_rev room,
  ends_in_newline a = true ->
  fgets_lines (a ++ b) line_rev room =
  fgets_lines a line_rev room ++ fgets_lines b [] (MAX_CONFIG_LINE_LENGTH - 1).
Proof.
  induction a as [|c a IH]; intros line_rev room Hnl; [discriminate|].
  destruct a as [|c' a'].
  - simpl in Hnl. simpl. rewrite Hnl. reflexivity.
  - change (ends_in_newline (String c' a') = true) in Hnl.
    change (String c (String c' a') ++ b)%string with (String c (String c' a' ++ b)).
    cbn [fgets_lines].
    destruct (Ascii.eqb c newline || (room =? 1)%nat).
    + rewrite IH by exact Hnl. reflexivity.
    + apply IH, Hnl.
Qed.

Section ConfigLoader.

Variable atof : string -> double.

(** Opens [read_line] on a line that [assignment] splits into [key] and
    [value_str]. *)
Ltac open_line H :=
  unfold assignment in H; unfold read_line;
  destruct (TrimWhitespace (c_str _)) as [|first rest]; [discriminate H|];
  destruct (Ascii.eqb first "#" || Ascii.eqb first ";"); [discriminate H|];
  destruct (sscanf_key_value (String first rest)) as [[converted k] v];
  destruct (converted =? 2); [|discriminate H];
  injection H as <- <-.

Lemma read_line_rejected line key value_str g n :
  assignment line = Some (key, value_str) ->
  valid_delay (atof value_str) = false ->
  value (read_line atof line g n) = g /\
  exists format, events (read_line atof line g n) = [EvLog WARNING format] /\
    (key = "min_delay"%string -> format =
       "LoadConfig: Invalid value for min_delay on line %d: '%s'. Using default or previous."%string) /\
    (key = "max_delay"%string -> format =
       "LoadConfig: Invalid value for max_delay on line %d: '%s'. Using default or previous."%string).
Proof.
  intros Has Hbad. open_line Has. unfold valid_delay in Hbad. rewrite Hbad.
  destruct (String.eqb (TrimWhitespace k) "min_delay") eqn:Emin.
  - simpl. split; [reflexivity|]. eexists. split; [reflexivity|]. split; [reflexivity|].
    apply String.eqb_eq in Emin. rewrite Emin. discriminate.
  - destruct (String.eqb (TrimWhitespace k) "max_delay") eqn:Emax; simpl.
    + split; [reflexivity|]. eexists. split; [reflexivity|]. split; [|reflexivity].
      intro E. rewrite E in Emin. discriminate.
    + split; [reflexivity|]. eexists. split; [reflexivity|].
      split; intro E; rewrite E in *; discriminate.
Qed.

Lemma read_line_accepted_min line value_str g n :
  assignment line = Some ("min_delay"%string, value_str) ->
  valid_delay (atof value_str) = true ->
  value (read_line atof line g n) = (finite_value (atof value_str), snd g).
Proof.
  intros Has Hok. unfold assignment in Has. unfold read_line.
  destruct (TrimWhitespace (c_str line)) as [|first rest]; [discriminate Has|].
  destruct (Ascii.eqb first "#" || Ascii.eqb first ";"); [discriminate Has|].
  destruct (sscanf_key_value (String first rest)) as [[converted k] v].
  destruct (converted =? 2); [|discriminate Has].
  injection Has as -> ->. unfold valid_delay in Hok. rewrite Hok. reflexivity.
Qed.

Lemma read_line_accepted_max line value_str g n :
  assignment line = Some ("max_delay"%string, value_str) ->
  valid_delay (atof value_str) = true ->
  value (read_line atof line g n) = (fst g, finite_value (atof value_str)).
Proof.
  intros Has Hok. unfold assignment in Has. unfold read_line.
  destruct (TrimWhitespace (c_str line)) as [|first rest]; [discriminate Has|].
  destruct (Ascii.eqb first "#" || Ascii.eqb first ";"); [discriminate Has|].
  destruct (sscanf_key_value (String first rest)) as [[converted k] v].
  destruct (converted =? 2); [|discriminate Has].
  injection Has as -> ->. unfold valid_delay in Hok. rewrite Hok. reflexivity.
Qed.

(** Each line leaves both delays strictly between 0 and 3600. *)
Lemma read_line_in_bounds line g n :
  in_bounds g -> in_bounds (value (read_line atof line g n)).
Proof.
  intros Hg. unfold read_line.
  destruct (TrimWhitespace (c_str line)) as [|first rest]; [exact Hg|].
  destruct (Ascii.eqb first "#" || Ascii.eqb first ";"); [exact Hg|].
  destruct (sscanf_key_value (String first rest)) as [[converted k] v].
  destruct (converted =? 2); [|exact Hg].
  destruct (String.eqb (TrimWhitespace k) "min_delay").
  - destruct (double_lt (Finite 0) _ && double_lt _ (Finite 3600)) eqn:Hv; [|exact Hg].
    destruct (valid_delay_finite _ Hv) as (q & Hq & H0 & H1).
    simpl. rewrite Hq. simpl. destruct Hg as [_ Hmax]. split; [split|]; assumption.
  - destruct (String.eqb (TrimWhitespace k) "max_delay"); [|exact Hg].
    destruct (double_lt (Finite 0) _ && double_lt _ (Finite 3600)) eqn:Hv; [|exact Hg].
    destruct (valid_delay_finite _ Hv) as (q & Hq & H0 & H1).
    simpl. rewrite Hq. simpl. destruct Hg as [Hmin _]. split; [|split]; assumption.
Qed.

Lemma read_lines_in_bounds lines : forall g n,
  in_bounds g -> in_bounds (value (read_lines atof lines g n)).
Proof.
  induction lines as [|line lines IH]; intros g n Hg; [exact Hg|].
  simpl. apply IH, read_line_in_bounds, Hg.
Qed.

(** Configuration reads nothing from the clock. *)
Lemma read_line_clock line g n m :
  value (read_line atof line g n) = value (read_line atof line g m).
Proof.
  unfold read_line.
  destruct (TrimWhitespace (c_str line)) as [|first rest]; [reflexivity|].
  destruct (Ascii.eqb first "#" || Ascii.eqb first ";"); [reflexivity|].
  destruct (sscanf_key_value (String first rest)) as [[converted k] v].
  repeat (branch; try reflexivity).
Qed.

Lemma read_lines_clock lines : forall g n m,
  value (read_lines atof lines g n) = value (read_lines atof lines g m).
Proof.
  induction lines as [|line lines IH]; intros g n m; [reflexivity|].
  simpl. rewrite (read_line_clock line g n m). apply IH.
Qed.

Lemma read_lines_app before after : forall g n,
  value (read_lines atof (before ++ after) g n) =
  value (read_lines atof after (value (read_lines atof before g n)) n).
Proof.
  induction before as [|line before IH]; intros g n; [reflexivity|].
  simpl. rewrite IH. apply read_lines_clock.
Qed.

(** A line whose value is rejected can be struck from the file without
    changing what the read loop leaves. *)
Lemma read_lines_rejected before after line key value_str g n :
  assignment line = Some (key, value_str) ->
  valid_delay (atof value_str) = false ->
  value (read_lines atof (before ++ line :: after) g n) =
  value (read_lines atof (before ++ after) g n).
Proof.
  intros Has Hbad. rewrite !read_lines_app. simpl.
  set (g' := value (read_lines atof before g n)).
  destruct (read_line_rejected line key value_str g' n Has Hbad) as [Hv _].
  rewrite Hv. apply read_lines_clock.
Qed.

(** What [LoadConfiguration] leaves is a function of what the read loop
    leaves. *)
Lemma LoadConfiguration_of_read file1 file2 fopen_w n :
  value (read_lines atof (fgets_lines file1 [] (MAX_CONFIG_LINE_LENGTH - 1))
           (DEFAULT_MIN_DELAY_S, DEFAULT_MAX_DELAY_S) n) =
  value (read_lines atof (fgets_lines file2 [] (MAX_CONFIG_LINE_LENGTH - 1))
           (DEFAULT_MIN_DELAY_S, DEFAULT_MAX_DELAY_S) n) ->
  value (LoadConfiguration atof (Some file1) fopen_w n) =
  value (LoadConfiguration atof (Some file2) fopen_w n).
Proof.
  intro H. unfold LoadConfiguration. simpl. simpl in H. rewrite H.
  destruct (Qlt_bool _ _); reflexivity.
Qed.

(** A rejected line struck from the text of the file: the delays
    [LoadConfiguration] leaves, swap included, are the same. *)
Lemma LoadConfiguration_rejected before line after key value_str fopen_w n :
  before = EmptyString \/ ends_in_newline before = true ->
  ends_in_newline line = true ->
  fgets_lines line [] (MAX_CONFIG_LINE_LENGTH - 1) = [line] ->
  assignment line = Some (key, value_str) ->
  valid_delay (atof value_str) = false ->
  value (LoadConfiguration atof (Some (before ++ line ++ after)%string) fopen_w n) =
  value (LoadConfiguration atof (Some (before ++ after)%string) fopen_w n).
Proof.
  intros Hbefore Hline Hone Has Hbad. apply LoadConfiguration_of_read.
  assert (Hsplit : forall rest,
             fgets_lines (before ++ rest) [] (MAX_CONFIG_LINE_LENGTH - 1) =
             fgets_lines before [] (MAX_CONFIG_LINE_LENGTH - 1) ++
             fgets_lines rest [] (MAX_CONFIG_LINE_LENGTH - 1)).
  { intro rest. destruct Hbefore as [-> | Hnl]; [reflexivity|].
    now apply fgets_lines_app. }
  rewrite !Hsplit, (fgets_lines_app line after _ _ Hline), Hone.
  apply (read_lines_rejected _ _ line key value_str); assumption.
Qed.

End ConfigLoader.

(** C8: whatever the config file holds (or if it cannot be opened), the
    delays [LoadConfiguration] leaves satisfy [min <= max] and both lie
    strictly between 0 and 3600; when the values read are in the wrong
    order they are exchanged and a warning is logged.  A file with
    [min_delay=10] and
    [max_delay=5], read by an [atof] that reads those numbers, leaves the
    delays (5, 10) and logs the swap as a warning. *)
Theorem LoadConfiguration_bounds (atof : string -> double) :
  (forall configFile fopen_w n,
     let g := value (LoadConfiguration atof configFile fopen_w n) in
     (fst g <= snd g)%Q /\ in_bounds g) /\
  (forall file fopen_w n,
     let read := value (read_lines atof (fgets_lines file [] (MAX_CONFIG_LINE_LENGTH - 1))
                          (DEFAULT_MIN_DELAY_S, DEFAULT_MAX_DELAY_S) n) in
     let r := LoadConfiguration atof (Some file) fopen_w n in
     ((snd read < fst read)%Q ->
      value r = (snd read, fst read) /\
      In (EvLog WARNING "LoadConfig: min_delay > max_delay. Swapping. Min: %.2f, Max: %.2f")
         (events r)) /\
     ((fst read <= snd read)%Q -> value r = read)) /\
  (atof "10"%string = Finite 10 -> atof "5"%string = Finite 5 ->
   forall fopen_w n,
     let r := LoadConfiguration atof (Some swapped_config) fopen_w n in
     value r = (5, 10)%Q /\
     In (EvLog WARNING "LoadConfig: min_delay > max_delay. Swapping. Min: %.2f, Max: %.2f")
        (events r) /\
     In (EvPrintf "Warning: min_delay (%.1fs) in config is greater than max_delay (%.1fs). Swapping them.")
        (events r)).
Proof.
  split.
  - intros [file|] fopen_w n.
    + unfold LoadConfiguration. simpl.
      set (g := value (read_lines atof _ _ _)).
      assert (Hg : in_bounds g).
      { apply read_lines_in_bounds. repeat split. }
      destruct Hg as [[Hmin0 Hmin1] [Hmax0 Hmax1]].
      destruct (Qlt_bool (snd g) (fst g)) eqn:Hswap; simpl.
      * apply Qlt_bool_iff in Hswap. split; [apply Qlt_le_weak, Hswap|].
        repeat split; assumption.
      * apply Qlt_bool_false in Hswap. split; [exact Hswap|]. repeat split; assumption.
    + simpl. split; [discriminate|]. repeat split.
  - split.
    { intros file fopen_w n read r. subst r read. unfold LoadConfiguration. simpl.
      set (read := value (read_lines atof _ _ _)).
      split.
      - intro Hswap. apply Qlt_bool_iff in Hswap. rewrite Hswap. simpl.
        split; [reflexivity|]. in_events.
      - intro Hord. apply Qlt_bool_false in Hord. rewrite Hord. reflexivity. }
    intros H10 H5 fopen_w n r. subst r.
    unfold LoadConfiguration, swapped_config. vm_compute. rewrite H10, H5. vm_compute.
    split; [reflexivity|]. split; in_events.
Qed.

(** C9: rejection is per key.  A line whose value is out of range, or that
    [atof] reads as zero, leaves both delays as they were and logs one
    warning that names the key; a line with a valid value sets its own key
    and leaves the other; striking a rejected line from the file changes
    neither what the read loop leaves nor what [LoadConfiguration] leaves.
    A file with [min_delay=9999] and
    [max_delay=5] leaves the default minimum 2 and the maximum 5, with the
    warning for [min_delay]. *)
Theorem rejection_is_per_key (atof : string -> double) :
  (forall line key value_str g n,
     assignment line = Some (key, value_str) ->
     valid_delay (atof value_str) = false ->
     value (read_line atof line g n) = g /\
     exists format, events (read_line atof line g n) = [EvLog WARNING format] /\
       (key = "min_delay"%string -> format =
          "LoadConfig: Invalid value for min_delay on line %d: '%s'. Using default or previous."%string) /\
       (key = "max_delay"%string -> format =
          "LoadConfig: Invalid value for max_delay on line %d: '%s'. Using default or previous."%string)) /\
  (forall line key value_str g n,
     assignment line = Some (key, value_str) ->
     atof value_str = Finite 0 ->
     value (read_line atof line g n) = g) /\
  (forall line value_str g n,
     assignment line = Some ("min_delay"%string, value_str) ->
     valid_delay (atof value_str) = true ->
     value (read_line atof line g n) = (finite_value (atof value_str), snd g)) /\
  (forall line value_str g n,
     assignment line = Some ("max_delay"%string, value_str) ->
     valid_delay (atof value_str) = true ->
     value (read_line atof line g n) = (fst g, finite_value (atof value_str))) /\
  (forall before after line key value_str g n,
     assignment line = Some (key, value_str) ->
     valid_delay (atof value_str) = false ->
     value (read_lines atof (before ++ line :: after) g n) =
     value (read_lines atof (before ++ after) g n)) /\
  (forall before line after key value_str fopen_w n,
     before = EmptyString \/ ends_in_newline before = true ->
     ends_in_newline line = true ->
     fgets_lines line [] (MAX_CONFIG_LINE_LENGTH - 1) = [line] ->
     assignment line = Some (key, value_str) ->
     valid_delay (atof value_str) = false ->
     value (LoadConfiguration atof (Some (before ++ line ++ after)%string) fopen_w n) =
     value (LoadConfiguration atof (Some (before ++ after)%string) fopen_w n)) /\
  (atof "9999"%string = Finite 9999 -> atof "5"%string = Finite 5 ->
   forall fopen_w n,
     let r := LoadConfiguration atof (Some out_of_range_config) fopen_w n in
     value r = (DEFAULT_MIN_DELAY_S, 5%Q) /\
     In (EvLog WARNING "LoadConfig: Invalid value for min_delay on line %d: '%s'. Using default or previous.")
        (events r) /\
     In (EvLog DEBUG "LoadConfig: Loaded max_delay = %.2f") (events r)).
Proof.
  split; [exact (read_line_rejected atof)|].
  split.
  { intros line key value_str g n Has Hzero.
    apply (read_line_rejected atof line key value_str g n Has).
    rewrite Hzero. apply valid_delay_zero. }
  split; [exact (read_line_accepted_min atof)|].
  split; [exact (read_line_accepted_max atof)|].
  split; [exact (read_lines_rejected atof)|].
  split; [exact (LoadConfiguration_rejected atof)|].
  intros H9999 H5 fopen_w n r. subst r.
  unfold LoadConfiguration, out_of_range_config. vm_compute. rewrite H9999, H5. vm_compute.
  split; [reflexivity|]. split; in_events.
Qed.

(** ** Concrete runs *)

(** Left Alt is down when the keys are read: the pass injects nothing and
    ends with the 500 ms pause. *)
Lemma alt_held_skips_injection_witness :
  let r := loop_body (fun _ => alt_held_world) 1 2 7 0 O in
  alt_seen_down (events r) = true /\
  value r = (Continue, 0) /\
  injections (events r) = [] /\
  exists before,
    events r = before ++
      [ EvPrintf "Info: Alt key is currently pressed. Skipping keystroke to avoid conflict.";
        EvLog DEBUG "Main: Alt key detected as pressed. Deferring SendCtrlF5Keystroke.";
        EvSleep 500 ].
Proof.
  split; [vm_compute; reflexivity|].
  apply (alt_held_skips_injection (fun _ => alt_held_world) 1 2 7 0 O).
  vm_compute; reflexivity.
Defined.

(** C1, as stated, fails: with Ctrl held down throughout (and no Alt key),
    the pass still injects Ctrl+F5. *)
Lemma ctrl_held_still_injects :
  let env := fun _ : nat => ctrl_held_world in
  (forall k, key_down (w_GetAsyncKeyState (env k) VK_CONTROL) = true /\
             key_down (w_GetAsyncKeyState (env k) VK_LCONTROL) = true /\
             key_down (w_GetAsyncKeyState (env k) VK_RCONTROL) = true) /\
  injections (events (loop_body env 1 2 7 0 O)) = [(ctrl_f5_inputs, 4)] /\
  injections (events (loop_body env 1 2 7 0 O)) <> [].
Proof.
  split; [intro k; repeat split|].
  split; [vm_compute; reflexivity|]. vm_compute. discriminate.
Qed.

Lemma alt_penalty_then_fresh_wait_witness :
  let env := alt_then_released in
  let r := loop_body env 1 2 7 0 O in
  let d := GetRandomDelaySeconds env 2 7 (S (clock r)) in
  let w := WaitMilliseconds (delay_ms (value d)) (S (clock d)) in
  alt_seen_down (events r) = true /\
  w_IsWindow (env (clock r)) 1 = true /\
  exists rest,
    events (loop_body env 1 2 7 0 (clock r)) =
      EvIsWindow 1 true :: events d ++
      [ EvGetWindowText 1;
        EvPrintf "Waiting for %.2fs before sending Ctrl+F5 to %s...";
        EvLog DEBUG "Main: Waiting for %.3f seconds." ] ++
      events w ++ events (IsAltKeyHeld env (clock w)) ++ rest.
Proof.
  split; [vm_compute; reflexivity|]. split; [vm_compute; reflexivity|].
  apply (alt_penalty_then_fresh_wait alt_then_released 1 2 7 0 O O).
  - vm_compute; reflexivity.
  - vm_compute; reflexivity.
Defined.

(** C3, as stated, fails: Alt is down at the first check and released
    afterwards.  Between the 500 ms pause and the injection that follows,
    the loop draws again ([CryptGenRandom]) and sleeps the 7 seconds it
    drew. *)
Lemma penalty_is_followed_by_a_fresh_wait :
  exists before between after,
    events (main_loop alt_then_released 1 2 7 2 0 O) =
      before ++
      [ EvGetAsyncKeyState VK_MENU KEY_DOWN_STATE;
        EvPrintf "Info: Alt key is currently pressed. Skipping keystroke to avoid conflict.";
        EvLog DEBUG "Main: Alt key detected as pressed. Deferring SendCtrlF5Keystroke.";
        EvSleep ALT_KEY_CHECK_DELAY_MS ] ++
      between ++ [EvSendInput ctrl_f5_inputs 4] ++ after /\
    injections before = [] /\
    injections between = [] /\
    In (EvCryptGenRandom (Some UINT_MAX)) between /\
    In (EvSleep 7000) between.
Proof.
  exists [ EvIsWindow 1 true; EvCryptAcquireContext true;
           EvCryptGenRandom (Some UINT_MAX); EvCryptReleaseContext;
           EvGetWindowText 1;
           EvPrintf "Waiting for %.2fs before sending Ctrl+F5 to %s...";
           EvLog DEBUG "Main: Waiting for %.3f seconds.";
           EvSleep 7000 ].
  exists [ EvIsWindow 1 true; EvCryptAcquireContext true;
           EvCryptGenRandom (Some UINT_MAX); EvCryptReleaseContext;
           EvGetWindowText 1;
           EvPrintf "Waiting for %.2fs before sending Ctrl+F5 to %s...";
           EvLog DEBUG "Main: Waiting for %.3f seconds.";
           EvSleep 7000;
           EvGetAsyncKeyState VK_MENU 0; EvGetAsyncKeyState VK_LMENU 0;
           EvGetAsyncKeyState VK_RMENU 0;
           EvIsWindow 1 true;
           EvPrintf "Sending Ctrl+F5 (Count: %d) to window %s...";
           EvIsWindow 1 true; EvGetForegroundWindow 1;
           EvLog DEBUG "SendCtrlF5: Target window %p is already foreground.";
           EvIsIconic 1 false ].
  exists [ EvLog DEBUG "SendCtrlF5 (SendInput): Sent Ctrl+F5 to HWND %p.";
           EvSleep POST_SENDINPUT_DELAY_MS ].
  split; [vm_compute; reflexivity|].
  repeat split; try reflexivity; in_events.
Qed.

(** Both joins granted, in a session that is secured and in one that
    fails: the same history either way. *)
Example joins_unwound_when_secured :
  value (ActivateWindowAndEnsureFocus focus_granted 1 2 2%nat) = true /\
  join_log (events (ActivateWindowAndEnsureFocus focus_granted 1 2 2%nat)) =
    [Join 10 11; Join 10 12; Unjoin 10 12; Unjoin 10 11].
Proof. split; vm_compute; reflexivity. Qed.

Example joins_unwound_when_failed :
  value (ActivateWindowAndEnsureFocus focus_stolen_back 1 2 2%nat) = false /\
  join_log (events (ActivateWindowAndEnsureFocus focus_stolen_back 1 2 2%nat)) =
    [Join 10 11; Join 10 12; Unjoin 10 12; Unjoin 10 11].
Proof. split; vm_compute; reflexivity. Qed.

(** The first join is refused and the second granted: only the second is
    undone. *)
Lemma joins_unwound_in_reverse_witness :
  let evs := events (ActivateWindowAndEnsureFocus join_refused 1 2 O) in
  In (10, 11) (failed_joins evs) /\ ~ In (10, 11) (unjoins evs) /\
  join_log evs = [Join 10 12; Unjoin 10 12].
Proof.
  split; [vm_compute; auto|]. split.
  - apply (joins_unwound_in_reverse join_refused 1 2 O). vm_compute; auto.
  - vm_compute; reflexivity.
Defined.

(** Focus is granted and stolen back during the settle pause: the arbiter
    answers FALSE and nothing is injected. *)
Lemma focus_lost_after_settle_witness :
  settle_recheck (events (ActivateWindowAndEnsureFocus focus_stolen_back 1 2 2%nat)) = Some 2 /\
  2 <> 1 /\
  value (ActivateWindowAndEnsureFocus focus_stolen_back 1 2 2%nat) = false /\
  settle_recheck (events (SendCtrlF5Keystroke focus_stolen_back 1 O)) = Some 2 /\
  injections (events (SendCtrlF5Keystroke focus_stolen_back 1 O)) = [] /\
  In (EvPrintf "Info: Could not reliably switch to target window. Keystroke for Ctrl+F5 skipped this cycle.")
     (events (SendCtrlF5Keystroke focus_stolen_back 1 O)).
Proof.
  destruct (focus_lost_after_settle focus_stolen_back 1) as [Harbiter Hdelivery].
  split; [vm_compute; reflexivity|]. split; [lia|].
  split; [apply (Harbiter 2 2%nat 2); [vm_compute; reflexivity | lia]|].
  split; [vm_compute; reflexivity|].
  apply (Hdelivery O 2); [vm_compute; reflexivity | lia].
Defined.

(** Three of four events accepted: one call, and the error in the log. *)
Lemma SendCtrlF5Keystroke_single_call_witness :
  let evs := events (SendCtrlF5Keystroke focus_granted 1 O) in
  let session := ActivateWindowAndEnsureFocus focus_granted 1 2 2%nat in
  w_IsWindow (focus_granted O) 1 = true /\
  w_GetForegroundWindow (focus_granted 1%nat) = 2 /\
  value session = true /\
  w_IsIconic (focus_granted (clock session)) 1 = false /\
  injections evs = [(ctrl_f5_inputs, 4)] /\
  injections (events (SendCtrlF5Keystroke partial_injection 1 O)) = [(ctrl_f5_inputs, 3)] /\
  In (EvLog ERROR "SendCtrlF5 (SendInput): Failed. Sent %u of 4. Error: %lu")
     (events (SendCtrlF5Keystroke partial_injection 1 O)).
Proof.
  intros evs session.
  assert (Halive : w_IsWindow (focus_granted O) 1 = true) by reflexivity.
  assert (Hheld : value session = true) by (vm_compute; reflexivity).
  assert (Hic : w_IsIconic (focus_granted (clock session)) 1 = false) by reflexivity.
  split; [exact Halive|]. split; [reflexivity|]. split; [exact Hheld|]. split; [exact Hic|].
  split.
  - exact (proj1 (proj1 (SendCtrlF5Keystroke_single_call focus_granted 1) O Halive Hheld) Hic).
  - split; [vm_compute; reflexivity|].
    destruct (proj1 (proj2 (SendCtrlF5Keystroke_single_call partial_injection 1)) O)
      as [[Hnone _] | (uSent & Hone & _ & Hlog)].
    + vm_compute in Hnone. discriminate Hnone.
    + apply Hlog. vm_compute in Hone. injection Hone as <-. lia.
Defined.

Lemma SendCtrlF5Keystroke_already_foreground_witness :
  let env := fun _ : nat => calm_world in
  let r := SendCtrlF5Keystroke env 1 O in
  w_IsWindow (env O) 1 = true /\
  w_GetForegroundWindow (env 1%nat) = 1 /\
  existsb is_join_call (events r) = false /\
  existsb is_activation (events r) = false /\
  injections (events r) = [(ctrl_f5_inputs, 4)].
Proof.
  split; [reflexivity|]. split; [reflexivity|].
  destruct (SendCtrlF5Keystroke_already_foreground (fun _ => calm_world) 1 O)
    as (_ & Hjoin & Hact & _ & _ & Hinject); [reflexivity | reflexivity |].
  split; [exact Hjoin|]. split; [exact Hact|]. apply Hinject. reflexivity.
Defined.

Lemma SendCtrlF5Keystroke_invalid_target_witness :
  w_IsWindow (target_gone O) 1 = false /\
  events (SendCtrlF5Keystroke target_gone 1 O) =
    [ EvIsWindow 1 false;
      EvLog WARNING "SendCtrlF5: Target HWND %p is invalid. Skipping.";
      EvPrintf "Warning: The target window seems to be closed. Keystroke not sent." ] /\
  injections (events (SendCtrlF5Keystroke target_gone 1 O)) = [].
Proof.
  split; [reflexivity|].
  destruct (SendCtrlF5Keystroke_invalid_target target_gone 1 O) as (Hev & _ & Hinj & _);
    [reflexivity|].
  split; [exact Hev | exact Hinj].
Defined.

Lemma LoadConfiguration_bounds_witness :
  atof_decimal "10" = Finite 10 /\ atof_decimal "5" = Finite 5 /\
  value (LoadConfiguration atof_decimal (Some swapped_config) true O) = (5, 10)%Q /\
  In (EvLog WARNING "LoadConfig: min_delay > max_delay. Swapping. Min: %.2f, Max: %.2f")
     (events (LoadConfiguration atof_decimal (Some swapped_config) true O)).
Proof.
  split; [reflexivity|]. split; [reflexivity|].
  destruct (LoadConfiguration_bounds atof_decimal) as (_ & _ & Hswap).
  destruct (Hswap eq_refl eq_refl true O) as (Hv & Hlog & _).
  split; [exact Hv | exact Hlog].
Defined.

(** The rejected minimum next to a valid maximum of 5, and next to a valid
    maximum of 1, where the default minimum 2 and the maximum read are then
    exchanged exactly as they are without the rejected line. *)
Lemma rejection_is_per_key_witness :
  let line := ("min_delay=9999" ++ line_feed)%string in
  let before := ("max_delay=1" ++ line_feed)%string in
  assignment line = Some ("min_delay", "9999")%string /\
  valid_delay (atof_decimal "9999") = false /\
  value (read_line atof_decimal line (2, 7)%Q O) = (2, 7)%Q /\
  atof_decimal "9999" = Finite 9999 /\ atof_decimal "5" = Finite 5 /\
  value (LoadConfiguration atof_decimal (Some out_of_range_config) true O) = (2, 5)%Q /\
  ends_in_newline before = true /\ ends_in_newline line = true /\
  fgets_lines line [] (MAX_CONFIG_LINE_LENGTH - 1) = [line] /\
  value (LoadConfiguration atof_decimal (Some (before ++ line ++ EmptyString)%string) true O) =
  value (LoadConfiguration atof_decimal (Some (before ++ EmptyString)%string) true O).
Proof.
  destruct (rejection_is_per_key atof_decimal) as (Hrej & _ & _ & _ & _ & Hstruck & Hfile).
  split; [reflexivity|]. split; [reflexivity|].
  split; [apply (Hrej _ "min_delay"%string "9999"%string (2, 7)%Q O); reflexivity|].
  split; [reflexivity|]. split; [reflexivity|].
  split; [apply (Hfile eq_refl eq_refl true O)|].
  split; [reflexivity|]. split; [reflexivity|]. split; [reflexivity|].
  apply (Hstruck _ _ _ "min_delay"%string "9999"%string true O);
    [right; reflexivity | reflexivity | reflexivity | reflexivity | reflexivity].
Defined.

(** C9, as stated, fails.  In a file with [max_delay=1] and
    [min_delay=9999] the value of [min_delay] is out of range and is
    rejected with its warning, and the value of [max_delay] is valid and is
    loaded; but when [LoadConfiguration] returns, the minimum is not the
    default 2 it was to keep and the maximum is not the 1 that was loaded:
    the default kept by the read loop is above the loaded maximum, and the
    swap after the loop leaves the minimum 1 and the maximum 2. *)
Lemma rejected_key_loses_its_default :
  let file := ("max_delay=1" ++ line_feed ++ "min_delay=9999" ++ line_feed)%string in
  let r := LoadConfiguration atof_decimal (Some file) true O in
  valid_delay (atof_decimal "9999") = false /\
  valid_delay (atof_decimal "1") = true /\
  In (EvLog WARNING
        "LoadConfig: Invalid value for min_delay on line %d: '%s'. Using default or previous.")
     (events r) /\
  In (EvLog DEBUG "LoadConfig: Loaded max_delay = %.2f") (events r) /\
  value r = (1, 2)%Q /\
  ~ (fst (value r) = DEFAULT_MIN_DELAY_S /\ snd (value r) = 1%Q).
Proof.
  intros file r.
  assert (Hv : value r = (1, 2)%Q) by (vm_compute; reflexivity).
  split; [reflexivity|]. split; [reflexivity|].
  split; [vm_compute; auto 10|]. split; [vm_compute; auto 10|].
  split; [exact Hv|].
  rewrite Hv. intros [H _]. discriminate H.
Qed.

(** Nor is every value that is not a number rejected: [atof] reads the
    number a text starts with, so [max_delay=12.5abc] loads 12.5 as the
    maximum, and no warning is logged. *)
Example numeric_prefix_is_loaded :
  let r := LoadConfiguration atof_decimal
             (Some ("max_delay=12.5abc" ++ line_feed)%string) true O in
  assignment ("max_delay=12.5abc" ++ line_feed) = Some ("max_delay", "12.5abc")%string /\
  value r = (2, 12.5)%Q /\
  existsb is_warning (events r) = false.
Proof. vm_compute. repeat split. Qed.


(** * Further properties *)

(** ** RandomInterval *)


Lemma round_double_nonpos x : (x <= 0)%Q -> (round_double x <= 0)%Q.
Proof.
  intro H. destruct (Qeq_dec x 0) as [Hz | Hnz].
  - rewrite (round_double_zero x Hz). apply Qle_refl.
  - pose proof (round_double_le_grid x 0 Hnz) as Hg.
    change (inject_Z 0) with 0%Q in Hg. rewrite Qmult_0_l in Hg. now apply Hg.
Qed.

(** The scale of the [rand] fallback is at most one half: [rand] gives at
    most [INT_MAX]. *)
Lemma fallback_scale (v : Z) :
  0 <= v < 2 ^ 31 ->
  (0 <= round_double (round_double (inject_Z v) / round_double (inject_Z UINT_MAX))
   <= 1 # 2)%Q.
Proof.
  intros [Hlo Hhi]. split.
  - apply (unit_scale v). unfold UINT_MAX. lia.
  - apply Qle_trans
      with (round_double (round_double (inject_Z (2 ^ 31 - 1)) / round_double (inject_Z UINT_MAX))).
    + apply scale_monotone. lia.
    + vm_compute. discriminate.
Qed.

(** X2: the [rand] fallback stays in the lower half.  With [0 <= min < max]
    a delay drawn through the fallback is at least [min] and at most the
    middle of the range as the doubles compute it, [min + (max - min) / 2]:
    [rand] gives at most [INT_MAX], less than half of [UINT_MAX]. *)
Theorem fallback_delay_in_lower_half env (min_s max_s : Q) (n : nat) r :
  (0 <= min_s)%Q -> (min_s < max_s)%Q -> is_double min_s ->
  In (EvRand r) (events (GetRandomDelaySeconds env min_s max_s n)) ->
  (min_s <= value (GetRandomDelaySeconds env min_s max_s n))%Q /\
  (value (GetRandomDelaySeconds env min_s max_s n) <=
   round_double (min_s + round_double (round_double (max_s - min_s) / 2)))%Q.
Proof.
  intros H0 Hlt Hmin Hin.
  assert (Hb : Qle_bool max_s min_s = false).
  { apply not_true_iff_false. rewrite Qle_bool_iff. now apply Qlt_not_le. }
  assert (Hhalf : forall v, 0 <= v < 2 ^ 31 ->
            (min_s <= scaled_delay min_s max_s v)%Q /\
            (scaled_delay min_s max_s v <=
             round_double (min_s + round_double (round_double (max_s - min_s) / 2)))%Q).
  { intros v Hv. split.
    - apply scaled_delay_range; [exact H0 | lra | exact Hmin | unfold UINT_MAX; lia].
    - unfold scaled_delay. destruct (fallback_scale v Hv) as [Hs0 Hs1].
      set (scale := round_double (round_double (inject_Z v) / round_double (inject_Z UINT_MAX))) in *.
      assert (Hd : (0 <= round_double (max_s - min_s))%Q) by (apply round_double_nonneg; lra).
      set (d := round_double (max_s - min_s)) in *.
      assert (Hp0 : (0 <= round_double (scale * d))%Q) by (apply round_double_nonneg; nra).
      assert (Hp : (round_double (scale * d) <= round_double (d / 2))%Q).
      { apply round_double_monotone; [nra|].
        setoid_replace (d / 2)%Q with ((1 # 2) * d)%Q by field. nra. }
      apply round_double_monotone; lra. }
  revert Hin. unfold GetRandomDelaySeconds. rewrite Hb. simpl.
  destruct (w_CryptAcquireContext (env n)); simpl.
  - destruct (w_CryptGenRandom (env (S n))) as [v|]; simpl.
    + intros [H|[H|[H|[]]]]; discriminate H.
    + intros _. apply Hhalf. apply Z.mod_pos_bound. lia.
  - intros _. apply Hhalf. apply Z.mod_pos_bound. lia.
Qed.

(** [(DWORD)(x * 1000.0)] for a wait that is not negative: the whole
    milliseconds of the rounded product. *)
Lemma delay_ms_floor (x : Q) :
  (0 <= x)%Q -> delay_ms x = Qfloor (round_double (x * 1000)).
Proof.
  intro H. unfold delay_ms.
  assert (Hp : (0 <= round_double (x * 1000))%Q).
  { apply round_double_nonneg. apply Qmult_le_0_compat; [exact H | discriminate]. }
  destruct (round_double (x * 1000)) as [num den].
  assert (Hn : 0 <= num) by (unfold Qle in Hp; simpl in Hp; lia).
  cbn [Qnum Qden]. unfold Qfloor. apply Z.quot_div_nonneg; lia.
Qed.

Lemma delay_ms_monotone (x y : Q) : (0 <= x)%Q -> (x <= y)%Q -> delay_ms x <= delay_ms y.
Proof.
  intros H0 Hxy. rewrite !delay_ms_floor by (try assumption; eapply Qle_trans; eassumption).
  apply Qfloor_resp_le. apply round_double_monotone.
  - apply Qmult_le_0_compat; [exact H0 | discriminate].
  - apply Qmult_le_compat_r; [exact Hxy | discriminate].
Qed.

(** The delays [LoadConfiguration] leaves are in order and in bounds. *)
Lemma LoadConfiguration_ordered (atof : string -> double) configFile fopen_w n :
  let g := value (LoadConfiguration atof configFile fopen_w n) in
  (fst g <= snd g)%Q /\ in_bounds g.
Proof.
  destruct configFile as [file|].
  - unfold LoadConfiguration. simpl.
    set (g := value (read_lines atof _ _ _)).
    assert (Hg : in_bounds g) by (apply read_lines_in_bounds; repeat split).
    destruct Hg as [[Hmin0 Hmin1] [Hmax0 Hmax1]].
    destruct (Qlt_bool (snd g) (fst g)) eqn:Hswap; simpl.
    + apply Qlt_bool_iff in Hswap. split; [apply Qlt_le_weak, Hswap|].
      repeat split; assumption.
    + apply Qlt_bool_false in Hswap. split; [exact Hswap|]. repeat split; assumption.
  - simpl. split; [discriminate|]. repeat split.
Qed.

Section LoadedDelays.

Variable atof : string -> double.

(** What [atof] returns for a value that passes the range check is a
    double. *)
Hypothesis atof_doubles : forall s q, atof s = Finite q -> (0 < q)%Q -> is_double q.

Lemma read_line_doubles line g n :
  both_doubles g -> both_doubles (value (read_line atof line g n)).
Proof.
  intros Hg. unfold read_line.
  destruct (TrimWhitespace (c_str line)) as [|first rest]; [exact Hg|].
  destruct (Ascii.eqb first "#" || Ascii.eqb first ";"); [exact Hg|].
  destruct (sscanf_key_value (String first rest)) as [[converted k] v].
  destruct (converted =? 2); [|exact Hg].
  destruct (String.eqb (TrimWhitespace k) "min_delay").
  - destruct (double_lt (Finite 0) _ && double_lt _ (Finite 3600)) eqn:Hv; [|exact Hg].
    destruct (valid_delay_finite _ Hv) as (q & Hq & H0 & H1).
    simpl. rewrite Hq. simpl. destruct Hg as [_ Hmax].
    split; [apply (atof_doubles _ _ Hq H0) | exact Hmax].
  - destruct (String.eqb (TrimWhitespace k) "max_delay"); [|exact Hg].
    destruct (double_lt (Finite 0) _ && double_lt _ (Finite 3600)) eqn:Hv; [|exact Hg].
    destruct (valid_delay_finite _ Hv) as (q & Hq & H0 & H1).
    simpl. rewrite Hq. simpl. destruct Hg as [Hmin _].
    split; [exact Hmin | apply (atof_doubles _ _ Hq H0)].
Qed.

Lemma read_lines_doubles lines : forall g n,
  both_doubles g -> both_doubles (value (read_lines atof lines g n)).
Proof.
  induction lines as [|line lines IH]; intros g n Hg; [exact Hg|].
  simpl. apply IH, read_line_doubles, Hg.
Qed.

Lemma LoadConfiguration_doubles configFile fopen_w n :
  both_doubles (value (LoadConfiguration atof configFile fopen_w n)).
Proof.
  assert (Hdefault : both_doubles (DEFAULT_MIN_DELAY_S, DEFAULT_MAX_DELAY_S))
    by (split; vm_compute; reflexivity).
  destruct configFile as [file|]; [|exact Hdefault].
  unfold LoadConfiguration. simpl.
  set (g := value (read_lines atof _ _ _)).
  assert (Hg : both_doubles g) by (apply read_lines_doubles; exact Hdefault).
  destruct (Qlt_bool (snd g) (fst g)); simpl; [|exact Hg].
  destruct Hg as [Hmin Hmax]. split; assumption.
Qed.

(** X3: the wait of a pass is in range.  Whatever the config file and
    whatever the random source, the wait drawn between the loaded bounds
    lies between the minimum and the top of the range (the maximum up to
    rounding), and its conversion to [DWORD] milliseconds lies between
    those of the two and is at most 7200000: the conversion never sees a
    negative or oversized value. *)
Theorem loaded_wait_in_range configFile fopen_w env (n m : nat) :
  let g := value (LoadConfiguration atof configFile fopen_w m) in
  let wait_duration_s := value (GetRandomDelaySeconds env (fst g) (snd g) n) in
  let top := round_double (fst g + round_double (snd g - fst g)) in
  (fst g <= wait_duration_s <= top)%Q /\
  0 <= delay_ms (fst g) <= delay_ms wait_duration_s /\
  delay_ms wait_duration_s <= delay_ms top <= 7200000.
Proof.
  intros g w top.
  destruct (LoadConfiguration_ordered atof configFile fopen_w m)
    as (Hord & (Hmin0 & Hmin1) & (Hmax0 & Hmax1)).
  destruct (LoadConfiguration_doubles configFile fopen_w m) as [Hdmin _].
  fold g in Hord, Hmin0, Hmin1, Hmax0, Hmax1, Hdmin.
  assert (H0 : (0 <= fst g)%Q) by now apply Qlt_le_weak.
  assert (Hw : (fst g <= w <= top)%Q).
  { unfold w, top. destruct (Qlt_le_dec (fst g) (snd g)) as [Hlt|Hge].
    - destruct (GetRandomDelaySeconds_draw env _ _ n Hlt) as (rv & Hrv & _ & ->).
      apply scaled_delay_range; assumption.
    - apply Qle_bool_iff in Hge. unfold GetRandomDelaySeconds. rewrite Hge. simpl.
      split; [apply Qle_refl|].
      unfold is_double in Hdmin. rewrite <- Hdmin at 1.
      apply round_double_monotone; [exact H0|].
      assert (Hd : (0 <= round_double (snd g - fst g))%Q) by (apply round_double_nonneg; lra).
      lra. }
  split; [exact Hw|]. destruct Hw as [Hlo Hhi].
  assert (H0w : (0 <= w)%Q) by (eapply Qle_trans; eassumption).
  assert (Htop : (top <= 7200)%Q) by (apply top_below_7200; lra).
  repeat split.
  - rewrite delay_ms_floor by exact H0. change 0 with (Qfloor 0).
    apply Qfloor_resp_le. apply round_double_nonneg.
    apply Qmult_le_0_compat; [exact H0 | discriminate].
  - apply delay_ms_monotone; assumption.
  - apply delay_ms_monotone; assumption.
  - apply Z.le_trans with (delay_ms 7200).
    + apply delay_ms_monotone; [lra | exact Htop].
    + vm_compute. discriminate.
Qed.

End LoadedDelays.

Lemma atof_double_doubles s q : atof_double s = Finite q -> (0 < q)%Q -> is_double q.
Proof.
  unfold atof_double. destruct (atof_decimal s) as [q'| |]; try discriminate.
  intros H Hq. injection H as <-. apply round_double_idempotent.
  destruct (Qlt_le_dec q' 0) as [Hneg | Hpos]; [|exact Hpos].
  pose proof (round_double_nonpos q' (Qlt_le_weak _ _ Hneg)). lra.
Qed.

Lemma fallback_delay_in_lower_half_witness :
  (0 <= 2)%Q /\ (2 < 7)%Q /\ is_double 2 /\
  In (EvRand 32767) (events (GetRandomDelaySeconds provider_down 2 7 O)) /\
  (2 <= value (GetRandomDelaySeconds provider_down 2 7 O))%Q /\
  (value (GetRandomDelaySeconds provider_down 2 7 O) <=
   round_double (2 + round_double (round_double (7 - 2) / 2)))%Q.
Proof.
  assert (H2 : is_double 2) by (vm_compute; reflexivity).
  assert (Hin : In (EvRand 32767) (events (GetRandomDelaySeconds provider_down 2 7 O)))
    by (vm_compute; auto).
  split; [discriminate|]. split; [reflexivity|]. split; [exact H2|]. split; [exact Hin|].
  apply (fallback_delay_in_lower_half provider_down 2 7 O 32767);
    [discriminate | reflexivity | exact H2 | exact Hin].
Defined.

Lemma loaded_wait_in_range_witness :
  let g := value (LoadConfiguration atof_double (Some "min_delay=0.3"%string) true O) in
  let wait_duration_s := value (GetRandomDelaySeconds (fun _ => calm_world) (fst g) (snd g) O) in
  let top := round_double (fst g + round_double (snd g - fst g)) in
  (forall s q, atof_double s = Finite q -> (0 < q)%Q -> is_double q) /\
  (fst g <= wait_duration_s <= top)%Q /\
  0 <= delay_ms (fst g) <= delay_ms wait_duration_s /\
  delay_ms wait_duration_s <= delay_ms top <= 7200000.
Proof.
  intros g w top. split; [exact atof_double_doubles|].
  exact (loaded_wait_in_range atof_double atof_double_doubles
           (Some "min_delay=0.3"%string) true (fun _ => calm_world) O O).
Defined.

(** The two conversions as the code computes them: a wait of 1.001 s (the
    double nearest to it) is 1000 ms, because the product with 1000.0 rounds
    to the double just below 1001; with the bounds 472.67831384905656 and
    998.0969999999999 the draw [UINT_MAX] waits 998097 ms, one more than the
    milliseconds of the maximum. *)
Example delay_ms_as_computed :
  delay_ms (round_double (1001 # 1000)) = 1000 /\
  let min_s := round_double (47267831384905656 # 100000000000000) in
  let max_s := round_double (9980969999999999 # 10000000000000) in
  delay_ms (scaled_delay min_s max_s UINT_MAX) = 998097 /\ delay_ms max_s = 998096.
Proof. vm_compute. repeat split. Qed.

Lemma string_forall_app p a b :
  string_forall p (a ++ b) = string_forall p a && string_forall p b.
Proof. induction a as [|c a IH]; simpl; [reflexivity|]. now rewrite IH, andb_assoc. Qed.

Lemma string_forall_impl (p q : ascii -> bool) s :
  (forall c, p c = true -> q c = true) ->
  string_forall p s = true -> string_forall q s = true.
Proof.
  intro Hpq. induction s as [|c s IH]; simpl; [reflexivity|].
  rewrite !andb_true_iff. intros [Hc Hs]. auto.
Qed.

Lemma isspace_not_NUL c : isspace c = true -> Ascii.eqb c NUL = false.
Proof.
  intro H. destruct (Ascii.eqb c NUL) eqn:E; [|reflexivity].
  apply Ascii.eqb_eq in E. subst c. discriminate H.
Qed.

Lemma c_str_same s :
  string_forall (fun c => negb (Ascii.eqb c NUL)) s = true -> c_str s = s.
Proof.
  induction s as [|c s IH]; simpl; [reflexivity|].
  rewrite andb_true_iff, negb_true_iff. intros [Hc Hs]. now rewrite Hc, IH.
Qed.

Lemma skip_space_blanks ws s :
  string_forall isspace ws = true -> skip_space (ws ++ s) = skip_space s.
Proof.
  induction ws as [|c ws IH]; simpl; [reflexivity|].
  rewrite andb_true_iff. intros [Hc Hws]. now rewrite Hc, IH.
Qed.

Lemma skip_space_started s : starts_with not_space s = true -> skip_space s = s.
Proof.
  destruct s as [|c s]; [discriminate|]. unfold not_space. simpl.
  rewrite negb_true_iff. now intros ->.
Qed.

Lemma drop_trailing_space_blanks ws :
  string_forall isspace ws = true -> drop_trailing_space ws = EmptyString.
Proof.
  induction ws as [|c ws IH]; simpl; [reflexivity|].
  rewrite andb_true_iff. intros [Hc Hws]. now rewrite IH, Hc.
Qed.

Lemma drop_trailing_space_app s ws :
  string_forall isspace ws = true ->
  drop_trailing_space (s ++ ws) = drop_trailing_space s.
Proof.
  intro Hws. induction s as [|c s IH]; simpl.
  - now apply drop_trailing_space_blanks.
  - now rewrite IH.
Qed.

Lemma drop_trailing_space_ended s :
  ends_with not_space s = true -> drop_trailing_space s = s.
Proof.
  induction s as [|c s IH]; [discriminate|].
  destruct s as [|c' s'].
  - unfold not_space. simpl. rewrite negb_true_iff. now intros ->.
  - intro H. change (ends_with not_space (String c' s') = true) in H.
    change (drop_trailing_space (String c (String c' s')))
      with (match drop_trailing_space (String c' s') with
            | EmptyString => if isspace c then EmptyString else String c EmptyString
            | kept => String c kept
            end).
    now rewrite (IH H).
Qed.

Lemma trimmed_cases t :
  trimmed t = true ->
  t = EmptyString \/ (starts_with not_space t = true /\ ends_with not_space t = true).
Proof.
  unfold trimmed. destruct t as [|c t]; [now left|]. simpl.
  rewrite andb_true_iff. now right.
Qed.

Lemma TrimWhitespace_eq s : TrimWhitespace s = drop_trailing_space (skip_space s).
Proof. unfold TrimWhitespace. destruct (skip_space s); reflexivity. Qed.

Lemma skip_space_all ws : string_forall isspace ws = true -> skip_space ws = EmptyString.
Proof.
  induction ws as [|c ws IH]; simpl; [reflexivity|].
  rewrite andb_true_iff. intros [Hc Hws]. now rewrite Hc, IH.
Qed.

Lemma starts_with_app p a b : starts_with p a = true -> starts_with p (a ++ b) = true.
Proof. destruct a; [discriminate | trivial]. Qed.

(** X4: [TrimWhitespace] removes exactly the blanks around a text: for a
    text that is empty or neither starts nor ends with a blank, wrapped in
    any blanks, it returns the text. *)
Theorem TrimWhitespace_strips ws1 t ws2 :
  string_forall isspace ws1 = true -> string_forall isspace ws2 = true ->
  trimmed t = true ->
  TrimWhitespace (ws1 ++ t ++ ws2) = t.
Proof.
  intros H1 H2 Ht. rewrite TrimWhitespace_eq, (skip_space_blanks _ _ H1).
  destruct (trimmed_cases t Ht) as [-> | [Hs He]].
  - simpl. now rewrite (skip_space_all _ H2).
  - rewrite (skip_space_started _ (starts_with_app _ _ ws2 Hs)).
    now rewrite (drop_trailing_space_app _ _ H2), (drop_trailing_space_ended _ He).
Qed.

Lemma TrimWhitespace_strips_witness :
  TrimWhitespace ("  " ++ "max delay" ++ String tab line_feed)%string = "max delay"%string.
Proof. apply TrimWhitespace_strips; reflexivity. Defined.

Lemma skip_space_splits s :
  exists ws, string_forall isspace ws = true /\ s = (ws ++ skip_space s)%string /\
    (skip_space s = EmptyString \/ starts_with not_space (skip_space s) = true).
Proof.
  induction s as [|c s IH].
  - exists EmptyString. simpl. auto.
  - simpl. destruct (isspace c) eqn:Hc.
    + destruct IH as (ws & Hws & Heq & Hst). exists (String c ws). simpl.
      rewrite Hc, Hws. split; [reflexivity|]. split; [now rewrite <- Heq | exact Hst].
    + exists EmptyString. simpl. unfold not_space. rewrite Hc. auto.
Qed.

Lemma drop_trailing_space_splits s :
  exists ws, string_forall isspace ws = true /\ s = (drop_trailing_space s ++ ws)%string /\
    (drop_trailing_space s = EmptyString \/
     ends_with not_space (drop_trailing_space s) = true) /\
    (starts_with not_space s = true -> starts_with not_space (drop_trailing_space s) = true).
Proof.
  induction s as [|c s IH].
  - exists EmptyString. simpl. auto.
  - destruct IH as (ws & Hws & Heq & Hend & _). simpl.
    destruct (drop_trailing_space s) as [|c' kept] eqn:Hd.
    + destruct (isspace c) eqn:Hc.
      * exists (String c ws). simpl. rewrite Hc, Hws. simpl in Heq.
        split; [reflexivity|]. split; [now rewrite <- Heq|]. split; [now left|].
        unfold not_space. rewrite Hc. discriminate.
      * exists ws. simpl in Heq. split; [exact Hws|]. split; [now rewrite <- Heq|].
        unfold not_space. simpl. rewrite Hc. auto.
    + exists ws. split; [exact Hws|]. split; [simpl; f_equal; exact Heq|].
      split; [|trivial]. right. destruct Hend as [Hend|Hend]; [discriminate|exact Hend].
Qed.

(** X5: what [TrimWhitespace] returns is the input without the blanks at its
    two ends: the result is empty or neither starts nor ends with a blank,
    the input is the result between two runs of blanks, and trimming again
    changes nothing. *)
Theorem TrimWhitespace_result s :
  trimmed (TrimWhitespace s) = true /\
  TrimWhitespace (TrimWhitespace s) = TrimWhitespace s /\
  exists ws1 ws2,
    string_forall isspace ws1 = true /\ string_forall isspace ws2 = true /\
    s = (ws1 ++ TrimWhitespace s ++ ws2)%string.
Proof.
  rewrite !TrimWhitespace_eq.
  destruct (skip_space_splits s) as (ws1 & H1 & Hs & Hstart).
  destruct (drop_trailing_space_splits (skip_space s)) as (ws2 & H2 & Hd & Hend & Hkeep).
  set (t := drop_trailing_space (skip_space s)) in *.
  assert (Ht : trimmed t = true).
  { unfold trimmed. destruct Hend as [-> | Hend]; [reflexivity|].
    destruct Hstart as [Hempty | Hstart].
    - unfold t in Hend. rewrite Hempty in Hend. discriminate.
    - rewrite (Hkeep Hstart), Hend. apply orb_true_r. }
  split; [exact Ht|]. split.
  - destruct (trimmed_cases t Ht) as [-> | [Hst He]]; [reflexivity|].
    now rewrite (skip_space_started _ Hst), (drop_trailing_space_ended _ He).
  - exists ws1, ws2. split; [exact H1|]. split; [exact H2|]. now rewrite <- Hd.
Qed.

Lemma append_empty s : (s ++ EmptyString)%string = s.
Proof. induction s as [|c s IH]; simpl; [reflexivity | now rewrite IH]. Qed.

Lemma ends_with_app p a b :
  is_empty b = false -> ends_with p (a ++ b) = ends_with p b.
Proof.
  intro Hb. induction a as [|c a IH]; [reflexivity|].
  change (String c a ++ b)%string with (String c (a ++ b)).
  destruct (a ++ b)%string as [|c' rest] eqn:E.
  - destruct a; [simpl in E; subst b; discriminate | discriminate].
  - exact IH.
Qed.

Lemma ends_with_all p s :
  is_empty s = false -> string_forall p s = true -> ends_with p s = true.
Proof.
  induction s as [|c s IH]; [discriminate|]. intros _. simpl.
  rewrite andb_true_iff. intros [Hc Hs].
  destruct s as [|c' s']; [exact Hc|]. apply IH; [reflexivity | exact Hs].
Qed.

Lemma starts_with_all p s :
  is_empty s = false -> string_forall p s = true -> starts_with p s = true.
Proof.
  destruct s as [|c s]; [discriminate|]. intros _. simpl.
  rewrite andb_true_iff. now intros [Hc _].
Qed.

(** A bounded scan takes a whole run that fits and stops at what follows. *)
Lemma scan_while_app p width a b :
  string_forall p a = true -> (String.length a <= width)%nat ->
  b = EmptyString \/ starts_with (fun c => negb (p c)) b = true ->
  scan_while p width (a ++ b) = (a, b).
Proof.
  revert width. induction a as [|c a IH]; intros width Ha Hlen Hb.
  - simpl. destruct width; destruct b as [|c' b']; try reflexivity.
    destruct Hb as [Hb|Hb]; [discriminate|]. simpl in Hb.
    apply negb_true_iff in Hb. simpl. now rewrite Hb.
  - simpl in Ha. apply andb_true_iff in Ha. destruct Ha as [Hc Ha].
    destruct width as [|width]; [simpl in Hlen; lia|].
    simpl. rewrite Hc. rewrite IH; [reflexivity | exact Ha | simpl in Hlen; lia | exact Hb].
Qed.

(** X6: a line written as [key = value] reads back as that key and that
    value: blanks before the key and after the value, spaces or tabs
    before the [=] and blanks after it are all ignored.  The key is a
    non-empty run of at most 127 characters without blanks, [=] or NUL that
    does not start a comment; the value is a non-empty run of at most 127
    characters without blanks or NUL. *)
Theorem assignment_reads_back lead key before_eq after_eq value_str trail :
  string_forall isspace lead = true ->
  string_forall is_blank before_eq = true ->
  string_forall isspace after_eq = true ->
  string_forall isspace trail = true ->
  is_empty key = false -> string_forall key_char key = true ->
  (String.length key <= 127)%nat ->
  starts_with (fun c => Ascii.eqb c "#" || Ascii.eqb c ";") key = false ->
  is_empty value_str = false -> string_forall value_char value_str = true ->
  (String.length value_str <= 127)%nat ->
  assignment (lead ++ (key ++ before_eq ++ "=" ++ after_eq ++ value_str) ++ trail)
  = Some (key, value_str).
Proof.
  intros Hlead Hbefore Hafter Htrail Hkey0 Hkey Hkeylen Hnocomment Hval0 Hval Hvallen.
  assert (Hbefore' : string_forall isspace before_eq = true).
  { revert Hbefore. apply string_forall_impl. intros c. unfold is_blank, isspace, tab.
    rewrite orb_true_iff. intros [H|H]; apply Ascii.eqb_eq in H; subst c; reflexivity. }
  assert (Hkey_ns : string_forall not_space key = true).
  { revert Hkey. apply string_forall_impl. intro c. unfold key_char, not_space.
    rewrite !andb_true_iff. tauto. }
  assert (Hval_ns : string_forall not_space value_str = true).
  { revert Hval. apply string_forall_impl. intro c. unfold value_char, not_space.
    rewrite !andb_true_iff. tauto. }
  set (core := (key ++ before_eq ++ "=" ++ after_eq ++ value_str)%string).
  (* no NUL anywhere: the buffer is the C string *)
  assert (Hnul : forall s, string_forall isspace s = true ->
                 string_forall (fun c => negb (Ascii.eqb c NUL)) s = true).
  { intro s. apply string_forall_impl. intros c Hc. now rewrite (isspace_not_NUL c Hc). }
  assert (Hcstr : c_str (lead ++ core ++ trail) = (lead ++ core ++ trail)%string).
  { apply c_str_same. unfold core. rewrite !string_forall_app.
    rewrite (Hnul _ Hlead), (Hnul _ Hbefore'), (Hnul _ Hafter), (Hnul _ Htrail).
    assert (Hk : string_forall (fun c => negb (Ascii.eqb c NUL)) key = true).
    { revert Hkey. apply string_forall_impl. intro c. unfold key_char.
      rewrite !andb_true_iff. tauto. }
    assert (Hv : string_forall (fun c => negb (Ascii.eqb c NUL)) value_str = true).
    { revert Hval. apply string_forall_impl. intro c. unfold value_char.
      rewrite !andb_true_iff. tauto. }
    rewrite Hk, Hv. reflexivity. }
  (* the trimmed line is the core *)
  assert (Hstart : starts_with not_space core = true).
  { unfold core. apply starts_with_app, starts_with_all; assumption. }
  assert (Hend : ends_with not_space core = true).
  { unfold core. rewrite !ends_with_app.
    - apply ends_with_all; assumption.
    - exact Hval0.
    - destruct after_eq; [exact Hval0 | reflexivity].
    - reflexivity.
    - destruct before_eq; reflexivity. }
  assert (Htrim : TrimWhitespace (c_str (lead ++ core ++ trail)) = core).
  { rewrite Hcstr, TrimWhitespace_eq, (skip_space_blanks _ _ Hlead).
    rewrite (skip_space_started _ (starts_with_app _ _ trail Hstart)).
    now rewrite (drop_trailing_space_app _ _ Htrail), (drop_trailing_space_ended _ Hend). }
  (* sscanf splits the core *)
  assert (Hscan : sscanf_key_value core = (2, key, value_str)).
  { unfold sscanf_key_value, core.
    rewrite scan_while_app.
    - rewrite Hkey0. rewrite (skip_space_blanks _ _ Hbefore').
      change ("=" ++ after_eq ++ value_str)%string with (String "=" (after_eq ++ value_str)).
      simpl skip_space. cbv beta iota. rewrite (skip_space_blanks _ _ Hafter).
      rewrite (skip_space_started _ (starts_with_all _ _ Hval0 Hval_ns)).
      rewrite <- (append_empty value_str) at 1.
      rewrite scan_while_app; [now rewrite Hval0 | exact Hval_ns | exact Hvallen | now left].
    - revert Hkey. apply string_forall_impl. intro c. unfold key_char, isspace, tab.
      rewrite !andb_true_iff, !negb_true_iff, !orb_false_iff.
      intros [[Hs He] _]. destruct Hs as [H32 H9]. rewrite He.
      repeat split.
      + destruct (Ascii.eqb c " ") eqn:E; [|reflexivity].
        apply Ascii.eqb_eq in E. subst c. discriminate H32.
      + destruct (Ascii.eqb c (ascii_of_nat 9)) eqn:E; [|reflexivity].
        apply Ascii.eqb_eq in E. subst c. discriminate H9.
    - exact Hkeylen.
    - right. destruct before_eq as [|b rest]; [reflexivity|].
      simpl in Hbefore. apply andb_true_iff in Hbefore. destruct Hbefore as [Hb _].
      unfold is_blank in Hb. simpl. rewrite negb_involutive.
      apply orb_true_iff in Hb. rewrite !orb_true_iff. tauto. }
  unfold assignment. rewrite Htrim.
  destruct core as [|first rest] eqn:Ecore; [discriminate Hstart|].
  assert (Hfirst : Ascii.eqb first "#" || Ascii.eqb first ";" = false).
  { unfold core in Ecore. destruct key as [|k key']; [discriminate|].
    simpl in Ecore. injection Ecore as <- _. exact Hnocomment. }
  rewrite Hfirst, Hscan. simpl.
  assert (Htk : TrimWhitespace key = key).
  { rewrite TrimWhitespace_eq, (skip_space_started _ (starts_with_all _ _ Hkey0 Hkey_ns)).
    apply drop_trailing_space_ended, ends_with_all; assumption. }
  assert (Htv : TrimWhitespace value_str = value_str).
  { rewrite TrimWhitespace_eq, (skip_space_started _ (starts_with_all _ _ Hval0 Hval_ns)).
    apply drop_trailing_space_ended, ends_with_all; assumption. }
  now rewrite Htk, Htv.
Qed.

Lemma assignment_reads_back_witness :
  assignment ("  " ++ ("max_delay" ++ String tab " " ++ "=" ++ " " ++ "12.5") ++ String " " line_feed)
  = Some ("max_delay", "12.5")%string.
Proof. apply assignment_reads_back; reflexivity || (simpl; lia). Defined.

(** ** ConfigLoader, line by line *)

Lemma drop_trailing_space_head c s :
  isspace c = false -> exists kept, drop_trailing_space (String c s) = String c kept.
Proof.
  intro Hc. simpl. destruct (drop_trailing_space s) as [|c' kept].
  - rewrite Hc. now exists EmptyString.
  - now exists (String c' kept).
Qed.

(** X7: blank lines and comments are skipped in silence.  A line made of
    blanks only, and a line whose first character after the blanks is [#]
    or [;], leave the delays as they are and log nothing, not even a
    warning. *)
Theorem comment_lines_are_silent (atof : string -> double) lead mark body g n :
  string_forall isspace lead = true ->
  (read_line atof lead g n = mkRun g [] n) /\
  (mark = "#"%char \/ mark = ";"%char ->
   read_line atof (lead ++ String mark body) g n = mkRun g [] n).
Proof.
  intro Hlead.
  assert (Hnul : string_forall (fun c => negb (Ascii.eqb c NUL)) lead = true).
  { revert Hlead. apply string_forall_impl. intros c Hc. now rewrite (isspace_not_NUL c Hc). }
  split.
  - unfold read_line. rewrite (c_str_same _ Hnul), TrimWhitespace_eq.
    now rewrite (skip_space_all _ Hlead).
  - intro Hmark.
    assert (Hns : isspace mark = false) by (destruct Hmark; subst mark; reflexivity).
    assert (Hcstr : c_str (lead ++ String mark body) = (lead ++ String mark (c_str body))%string).
    { clear -Hnul Hmark. induction lead as [|c lead IH]; simpl in *.
      - destruct Hmark; subst mark; reflexivity.
      - apply andb_true_iff in Hnul. destruct Hnul as [Hc Hl].
        apply negb_true_iff in Hc. now rewrite Hc, (IH Hl). }
    unfold read_line. rewrite Hcstr, TrimWhitespace_eq, (skip_space_blanks _ _ Hlead).
    cbn [skip_space]. rewrite Hns.
    destruct (drop_trailing_space_head mark (c_str body) Hns) as (kept & ->).
    destruct Hmark; subst mark; reflexivity.
Qed.

Lemma comment_lines_are_silent_witness :
  read_line atof_decimal ("  " ++ String ";" " min_delay = 1") (2, 7)%Q O = mkRun (2, 7)%Q [] O.
Proof.
  apply (comment_lines_are_silent atof_decimal "  " ";"%char " min_delay = 1" (2, 7)%Q O);
    [reflexivity | right; reflexivity].
Defined.

(** X8: what one line can do.  A line either leaves both delays as they
    were, or it is a valid [min_delay] assignment and replaces the minimum
    only, or a valid [max_delay] assignment and replaces the maximum only;
    and it logs at most one message. *)
Theorem read_line_effect (atof : string -> double) line g n :
  let r := read_line atof line g n in
  (List.length (events r) <= 1)%nat /\
  (value r = g \/
   (exists value_str,
      assignment line = Some ("min_delay"%string, value_str) /\
      valid_delay (atof value_str) = true /\
      value r = (finite_value (atof value_str), snd g)) \/
   (exists value_str,
      assignment line = Some ("max_delay"%string, value_str) /\
      valid_delay (atof value_str) = true /\
      value r = (fst g, finite_value (atof value_str)))).
Proof.
  unfold read_line, assignment.
  destruct (TrimWhitespace (c_str line)) as [|first rest]; [simpl; auto|].
  destruct (Ascii.eqb first "#" || Ascii.eqb first ";"); [simpl; auto|].
  destruct (sscanf_key_value (String first rest)) as [[converted k] v].
  destruct (converted =? 2); [|simpl; auto].
  destruct (String.eqb (TrimWhitespace k) "min_delay") eqn:Emin.
  - apply String.eqb_eq in Emin. rewrite Emin.
    destruct (double_lt (Finite 0) _ && double_lt _ (Finite 3600)) eqn:Hv;
      simpl; split; auto.
    right; left. eexists. repeat split. exact Hv.
  - destruct (String.eqb (TrimWhitespace k) "max_delay") eqn:Emax; [|simpl; auto].
    apply String.eqb_eq in Emax. rewrite Emax.
    destruct (double_lt (Finite 0) _ && double_lt _ (Finite 3600)) eqn:Hv;
      simpl; split; auto.
    right; right. eexists. repeat split. exact Hv.
Qed.

(** X9: the last assignment wins.  When the last line read is a valid
    [min_delay] (or [max_delay]) assignment, the minimum (or maximum) the
    loop leaves is that line's value, whatever came before, and the other
    delay is what the earlier lines left. *)
Theorem last_assignment_wins (atof : string -> double) before line value_str g n :
  valid_delay (atof value_str) = true ->
  (assignment line = Some ("min_delay"%string, value_str) ->
   value (read_lines atof (before ++ [line]) g n) =
   (finite_value (atof value_str), snd (value (read_lines atof before g n)))) /\
  (assignment line = Some ("max_delay"%string, value_str) ->
   value (read_lines atof (before ++ [line]) g n) =
   (fst (value (read_lines atof before g n)), finite_value (atof value_str))).
Proof.
  intro Hok. split; intro Has; rewrite read_lines_app; simpl.
  - apply read_line_accepted_min; assumption.
  - apply read_line_accepted_max; assumption.
Qed.

Lemma last_assignment_wins_witness :
  value (read_lines atof_decimal
           [("min_delay=3" ++ line_feed)%string; ("min_delay = 4.5" ++ line_feed)%string]
           (2, 7)%Q O) = (4.5, 7)%Q.
Proof.
  apply (proj1 (last_assignment_wins atof_decimal [("min_delay=3" ++ line_feed)%string]
                  ("min_delay = 4.5" ++ line_feed)%string "4.5" (2, 7)%Q O eq_refl)).
  reflexivity.
Defined.

(** ** ConfigLoader, file by file *)

Lemma read_lines_no_fprintf (atof : string -> double) lines :
  forall g, quiet is_fprintf (read_lines atof lines g).
Proof.
  induction lines as [|line rest IH]; intro g; [apply quiet_ret|].
  cbn [read_lines]. apply quiet_bind; [|intro; apply IH].
  unfold read_line.
  destruct (TrimWhitespace (c_str line)) as [|first tl]; [apply quiet_ret|].
  destruct (sscanf_key_value (String first tl)) as [[converted key] value_str].
  quiet_tac.
Qed.

(** X10: a config file that exists is never written.  [LoadConfiguration]
    writes the default file, four [fprintf] calls, exactly when there is no
    config file and one can be opened for writing; whatever a file that
    exists holds, nothing is written.  Without a config file the delays are
    the defaults, 2 and 7 seconds, whether the default file could be
    written or not, and a warning is logged exactly when it could not. *)
Theorem default_file_written_only_when_missing (atof : string -> double)
    configFile fopen_w n :
  let r := LoadConfiguration atof configFile fopen_w n in
  fprintf_formats (events r) =
    match configFile with
    | None =>
        if fopen_w then
          [ "# Configuration for Window Refresher";
            "# Delays are in seconds (can be fractional, e.g., 2.5)";
            "min_delay = %.1f"; "max_delay = %.1f" ]%string
        else []
    | Some _ => []
    end /\
  value (LoadConfiguration atof None fopen_w n) = (DEFAULT_MIN_DELAY_S, DEFAULT_MAX_DELAY_S) /\
  existsb is_warning (events (LoadConfiguration atof None fopen_w n)) = negb fopen_w.
Proof.
  intro r. split.
  - destruct configFile as [file|]; [|destruct fopen_w; reflexivity].
    apply (flat_map_quiet is_fprintf); [intros [] He; try reflexivity; discriminate He|].
    cut (quiet is_fprintf (LoadConfiguration atof (Some file) fopen_w)); [intro Hq; apply Hq|].
    unfold LoadConfiguration.
    pose proof (read_lines_no_fprintf atof
                  (fgets_lines file [] (MAX_CONFIG_LINE_LENGTH - 1))) as Hlines.
    quiet_tac; apply Hlines.
  - destruct fopen_w; split; reflexivity.
Qed.

Lemma string_of_list_ascii_snoc (l : list ascii) c s :
  (string_of_list_ascii (l ++ [c]) ++ s)%string =
  (string_of_list_ascii l ++ String c s)%string.
Proof.
  revert c s. induction l as [|a l IH]; intros c s; simpl; [reflexivity | now rewrite IH].
Qed.

Lemma string_of_list_ascii_length (l : list ascii) :
  String.length (string_of_list_ascii l) = List.length l.
Proof.
  induction l as [|a l IH]; simpl; [reflexivity | now rewrite IH].
Qed.

(** X11: [fgets] loses nothing and overflows nothing.  The lines the read
    loop sees, put end to end, are the file, and each holds between 1 and
    255 characters, which with the terminator fit the 256-byte buffer. *)
Theorem fgets_lines_partition file :
  fold_right append EmptyString (fgets_lines file [] (MAX_CONFIG_LINE_LENGTH - 1)) = file /\
  Forall (fun line => (1 <= String.length line <= 255)%nat)
         (fgets_lines file [] (MAX_CONFIG_LINE_LENGTH - 1)).
Proof.
  assert (Hgen : forall file line_rev room,
             (1 <= room)%nat -> (List.length line_rev + room = 255)%nat ->
             fold_right append EmptyString (fgets_lines file line_rev room) =
               (string_of_list_ascii (rev line_rev) ++ file)%string /\
             Forall (fun line => (1 <= String.length line <= 255)%nat)
                    (fgets_lines file line_rev room)).
  { induction file0 as [|c rest IH]; intros line_rev room Hroom Hsum.
    - simpl. destruct line_rev as [|a l]; simpl.
      + split; [reflexivity | constructor].
      + split; [now rewrite append_empty|].
        constructor; [|constructor].
        rewrite string_of_list_ascii_length, length_app, length_rev. simpl in *. lia.
    - cbn [fgets_lines]. destruct (Ascii.eqb c newline || (room =? 1)%nat) eqn:Hcut.
      + destruct (IH [] 255%nat) as [Hcat Hall]; [lia | reflexivity|].
        change (MAX_CONFIG_LINE_LENGTH - 1)%nat with 255%nat.
        split.
        * cbn [fold_right]. rewrite Hcat. simpl rev at 2. simpl string_of_list_ascii at 2.
          simpl append at 2. simpl rev. apply string_of_list_ascii_snoc.
        * constructor; [|exact Hall].
          rewrite string_of_list_ascii_length, length_rev. simpl. lia.
      + apply orb_false_iff in Hcut. destruct Hcut as [_ Hroom1].
        apply Nat.eqb_neq in Hroom1.
        destruct (IH (c :: line_rev) (room - 1)%nat) as [Hcat Hall];
          [lia | simpl; lia|].
        split; [|exact Hall]. rewrite Hcat. simpl rev. apply string_of_list_ascii_snoc. }
  apply (Hgen file [] 255%nat); [lia | reflexivity].
Qed.

(** X12: a line that fits is read whole.  A line of at most 254 characters
    followed by its newline is one line of the read loop, newline
    included, and the reading goes on after it with an empty buffer. *)
Theorem short_line_read_whole line rest :
  string_forall (fun c => negb (Ascii.eqb c newline)) line = true ->
  (String.length line <= 254)%nat ->
  fgets_lines (line ++ line_feed ++ rest) [] (MAX_CONFIG_LINE_LENGTH - 1) =
  (line ++ line_feed)%string :: fgets_lines rest [] (MAX_CONFIG_LINE_LENGTH - 1).
Proof.
  intros Hline Hlen254.
  change (MAX_CONFIG_LINE_LENGTH - 1)%nat with 255%nat.
  assert (Hstep : forall line line_rev room,
             string_forall (fun c => negb (Ascii.eqb c newline)) line = true ->
             (String.length line < room)%nat ->
             fgets_lines (line ++ line_feed ++ rest) line_rev room =
             (string_of_list_ascii (rev line_rev) ++ line ++ line_feed)%string
               :: fgets_lines rest [] 255%nat).
  { induction line0 as [|c l IH]; intros line_rev room Hl Hroom.
    - simpl. f_equal. unfold line_feed. rewrite <- string_of_list_ascii_snoc.
      now rewrite append_empty.
    - simpl in Hl. apply andb_true_iff in Hl. destruct Hl as [Hc Hl].
      apply negb_true_iff in Hc.
      change ((String c l ++ line_feed ++ rest)%string)
        with (String c (l ++ line_feed ++ rest)).
      cbn [fgets_lines]. rewrite Hc.
      assert (Hr : (room =? 1)%nat = false) by (apply Nat.eqb_neq; simpl in Hroom; lia).
      rewrite Hr. simpl orb. cbv iota.
      rewrite IH; [|exact Hl | simpl in Hroom; lia].
      f_equal. simpl rev. now rewrite string_of_list_ascii_snoc. }
  rewrite (Hstep line [] 255%nat Hline); [reflexivity | lia].
Qed.

(** X13: a line that does not fit is cut.  When 255 characters have been
    read without a newline the buffer is full: they are handed to the loop
    as a line of their own, and what follows in the file, the rest of the
    same line included, is read as new lines. *)
Theorem long_line_is_cut line rest :
  string_forall (fun c => negb (Ascii.eqb c newline)) line = true ->
  String.length line = 255%nat ->
  fgets_lines (line ++ rest) [] (MAX_CONFIG_LINE_LENGTH - 1) =
  line :: fgets_lines rest [] (MAX_CONFIG_LINE_LENGTH - 1).
Proof.
  intros Hline Hlen255.
  change (MAX_CONFIG_LINE_LENGTH - 1)%nat with 255%nat.
  assert (Hstep : forall line line_rev room,
             string_forall (fun c => negb (Ascii.eqb c newline)) line = true ->
             (1 <= room)%nat -> String.length line = room ->
             fgets_lines (line ++ rest) line_rev room =
             (string_of_list_ascii (rev line_rev) ++ line)%string
               :: fgets_lines rest [] 255%nat).
  { induction line0 as [|c l IH]; intros line_rev room Hl Hroom Hlen.
    - simpl in Hlen. lia.
    - simpl in Hl. apply andb_true_iff in Hl. destruct Hl as [Hc Hl].
      apply negb_true_iff in Hc.
      change ((String c l ++ rest)%string) with (String c (l ++ rest)).
      cbn [fgets_lines]. rewrite Hc. simpl orb. simpl in Hlen.
      destruct (room =? 1)%nat eqn:Hr.
      + apply Nat.eqb_eq in Hr. destruct l as [|c' l']; [|simpl in Hlen; lia].
        change (MAX_CONFIG_LINE_LENGTH - 1)%nat with 255%nat.
        simpl append at 1. f_equal. simpl rev.
        rewrite <- (append_empty (string_of_list_ascii (rev line_rev ++ [c]))).
        apply string_of_list_ascii_snoc.
      + apply Nat.eqb_neq in Hr.
        rewrite IH; [|exact Hl | lia | lia].
        f_equal. simpl rev. now rewrite string_of_list_ascii_snoc. }
  rewrite (Hstep line [] 255%nat Hline); [reflexivity | lia | exact Hlen255].
Qed.

Lemma short_line_read_whole_witness :
  fgets_lines ("min_delay=3" ++ line_feed ++ "max_delay=9") [] (MAX_CONFIG_LINE_LENGTH - 1) =
  ("min_delay=3" ++ line_feed)%string
    :: fgets_lines "max_delay=9" [] (MAX_CONFIG_LINE_LENGTH - 1).
Proof.
  apply (short_line_read_whole "min_delay=3" "max_delay=9"); [reflexivity | simpl; lia].
Defined.

Lemma long_line_is_cut_witness :
  fgets_lines (long_comment ++ "min_delay=3") [] (MAX_CONFIG_LINE_LENGTH - 1) =
  long_comment :: fgets_lines "min_delay=3" [] (MAX_CONFIG_LINE_LENGTH - 1).
Proof.
  apply (long_line_is_cut long_comment "min_delay=3"); vm_compute; reflexivity.
Defined.

(** ** FocusArbiter: retries, pauses and what is left behind *)

Lemma activation_targets_app a b :
  activation_targets (a ++ b) = activation_targets a ++ activation_targets b.
Proof. apply flat_map_app. Qed.

Lemma total_sleep_app a b : total_sleep (a ++ b) = total_sleep a + total_sleep b.
Proof.
  induction a as [|e a IH]; [reflexivity|]. simpl. fold (total_sleep (a ++ b)).
  fold (total_sleep a). rewrite IH. destruct e; lia.
Qed.

Lemma open_joins_app a b open :
  open_joins open (a ++ b) = open_joins (open_joins open a) b.
Proof.
  revert open. induction a as [|e a IH]; intro open; [reflexivity|].
  destruct e; simpl; try apply IH.
  destruct fAttach, r; apply IH.
Qed.

Lemma open_joins_quiet evs open :
  existsb is_join_call evs = false -> open_joins open evs = open.
Proof.
  revert open. induction evs as [|e evs IH]; intro open; [reflexivity|]. simpl.
  rewrite orb_false_iff. intros [He Hr]. destruct e; simpl in *; try (apply IH; exact Hr).
  discriminate He.
Qed.

Lemma last_foreground_read_app a b last :
  last_foreground_read last (a ++ b) = last_foreground_read (last_foreground_read last a) b.
Proof.
  revert last. induction a as [|e a IH]; intro last; [reflexivity|].
  destruct e; simpl; apply IH.
Qed.

Lemma foreground_at_injections_app a b last :
  foreground_at_injections last (a ++ b) =
  foreground_at_injections last a ++
  foreground_at_injections (last_foreground_read last a) b.
Proof.
  revert last. induction a as [|e a IH]; intro last; [reflexivity|].
  destruct e; simpl; try apply IH. now rewrite IH.
Qed.

Lemma foreground_at_injections_quiet evs last :
  existsb is_injection evs = false -> foreground_at_injections last evs = [].
Proof.
  revert last. induction evs as [|e evs IH]; intro last; [reflexivity|]. simpl.
  rewrite orb_false_iff. intros [He Hr]. destruct e; simpl in *; try (apply IH; exact Hr).
  discriminate He.
Qed.

(** An injection found in a run is listed with the foreground window last
    read before it. *)
Lemma foreground_at_injections_In pre inputs r post last :
  In (last_foreground_read last pre)
     (foreground_at_injections last (pre ++ EvSendInput inputs r :: post)).
Proof.
  rewrite foreground_at_injections_app. apply in_or_app. right. simpl. now left.
Qed.

Section Sessions.

Variable env : nat -> World.

Opaque Z.add Z.mul.

(** The retry loop: some number of requests, at most the attempts allowed,
    each followed by the 100 ms pause; it touches no join, injects nothing,
    and when it answers TRUE the window last read is the target. *)
Lemma set_foreground_attempts_profile h k : forall n,
  let r := set_foreground_attempts env h k n in
  exists j, (j <= k)%nat /\ (k <> O -> j <> O) /\
    activation_targets (events r) = repeat h j /\
    total_sleep (events r) = 100 * Z.of_nat j /\
    (forall last, value r = true -> last_foreground_read last (events r) = Some h).
Proof.
  induction k as [|k IH]; intro n.
  - exists O. simpl. repeat split; try lia; discriminate.
  - simpl. destruct (w_GetForegroundWindow (env (S (S n))) =? h) eqn:Hfg; simpl.
    + exists 1%nat. repeat split; try lia.
      intros last _. simpl. apply Z.eqb_eq in Hfg. now rewrite Hfg.
    + destruct (IH (S (S (S (S n))))) as (j & Hj & _ & Hact & Hsleep & Hlast).
      exists (S j). cbv zeta in Hact, Hsleep, Hlast.
      split; [lia|]. split; [lia|]. split; [simpl; now rewrite Hact|].
      split.
      * change (fold_right (fun e acc => match e with EvSleep ms => ms + acc | _ => acc end) 0)
          with total_sleep. rewrite Hsleep. unfold FOCUS_SWITCH_RETRY_DELAY_MS. lia.
      * intros last Hv. apply Hlast, Hv.
Qed.

Opaque set_foreground_attempts.

(** One session of [ActivateWindowAndEnsureFocus] for a target that is not
    in front. *)
Lemma ActivateWindowAndEnsureFocus_profile t o n :
  (o =? t) = false ->
  let r := ActivateWindowAndEnsureFocus env t o n in
  (exists j, (1 <= j <= 3)%nat /\ activation_targets (events r) = repeat t j) /\
  0 <= total_sleep (events r) <= 750 /\
  (forall last, value r = true -> last_foreground_read last (events r) = Some t) /\
  open_joins [] (events r) = [].
Proof.
  intro E0. unfold ActivateWindowAndEnsureFocus. cbv zeta. rewrite E0.
  simpl.
  change (fold_right (fun e acc => match e with EvSleep ms => ms + acc | _ => acc end) 0)
    with total_sleep.
  change (flat_map (fun e => match e with EvSetForegroundWindow h => [h] | _ => [] end))
    with activation_targets.
  branches.
  all: change (fold_right (fun e acc => match e with EvSleep ms => ms + acc | _ => acc end) 0)
    with total_sleep.
  all: change (flat_map (fun e => match e with EvSetForegroundWindow h => [h] | _ => [] end))
    with activation_targets.
  all: rewrite ?activation_targets_app, ?total_sleep_app, ?open_joins_app.
  all: rewrite ?(open_joins_quiet _ _ (set_foreground_attempts_no_join env _ _ _)).
  all: match goal with
       | |- context [set_foreground_attempts env ?h FOCUS_SWITCH_ATTEMPTS ?m] =>
           destruct (set_foreground_attempts_profile h FOCUS_SWITCH_ATTEMPTS m)
             as (j & Hj & Hj0 & Hact & Hsleep & Hlast);
           cbv zeta in Hact, Hsleep, Hlast; rewrite Hact, Hsleep
       end.
  all: simpl; rewrite ?app_nil_r.
  all: assert (Hj1 : (1 <= j <= 3)%nat)
         by (unfold FOCUS_SWITCH_ATTEMPTS in *; split; [|exact Hj];
             assert (j <> O) by (apply Hj0; discriminate); lia).
  all: split; [exists j; split; [exact Hj1 | reflexivity] |].
  all: split; [unfold FOCUS_SWITCH_RETRY_DELAY_MS, FOCUS_SETTLE_DELAY_MS; lia|].
  all: split; [| unfold same_pair; simpl;
                 repeat (progress (rewrite ?Z.eqb_refl; simpl)); try reflexivity;
                 repeat (branch; simpl; repeat (progress (rewrite ?Z.eqb_refl; simpl)));
                 reflexivity].
  all: intros last Hv; try discriminate Hv.
  all: rewrite ?last_foreground_read_app; simpl; eqb_facts; f_equal; assumption.
Qed.

Transparent set_foreground_attempts.

(** One run of [RestoreOriginalFocus]. *)
Lemma RestoreOriginalFocus_profile o t ok n :
  let r := RestoreOriginalFocus env o t ok n in
  (activation_targets (events r) = [] \/ activation_targets (events r) = [o]) /\
  0 <= total_sleep (events r) <= 100 /\
  open_joins [] (events r) = [].
Proof.
  unfold RestoreOriginalFocus. simpl.
  repeat (branch; simpl; unfold same_pair; simpl;
          repeat (progress (rewrite ?Z.eqb_refl; simpl))).
  all: unfold FOCUS_SWITCH_RETRY_DELAY_MS; repeat split; auto; lia.
Qed.

(** X14: [RestoreOriginalFocus] stays out of the way.  When the original
    window is the target or NULL or no longer a window, when the session
    did not secure the focus, or when the original window is already back
    in front, it makes no join, shows no window, requests no foreground
    change and does not sleep. *)
Theorem RestoreOriginalFocus_stays_out (o t : HWND) (ok : bool) (n : nat) :
  o = t \/ o = NULL \/ w_IsWindow (env n) o = false \/ ok = false \/
  (w_GetForegroundWindow (env (S n)) = o /\ o <> t) ->
  let r := RestoreOriginalFocus env o t ok n in
  focus_calls (events r) = [] /\ total_sleep (events r) = 0.
Proof.
  intro H. unfold RestoreOriginalFocus.
  destruct (o =? t) eqn:Eot; [simpl; auto|].
  destruct (o =? NULL) eqn:Eon; [simpl; auto|].
  simpl. destruct (w_IsWindow (env n) o) eqn:Ealive; [|simpl; auto].
  destruct ok; [|simpl; auto]. simpl.
  destruct H as [H | [H | [H | [H | [Hfg Hne]]]]];
    try discriminate H; try (apply Z.eqb_neq in Eot; contradiction);
    try (apply Z.eqb_neq in Eon; contradiction).
  rewrite Hfg, Eot, Z.eqb_refl. simpl. auto.
Qed.

(** X15: [RestoreOriginalFocus] tries once, on the original window.  It
    acts when the original window is a window other than the target, the
    session held the focus, and the window now in front is the target or
    some third window.  Then the calls that touch the focus state are one
    [SetForegroundWindow] on the original window, preceded by [ShowWindow]
    exactly when that window is minimised, and wrapped in one join and one
    unjoin of the current thread with the original window's thread exactly
    when that thread is not 0 and not the current thread; the unjoin is
    requested whether or not the join succeeded.  There is no retry, and
    in every other case there is no such call at all. *)
Theorem RestoreOriginalFocus_single_attempt (o t : HWND) (ok : bool) (n : nat) :
  let calls := focus_calls (events (RestoreOriginalFocus env o t ok n)) in
  let front := w_GetForegroundWindow (env (S n)) in
  let acts :=
    negb ((o =? t) || (o =? NULL)) && w_IsWindow (env n) o && ok &&
    ((front =? t) || negb (front =? o)) in
  let current := w_GetCurrentThreadId (env (S (S (S n)))) in
  let thread := w_GetWindowThreadProcessId (env (S (S (S (S n))))) o in
  let needsAttach := negb (thread =? 0) && negb (thread =? current) in
  let c := if needsAttach then S (S (S (S (S (S n))))) else S (S (S (S (S n)))) in
  let show := if w_IsIconic (env c) o then [EvShowWindow o SW_RESTORE] else [] in
  if acts then
    if needsAttach then
      exists joined unjoined,
        calls = [EvAttachThreadInput current thread true joined] ++ show ++
                [EvSetForegroundWindow o; EvAttachThreadInput current thread false unjoined]
    else calls = show ++ [EvSetForegroundWindow o]
  else calls = [].
Proof.
  cbv zeta. unfold RestoreOriginalFocus. simpl.
  destruct ((o =? t) || (o =? NULL)); simpl; [reflexivity|].
  destruct (w_IsWindow (env n) o); simpl; [|reflexivity].
  destruct ok; simpl; [|reflexivity].
  destruct ((w_GetForegroundWindow (env (S n)) =? t) ||
            negb (w_GetForegroundWindow (env (S n)) =? o)); simpl; [|reflexivity].
  destruct (negb (w_GetWindowThreadProcessId (env (S (S (S (S n))))) o =? 0) &&
            negb (w_GetWindowThreadProcessId (env (S (S (S (S n))))) o =?
                  w_GetCurrentThreadId (env (S (S (S n)))))); simpl.
  - destruct (w_IsIconic (env (S (S (S (S (S (S n))))))) o); simpl;
      branches; do 2 eexists; reflexivity.
  - destruct (w_IsIconic (env (S (S (S (S (S n)))))) o); simpl;
      branches; reflexivity.
Qed.

Opaque ActivateWindowAndEnsureFocus RestoreOriginalFocus.

(** One delivery, in the terms of the two profiles above. *)
Lemma SendCtrlF5Keystroke_profile t n :
  let r := SendCtrlF5Keystroke env t n in
  let o := w_GetForegroundWindow (env (S n)) in
  (exists j tail, (j <= 3)%nat /\ (tail = [] \/ tail = [o]) /\
     activation_targets (events r) = repeat t j ++ tail) /\
  0 <= total_sleep (events r) <= 950 /\
  open_joins [] (events r) = [] /\
  (foreground_at_injections None (events r) = [] \/
   foreground_at_injections None (events r) = [Some t]).
Proof.
  unfold SendCtrlF5Keystroke. simpl.
  destruct (w_IsWindow (env n) t); simpl.
  2:{ repeat split; try lia; auto. exists O, []. auto. }
  set (o := w_GetForegroundWindow (env (S n))).
  destruct (o =? t) eqn:Eot; simpl.
  - apply Z.eqb_eq in Eot. branches.
    all: eqb_facts; unfold FOCUS_SWITCH_RETRY_DELAY_MS.
    all: repeat split; try lia; try (now left).
    all: try (exists O, []; auto; fail).
    all: right; congruence.
  - destruct (ActivateWindowAndEnsureFocus_profile t o (S (S n)) Eot)
      as ((j & Hj & Hact) & Hsleep & Hlast & Hopen).
    cbv zeta in Hact, Hsleep, Hlast, Hopen.
    change (fold_right (fun e acc => match e with EvSleep ms => ms + acc | _ => acc end) 0)
      with total_sleep.
    change (flat_map (fun e => match e with EvSetForegroundWindow h => [h] | _ => [] end))
      with activation_targets.
    rewrite !activation_targets_app, !total_sleep_app, !open_joins_app,
      !foreground_at_injections_app, Hact, Hopen.
    rewrite (foreground_at_injections_quiet _ _ (ActivateWindowAndEnsureFocus_no_injection env t o _)).
    destruct (value (ActivateWindowAndEnsureFocus env t o (S (S n)))) eqn:Hva; simpl.
    + specialize (Hlast (Some o) eq_refl). rewrite Hlast.
      branches.
      all: change (fold_right (fun e acc => match e with EvSleep ms => ms + acc | _ => acc end) 0)
        with total_sleep.
      all: change (flat_map (fun e => match e with EvSetForegroundWindow h => [h] | _ => [] end))
        with activation_targets.
      all: match goal with
           | |- context [RestoreOriginalFocus env ?o' ?t' ?ok ?m] =>
               destruct (RestoreOriginalFocus_profile o' t' ok m) as (Hra & Hrs & Hro);
               cbv zeta in Hra, Hrs, Hro;
               rewrite ?(foreground_at_injections_quiet _ _
                           (RestoreOriginalFocus_no_injection env o' t' ok m))
           end.
      all: rewrite ?open_joins_app; simpl; rewrite ?Hro.
      all: eqb_facts; unfold FOCUS_SWITCH_RETRY_DELAY_MS.
      all: split; [exists j; destruct Hra as [-> | ->];
                   [exists [] | exists [o]]; repeat split; auto; lia |].
      all: split; [lia|]. all: split; [reflexivity|].
      all: first [ now left | right; f_equal; f_equal; assumption | right; reflexivity ].
    + match goal with
      | |- context [RestoreOriginalFocus env ?o' ?t' ?ok ?m] =>
          destruct (RestoreOriginalFocus_profile o' t' ok m) as (Hra & Hrs & Hro);
          cbv zeta in Hra, Hrs, Hro;
          rewrite ?(foreground_at_injections_quiet _ _
                      (RestoreOriginalFocus_no_injection env o' t' ok m))
      end.
      rewrite Hro.
      split; [exists j; destruct Hra as [-> | ->];
              [exists [] | exists [o]]; repeat split; auto; lia |].
      split; [lia|]. split; [reflexivity|]. now left.
Qed.

Transparent ActivateWindowAndEnsureFocus RestoreOriginalFocus.
Transparent Z.add Z.mul.

(** X16: the retry loop is bounded.  A session for a target that is not in
    front calls [SetForegroundWindow] at least once and at most three
    times, always on the target, and sleeps at most 750 ms in all: the
    pause after each request, the pause after un-minimising, and the settle
    pause. *)
Theorem activation_attempts_bounded (t o : HWND) (n : nat) :
  o <> t ->
  let evs := events (ActivateWindowAndEnsureFocus env t o n) in
  (exists attempts, (1 <= attempts <= 3)%nat /\
     activation_targets evs = repeat t attempts) /\
  0 <= total_sleep evs <= 750.
Proof.
  intros Hne evs. apply Z.eqb_neq in Hne.
  destruct (ActivateWindowAndEnsureFocus_profile t o n Hne) as (Hact & Hsleep & _).
  split; [exact Hact | exact Hsleep].
Qed.

(** X17: a delivery is bounded.  One run of [SendCtrlF5Keystroke] sleeps at
    most 950 ms, and its [SetForegroundWindow] calls are at most three on
    the target followed by at most one on the window that was in front. *)
Theorem delivery_is_bounded (t : HWND) (n : nat) :
  let evs := events (SendCtrlF5Keystroke env t n) in
  0 <= total_sleep evs <= 950 /\
  exists attempts restore,
    (attempts <= 3)%nat /\
    (restore = [] \/ restore = [w_GetForegroundWindow (env (S n))]) /\
    activation_targets evs = repeat t attempts ++ restore.
Proof.
  intro evs.
  destruct (SendCtrlF5Keystroke_profile t n) as ((j & tail & Hj & Htail & Hact) & Hsleep & _).
  split; [exact Hsleep|]. exists j, tail. auto.
Qed.

(** X18: keys are sent only to a target seen in front.  Whenever a run of
    [SendCtrlF5Keystroke] calls [SendInput], the foreground window it last
    read before the call was the target. *)
Theorem injection_only_in_front (t : HWND) (n : nat) before inputs accepted after :
  events (SendCtrlF5Keystroke env t n) = before ++ EvSendInput inputs accepted :: after ->
  last_foreground_read None before = Some t.
Proof.
  intro Hev.
  pose proof (foreground_at_injections_In before inputs accepted after None) as Hin.
  rewrite <- Hev in Hin.
  destruct (SendCtrlF5Keystroke_profile t n) as (_ & _ & _ & [Hnone | Hone]).
  - rewrite Hnone in Hin. contradiction.
  - rewrite Hone in Hin. destruct Hin as [Heq | []]. now symmetry.
Qed.

(** X19: no join outlives a delivery.  Over a whole run of
    [SendCtrlF5Keystroke], session and restore together, every thread-input
    join that succeeded is followed by an unjoin request for the same pair
    of threads: no join is left open at the end. *)
Theorem no_join_outlives_delivery (t : HWND) (n : nat) :
  open_joins [] (events (SendCtrlF5Keystroke env t n)) = [].
Proof.
  destruct (SendCtrlF5Keystroke_profile t n) as (_ & _ & Hopen & _). exact Hopen.
Qed.

End Sessions.

(** With another window (2) in front at first and the target (1) in front
    after the delivery, the restore joins the thread of window 2, requests
    the foreground for window 2 once and unjoins. *)
Example RestoreOriginalFocus_single_attempt_run :
  focus_calls (events (RestoreOriginalFocus (fun _ => calm_world) 2 1 true O)) =
  [ EvAttachThreadInput 10 12 true true; EvSetForegroundWindow 2;
    EvAttachThreadInput 10 12 false true ].
Proof. vm_compute. reflexivity. Qed.

Lemma activation_attempts_bounded_witness :
  let evs := events (ActivateWindowAndEnsureFocus focus_stolen_back 1 2 2%nat) in
  2 <> 1 /\
  (exists attempts, (1 <= attempts <= 3)%nat /\
     activation_targets evs = repeat 1 attempts) /\
  0 <= total_sleep evs <= 750.
Proof.
  split; [lia|]. apply (activation_attempts_bounded focus_stolen_back 1 2 2%nat). lia.
Defined.

Lemma injection_only_in_front_witness :
  let env := fun _ : nat => calm_world in
  events (SendCtrlF5Keystroke env 1 O) =
    [ EvIsWindow 1 true; EvGetForegroundWindow 1;
      EvLog DEBUG "SendCtrlF5: Target window %p is already foreground.";
      EvIsIconic 1 false ] ++
    EvSendInput ctrl_f5_inputs 4 ::
    [ EvLog DEBUG "SendCtrlF5 (SendInput): Sent Ctrl+F5 to HWND %p." ] /\
  last_foreground_read None
    [ EvIsWindow 1 true; EvGetForegroundWindow 1;
      EvLog DEBUG "SendCtrlF5: Target window %p is already foreground.";
      EvIsIconic 1 false ] = Some 1.
Proof.
  intro env. split; [vm_compute; reflexivity|].
  apply (injection_only_in_front env 1 O _ ctrl_f5_inputs 4
           [EvLog DEBUG "SendCtrlF5 (SendInput): Sent Ctrl+F5 to HWND %p."]).
  vm_compute; reflexivity.
Defined.

Lemma RestoreOriginalFocus_stays_out_witness :
  let r := RestoreOriginalFocus (fun _ => calm_world) 2 1 false O in
  focus_calls (events r) = [] /\ total_sleep (events r) = 0.
Proof.
  apply (RestoreOriginalFocus_stays_out (fun _ => calm_world) 2 1 false O).
  right; right; right; left. reflexivity.
Defined.

(** ** Dispatcher: how the loop ends, what it counts, what it reads *)

Lemma keys_read_app a b : keys_read (a ++ b) = keys_read a ++ keys_read b.
Proof. apply flat_map_app. Qed.


Lemma WaitMilliseconds_quiet p ms :
  (forall d, p (EvSleep d) = false) -> quiet p (WaitMilliseconds ms).
Proof.
  intros Hp n. unfold WaitMilliseconds. destruct (0 <? ms); simpl; [|reflexivity].
  now rewrite Hp.
Qed.

Lemma WaitMilliseconds_never_empty ms : quiet is_empty_sleep (WaitMilliseconds ms).
Proof.
  intro n. unfold WaitMilliseconds. destruct (0 <? ms) eqn:Hms; simpl; [|reflexivity].
  apply Z.ltb_lt in Hms. rewrite orb_false_r. apply Z.leb_gt. exact Hms.
Qed.

Section Passes.

Variable env : nat -> World.
Variable target : HWND.
Variables min_s max_s : Q.


Lemma GetRandomDelaySeconds_no_empty_sleep :
  quiet is_empty_sleep (GetRandomDelaySeconds env min_s max_s).
Proof. apply GetRandomDelaySeconds_quiet; reflexivity. Qed.

Lemma set_foreground_attempts_no_empty_sleep h k :
  quiet is_empty_sleep (set_foreground_attempts env h k).
Proof. induction k; simpl; quiet_tac. Qed.

Lemma SendCtrlF5Keystroke_no_empty_sleep t :
  quiet is_empty_sleep (SendCtrlF5Keystroke env t).
Proof.
  pose proof set_foreground_attempts_no_empty_sleep as Hloop.
  unfold SendCtrlF5Keystroke, ActivateWindowAndEnsureFocus, RestoreOriginalFocus.
  quiet_tac; apply Hloop.
Qed.

Lemma IsAltKeyHeld_no_empty_sleep : quiet is_empty_sleep (IsAltKeyHeld env).
Proof. unfold IsAltKeyHeld. quiet_tac. Qed.


Opaque GetRandomDelaySeconds SendCtrlF5Keystroke IsAltKeyHeld.

(** X20: how a pass leaves the loop.  A pass breaks out only after one of
    its two liveness checks found the target gone; it has then injected
    nothing and left the keystroke count alone, its last two actions are
    the console notice and the warning in the log, and the loop runs no
    further pass. *)
Theorem loop_body_break (keystroke_count : Z) (n passes : nat) :
  let r := loop_body env target min_s max_s keystroke_count n in
  fst (value r) = Break ->
  snd (value r) = keystroke_count /\
  injections (events r) = [] /\
  (exists before notice warning,
     events r = before ++
       [EvIsWindow target false; EvPrintf notice; EvLog WARNING warning]) /\
  main_loop env target min_s max_s (S passes) keystroke_count n = r.
Proof.
  intros r Hbreak.
  assert (Hloop : main_loop env target min_s max_s (S passes) keystroke_count n = r).
  { rewrite main_loop_step. unfold bind. fold r. rewrite Hbreak.
    cbv beta iota. unfold ret. cbn [value events clock]. rewrite app_nil_r.
    clearbody r. now destruct r. }
  split; [|split; [|split; [|exact Hloop]]]; clear Hloop; revert Hbreak;
    unfold r, loop_body; simpl.
  - destruct (w_IsWindow (env n) target); simpl; [|reflexivity].
    destruct (value (IsAltKeyHeld env _)); simpl; [discriminate|].
    destruct (w_IsWindow (env _) target); simpl; [discriminate | reflexivity].
  - destruct (w_IsWindow (env n) target); simpl; [|reflexivity].
    destruct (value (IsAltKeyHeld env _)); simpl; [discriminate|].
    destruct (w_IsWindow (env _) target); simpl; [discriminate|]. intros _.
    change (flat_map (fun e => match e with EvSendInput i r => [(i, r)] | _ => [] end))
      with injections.
    apply no_injection. repeat (progress (simpl; rewrite ?existsb_app)).
    rewrite GetRandomDelaySeconds_no_injection, IsAltKeyHeld_no_injection.
    unfold WaitMilliseconds. branches; reflexivity.
  - destruct (w_IsWindow (env n) target); simpl.
    2:{ intros _. exists []. do 2 eexists. reflexivity. }
    destruct (value (IsAltKeyHeld env _)); simpl; [discriminate|].
    destruct (w_IsWindow (env _) target); simpl; [discriminate|]. intros _.
    do 3 eexists.
    match goal with
    | |- ?e :: ?d ++ ?a :: ?b :: ?c :: ?w ++ ?k ++ ?tail = _ =>
        change (e :: d ++ a :: b :: c :: w ++ k ++ tail)
          with ((e :: d ++ [a; b; c] ++ w ++ k) ++ tail) ||
        transitivity ((e :: d ++ [a; b; c] ++ w ++ k) ++ tail)
    end.
    + simpl. rewrite <- !app_assoc. simpl. rewrite <- !app_assoc. reflexivity.
    + reflexivity.
Qed.

(** One pass and the count: either the count is kept and nothing is
    injected, or the pass went on to deliver, the count went up by one and
    at most one call to [SendInput] was made. *)
Lemma loop_body_count count n :
  let r := loop_body env target min_s max_s count n in
  (snd (value r) = count /\ injections (events r) = []) \/
  (snd (value r) = count + 1 /\ fst (value r) = Continue /\
   (List.length (injections (events r)) <= 1)%nat).
Proof.
  intro r.
  assert (Hinj : (List.length (injections (events r)) <= 1)%nat).
  { destruct (loop_body_injections env target min_s max_s count n) as [H | (m & H)];
      unfold r; rewrite H; [simpl; lia|].
    destruct (SendCtrlF5Keystroke_injections env target m) as [-> | (u & -> & _)];
      simpl; lia. }
  revert Hinj. unfold r, loop_body. simpl.
  destruct (w_IsWindow (env n) target); simpl; [|left; auto].
  set (d := GetRandomDelaySeconds env min_s max_s (S n)).
  set (w := WaitMilliseconds (delay_ms (value d)) (S (clock d))).
  destruct (value (IsAltKeyHeld env (clock w))) eqn:Hheld; simpl.
  - intros _. left. split; [reflexivity|].
    apply no_injection. repeat (progress (simpl; rewrite ?existsb_app)).
    unfold d. rewrite GetRandomDelaySeconds_no_injection, IsAltKeyHeld_no_injection.
    unfold w, WaitMilliseconds. branches; reflexivity.
  - destruct (w_IsWindow (env (clock (IsAltKeyHeld env (clock w)))) target); simpl.
    + intro Hinj. right. auto.
    + intros _. left. split; [reflexivity|].
      apply no_injection. repeat (progress (simpl; rewrite ?existsb_app)).
      unfold d. rewrite GetRandomDelaySeconds_no_injection, IsAltKeyHeld_no_injection.
      unfold w, WaitMilliseconds. branches; reflexivity.
Qed.

(** X21: the keystroke count bounds the injections.  Over any number of
    passes that cannot take the [int] count past [INT_MAX], the count never
    goes down, goes up by at most one per pass, and the number of
    [SendInput] calls made is at most the increase of the count: a pass
    that does not get to deliver is not counted, and no pass injects
    twice. *)
Theorem keystroke_count_bounds_injections (passes : nat) : forall (keystroke_count : Z) (n : nat),
  keystroke_count + Z.of_nat passes <= INT_MAX ->
  let r := main_loop env target min_s max_s passes keystroke_count n in
  keystroke_count <= snd (value r) <= keystroke_count + Z.of_nat passes /\
  snd (value r) <= INT_MAX /\
  Z.of_nat (List.length (injections (events r))) <= snd (value r) - keystroke_count.
Proof.
  induction passes as [|passes IH]; intros count n Hmax.
  - simpl. lia.
  - cbv zeta. rewrite main_loop_step, events_bind, value_bind, injections_app, length_app.
    pose proof (loop_body_count count n) as Hpass. cbv zeta in Hpass.
    set (r := loop_body env target min_s max_s count n) in *. clearbody r.
    destruct (value r) as [ctl count'] eqn:Hv. cbn [fst snd] in *.
    destruct ctl.
    + cbn [ret events value]. destruct Hpass as [[-> ->] | (-> & Hc & _)];
        [simpl; lia | discriminate Hc].
    + specialize (IH count' (clock r)). cbv zeta in IH.
      destruct Hpass as [[-> ->] | (-> & _ & Hone)];
        (destruct IH as (Hcount & Hint & Hinj); [lia|]); simpl List.length; lia.
Qed.

(** X22: the loop never sleeps for nothing.  Every [Sleep] the loop makes,
    in any number of passes, is for a positive number of milliseconds: a
    wait that rounds to zero is skipped, not passed on as [Sleep(0)]. *)
Theorem loop_never_sleeps_zero (passes : nat) : forall (keystroke_count : Z) (n : nat) ms,
  In (EvSleep ms) (events (main_loop env target min_s max_s passes keystroke_count n)) ->
  0 < ms.
Proof.
  assert (Hquiet : forall passes count,
             quiet is_empty_sleep (main_loop env target min_s max_s passes count)).
  { induction passes0 as [|p IH]; intro count; [apply quiet_ret|].
    simpl. apply quiet_bind.
    - unfold loop_body.
      pose proof GetRandomDelaySeconds_no_empty_sleep.
      pose proof IsAltKeyHeld_no_empty_sleep.
      pose proof (SendCtrlF5Keystroke_no_empty_sleep target).
      pose proof WaitMilliseconds_never_empty.
      repeat match goal with
      | |- quiet _ (bind _ _) => apply quiet_bind; [ | intro ]
      | |- quiet _ (ret _) => apply quiet_ret
      | |- quiet _ (printf _) => apply quiet_emit; reflexivity
      | |- quiet _ (LogDebug _) => apply quiet_emit; reflexivity
      | |- quiet _ (LogWarning _) => apply quiet_emit; reflexivity
      | |- quiet _ (IsWindow _ _) => apply quiet_os_call; intro; reflexivity
      | |- quiet _ (GetWindowText _) => apply quiet_os_do; reflexivity
      | |- quiet _ (if ?b then _ else _) => destruct b
      | |- quiet _ _ => solve [auto]
      end.
    - intros [[] count']; simpl; [apply quiet_ret | apply IH]. }
  intros count n ms Hin.
  specialize (Hquiet passes count n).
  destruct (Z.ltb_spec 0 ms) as [Hpos|Hle]; [exact Hpos|].
  exfalso. apply not_true_iff_false in Hquiet. apply Hquiet.
  apply existsb_exists. exists (EvSleep ms). split; [exact Hin|]. simpl.
  now apply Z.leb_le.
Qed.


Transparent GetRandomDelaySeconds SendCtrlF5Keystroke IsAltKeyHeld.

End Passes.

Lemma loop_body_break_witness :
  let r := loop_body target_gone 1 2 7 0 O in
  fst (value r) = Break /\
  snd (value r) = 0 /\ injections (events r) = [] /\
  main_loop target_gone 1 2 7 5 0 O = r.
Proof.
  intro r. split; [reflexivity|].
  destruct (loop_body_break target_gone 1 2 7 0 O 4 eq_refl) as (Hcount & Hinj & _ & Hloop).
  auto.
Defined.

Lemma keystroke_count_bounds_injections_witness :
  let r := main_loop (fun _ => calm_world) 1 2 7 3 0 O in
  0 + Z.of_nat 3 <= INT_MAX /\
  0 <= snd (value r) <= 0 + Z.of_nat 3 /\
  snd (value r) <= INT_MAX /\
  Z.of_nat (List.length (injections (events r))) <= snd (value r) - 0.
Proof.
  assert (H : 0 + Z.of_nat 3 <= INT_MAX) by (unfold INT_MAX; simpl; lia).
  intro r. split; [exact H|].
  exact (keystroke_count_bounds_injections (fun _ => calm_world) 1 2 7 3 0 O H).
Defined.

Lemma loop_never_sleeps_zero_witness :
  In (EvSleep 7000) (events (main_loop (fun _ => calm_world) 1 2 7 1 0 O)) /\ 0 < 7000.
Proof.
  assert (H : In (EvSleep 7000) (events (main_loop (fun _ => calm_world) 1 2 7 1 0 O)))
    by (vm_compute; auto 20).
  split; [exact H|].
  exact (loop_never_sleeps_zero (fun _ => calm_world) 1 2 7 1 0 O 7000 H).
Defined.

(** ** Dispatcher: only Alt matters *)

(** Two programs that answer alike at every clock answer alike in
    sequence. *)
Lemma bind_alike {A B} (m1 m2 : M A) (k1 k2 : A -> M B) :
  (forall n, m1 n = m2 n) -> (forall a n, k1 a n = k2 a n) ->
  forall n, bind m1 k1 n = bind m2 k2 n.
Proof. intros Hm Hk n. unfold bind. now rewrite Hm, Hk. Qed.

Section OtherKeys.

Variables env1 env2 : nat -> World.
Hypothesis Hsame : forall k, same_but_other_keys (env1 k) (env2 k).

Ltac same_call :=
  let n := fresh "n" in
  intro n; unfold os_call;
  destruct (Hsame n) as (?Hw & ?Hfg & ?Hct & ?Hwt & ?Hat & ?Hic & ?Hk1 & ?Hk2 & ?Hk3 &
                         ?Hsi & ?Hca & ?Hcg & ?Hrd);
  repeat match goal with H : _ = _ |- _ => rewrite H; clear H
                    | H : forall _, _ |- _ => rewrite H; clear H end;
  reflexivity.

Lemma IsWindow_alike h : forall n, IsWindow env1 h n = IsWindow env2 h n.
Proof. unfold IsWindow. same_call. Qed.
Lemma GetForegroundWindow_alike : forall n, GetForegroundWindow env1 n = GetForegroundWindow env2 n.
Proof. unfold GetForegroundWindow. same_call. Qed.
Lemma GetCurrentThreadId_alike : forall n, GetCurrentThreadId env1 n = GetCurrentThreadId env2 n.
Proof. unfold GetCurrentThreadId. same_call. Qed.
Lemma GetWindowThreadProcessId_alike h :
  forall n, GetWindowThreadProcessId env1 h n = GetWindowThreadProcessId env2 h n.
Proof. unfold GetWindowThreadProcessId. same_call. Qed.
Lemma AttachThreadInput_alike a b f :
  forall n, AttachThreadInput env1 a b f n = AttachThreadInput env2 a b f n.
Proof. unfold AttachThreadInput. same_call. Qed.
Lemma IsIconic_alike h : forall n, IsIconic env1 h n = IsIconic env2 h n.
Proof. unfold IsIconic. same_call. Qed.
Lemma SendInput_alike i : forall n, SendInput env1 i n = SendInput env2 i n.
Proof. unfold SendInput. same_call. Qed.
Lemma CryptAcquireContext_alike :
  forall n, CryptAcquireContext env1 n = CryptAcquireContext env2 n.
Proof. unfold CryptAcquireContext. same_call. Qed.
Lemma CryptGenRandom_alike : forall n, CryptGenRandom env1 n = CryptGenRandom env2 n.
Proof. unfold CryptGenRandom. same_call. Qed.
Lemma rand_alike : forall n, rand env1 n = rand env2 n.
Proof. unfold rand. same_call. Qed.
Lemma Alt_alike vk :
  vk = VK_MENU \/ vk = VK_LMENU \/ vk = VK_RMENU ->
  forall n, GetAsyncKeyState env1 vk n = GetAsyncKeyState env2 vk n.
Proof. intros [-> | [-> | ->]]; unfold GetAsyncKeyState; same_call. Qed.

(** Walks two copies of one program in step. *)
Ltac alike :=
  repeat match goal with
  | |- forall n, bind _ _ n = bind _ _ n => apply bind_alike; [ | intro ]
  | |- forall n, (if ?b then _ else _) n = (if ?b then _ else _) n => destruct b
  | |- forall n, match ?x with _ => _ end n = match ?x with _ => _ end n => destruct x
  | |- forall n, IsWindow _ _ n = _ => apply IsWindow_alike
  | |- forall n, GetForegroundWindow _ n = _ => apply GetForegroundWindow_alike
  | |- forall n, GetCurrentThreadId _ n = _ => apply GetCurrentThreadId_alike
  | |- forall n, GetWindowThreadProcessId _ _ n = _ => apply GetWindowThreadProcessId_alike
  | |- forall n, AttachThreadInput _ _ _ _ n = _ => apply AttachThreadInput_alike
  | |- forall n, IsIconic _ _ n = _ => apply IsIconic_alike
  | |- forall n, SendInput _ _ n = _ => apply SendInput_alike
  | |- forall n, CryptAcquireContext _ n = _ => apply CryptAcquireContext_alike
  | |- forall n, CryptGenRandom _ n = _ => apply CryptGenRandom_alike
  | |- forall n, rand _ n = _ => apply rand_alike
  | |- forall n, GetAsyncKeyState _ _ n = _ => apply Alt_alike; auto
  | |- forall n, ?m n = ?m n => reflexivity
  | |- forall n, _ = _ => solve [auto]
  end.

Lemma GetRandomDelaySeconds_alike min_s max_s :
  forall n, GetRandomDelaySeconds env1 min_s max_s n = GetRandomDelaySeconds env2 min_s max_s n.
Proof. unfold GetRandomDelaySeconds. alike. Qed.

Lemma IsAltKeyHeld_alike : forall n, IsAltKeyHeld env1 n = IsAltKeyHeld env2 n.
Proof. unfold IsAltKeyHeld. alike. Qed.

Lemma set_foreground_attempts_alike h k :
  forall n, set_foreground_attempts env1 h k n = set_foreground_attempts env2 h k n.
Proof. induction k as [|k IH]; simpl; alike. Qed.

Lemma ActivateWindowAndEnsureFocus_alike t o :
  forall n, ActivateWindowAndEnsureFocus env1 t o n = ActivateWindowAndEnsureFocus env2 t o n.
Proof.
  pose proof (set_foreground_attempts_alike t).
  unfold ActivateWindowAndEnsureFocus. alike.
Qed.

Lemma RestoreOriginalFocus_alike o t ok :
  forall n, RestoreOriginalFocus env1 o t ok n = RestoreOriginalFocus env2 o t ok n.
Proof. unfold RestoreOriginalFocus. alike. Qed.

Lemma SendCtrlF5Keystroke_alike t :
  forall n, SendCtrlF5Keystroke env1 t n = SendCtrlF5Keystroke env2 t n.
Proof.
  pose proof ActivateWindowAndEnsureFocus_alike.
  pose proof RestoreOriginalFocus_alike.
  unfold SendCtrlF5Keystroke. alike.
Qed.

Lemma loop_body_alike target min_s max_s count :
  forall n, loop_body env1 target min_s max_s count n = loop_body env2 target min_s max_s count n.
Proof.
  pose proof GetRandomDelaySeconds_alike.
  pose proof IsAltKeyHeld_alike.
  pose proof SendCtrlF5Keystroke_alike.
  unfold loop_body. alike.
Qed.

(** X24: only Alt matters.  Two environments that differ at most in the
    state of keys other than the three Alt keys (Ctrl, Shift, the mouse
    buttons, any other) give the same run of the loop: the same calls with
    the same answers, the same injections and the same count. *)
Theorem other_keys_do_not_matter target min_s max_s (passes : nat) :
  forall (keystroke_count : Z) (n : nat),
  main_loop env1 target min_s max_s passes keystroke_count n =
  main_loop env2 target min_s max_s passes keystroke_count n.
Proof.
  induction passes as [|passes IH]; intros count; [reflexivity|].
  simpl. apply bind_alike; [apply loop_body_alike|].
  intros [[] count'] n; simpl; [reflexivity | apply IH].
Qed.

End OtherKeys.

Lemma other_keys_do_not_matter_witness :
  (forall k : nat, same_but_other_keys ctrl_held_world calm_world) /\
  main_loop (fun _ => ctrl_held_world) 1 2 7 3 0 O =
  main_loop (fun _ => calm_world) 1 2 7 3 0 O.
Proof.
  assert (H : forall k : nat, same_but_other_keys ctrl_held_world calm_world)
    by (intro k; repeat split).
  split; [exact H|].
  exact (other_keys_do_not_matter (fun _ => ctrl_held_world) (fun _ => calm_world) H 1 2 7 3 0 O).
Defined.

(** ** WindowSelector: [GetTopLevelWindowFromClick] *)

Section Selecting.

Variable env : nat -> World.
Variable GetCursorPos : option (Z * Z).
Variable WindowFromPoint : Z * Z -> HWND.
Variable GetAncestor : HWND -> Z -> HWND.

Lemma poll_button_step (want_down : bool) (polls : nat) (n : nat) :
  poll_button env want_down (S polls) n =
  let state := w_GetAsyncKeyState (env n) VK_LBUTTON in
  if Bool.eqb (button_down env n) want_down
  then mkRun true [EvGetAsyncKeyState VK_LBUTTON state] (S n)
  else
    let r := poll_button env want_down polls (S (S n)) in
    mkRun (value r)
      (EvGetAsyncKeyState VK_LBUTTON state :: EvSleep MAIN_LOOP_POLL_INTERVAL_MS :: events r)
      (clock r).
Proof.
  unfold button_down. cbn [poll_button]. unfold bind, GetAsyncKeyState, os_call.
  cbn [value events clock].
  destruct (Bool.eqb (key_down (w_GetAsyncKeyState (env n) VK_LBUTTON)) want_down);
    reflexivity.
Qed.

(** The polling loop stops at the first read that finds the button as
    wanted; the reads are two clock ticks apart (a read, then the 50 ms
    sleep). *)
Lemma poll_button_profile (want_down : bool) (polls : nat) : forall n,
  let r := poll_button env want_down polls n in
  (value r = true /\
   exists i, (i < polls)%nat /\
     button_down env (n + 2 * i) = want_down /\
     (forall i', (i' < i)%nat -> button_down env (n + 2 * i') = negb want_down) /\
     clock r = (n + 2 * i + 1)%nat /\
     total_sleep (events r) = 50 * Z.of_nat i /\
     keys_read (events r) = repeat VK_LBUTTON (S i)) \/
  (value r = false /\
   forall i, (i < polls)%nat -> button_down env (n + 2 * i) = negb want_down).
Proof.
  induction polls as [|polls IH]; intros n r.
  - right. split; [reflexivity|]. intros i Hi. lia.
  - unfold r. rewrite poll_button_step. cbv zeta.
    destruct (Bool.eqb (button_down env n) want_down) eqn:Hnow.
    + apply Bool.eqb_prop in Hnow. cbn [value events clock].
      left. split; [reflexivity|].
      exists O. rewrite Nat.mul_0_r, Nat.add_0_r.
      split; [lia|]. split; [exact Hnow|]. split; [intros i' Hi'; lia|].
      split; [lia|]. split; reflexivity.
    + assert (Hn : button_down env n = negb want_down).
      { destruct (button_down env n), want_down; simpl in *; congruence. }
      specialize (IH (S (S n))). cbv zeta in IH. cbn [value events clock].
      set (r' := poll_button env want_down polls (S (S n))) in *.
      destruct IH as [(Hv & i & Hi & Hwant & Hbefore & Hclock & Hsleep & Hkeys) | (Hv & Hall)].
      * left. split; [exact Hv|]. exists (S i).
        replace (n + 2 * S i)%nat with (S (S n) + 2 * i)%nat by lia.
        split; [lia|]. split; [exact Hwant|]. split.
        { intros i' Hi'. destruct i' as [|i'].
          - now rewrite Nat.mul_0_r, Nat.add_0_r.
          - replace (n + 2 * S i')%nat with (S (S n) + 2 * i')%nat by lia.
            apply Hbefore. lia. }
        split; [exact Hclock|]. split.
        { change (total_sleep (EvGetAsyncKeyState VK_LBUTTON (w_GetAsyncKeyState (env n) VK_LBUTTON)
                    :: EvSleep MAIN_LOOP_POLL_INTERVAL_MS :: events r'))
            with (MAIN_LOOP_POLL_INTERVAL_MS + total_sleep (events r')).
          rewrite Hsleep. unfold MAIN_LOOP_POLL_INTERVAL_MS. lia. }
        change (keys_read (EvGetAsyncKeyState VK_LBUTTON (w_GetAsyncKeyState (env n) VK_LBUTTON)
                  :: EvSleep MAIN_LOOP_POLL_INTERVAL_MS :: events r'))
          with (VK_LBUTTON :: keys_read (events r')).
        now rewrite Hkeys.
      * right. split; [exact Hv|]. intros i Hi. destruct i as [|i].
        { now rewrite Nat.mul_0_r, Nat.add_0_r. }
        replace (n + 2 * S i)%nat with (S (S n) + 2 * i)%nat by lia.
        apply Hall. lia.
Qed.

(** X25: a wait for the button ends at the first read that finds it as
    wanted.  If the read number [i] (counted from 0, two clock ticks apart)
    would find the button as wanted and the loop is allowed more than [i]
    reads, the loop ends, at that read or an earlier one, after at most [i]
    sleeps of 50 ms each and exactly one more read than sleeps, all of the
    left button. *)
Theorem poll_button_progress (want_down : bool) (polls : nat) (n : nat) (i : nat) :
  (i < polls)%nat ->
  button_down env (n + 2 * i) = want_down ->
  let r := poll_button env want_down polls n in
  value r = true /\
  (clock r <= n + 2 * i + 1)%nat /\
  (0 <= total_sleep (events r) <= 50 * Z.of_nat i) /\
  50 * Z.of_nat (List.length (keys_read (events r))) = total_sleep (events r) + 50 /\
  Forall (fun vk => vk = VK_LBUTTON) (keys_read (events r)).
Proof.
  intros Hi Hwant r.
  destruct (poll_button_profile want_down polls n)
    as [(Hv & i0 & Hi0 & _ & Hbefore & Hclock & Hsleep & Hkeys) | (_ & Hall)].
  - fold r in Hv, Hclock, Hsleep, Hkeys.
    assert (Hle : (i0 <= i)%nat).
    { destruct (Nat.le_gt_cases i0 i) as [Hle|Hgt]; [exact Hle|].
      specialize (Hbefore i Hgt). rewrite Hwant in Hbefore.
      now destruct want_down. }
    split; [exact Hv|]. split; [lia|]. split; [lia|]. split.
    + rewrite Hkeys, repeat_length, Hsleep. lia.
    + rewrite Hkeys. apply Forall_forall. intros vk Hin.
      now apply repeat_spec in Hin.
  - specialize (Hall i Hi). rewrite Hwant in Hall. now destruct want_down.
Qed.

Lemma poll_button_quiet p want_down polls :
  (forall vk st, p (EvGetAsyncKeyState vk st) = false) ->
  (forall ms, p (EvSleep ms) = false) ->
  quiet p (poll_button env want_down polls).
Proof.
  intros Hk Hs. induction polls as [|polls IH]; [apply quiet_ret|].
  simpl. apply quiet_bind; [apply quiet_os_call; intro; apply Hk|].
  intro st. destruct (Bool.eqb (key_down st) want_down); [apply quiet_ret|].
  apply quiet_bind; [apply WaitMilliseconds_quiet, Hs | intro; exact IH].
Qed.

(** X26: what the selection returns.  When [GetTopLevelWindowFromClick]
    returns, the handle is NULL exactly when the cursor position could not
    be read or no window was under it; otherwise it is the root owner of
    the window under the cursor, or, if there is none, its root, or, if
    there is none either, the window itself.  The selection only looks: it
    injects nothing and touches neither joins nor the foreground. *)
Theorem selection_result (polls : nat) (n : nat) (h : HWND) :
  let r := GetTopLevelWindowFromClick env GetCursorPos WindowFromPoint GetAncestor polls n in
  value r = Some h ->
  match GetCursorPos with
  | None => h = NULL
  | Some cursorPos =>
      let clicked := WindowFromPoint cursorPos in
      if clicked =? NULL then h = NULL
      else h <> NULL /\
           h = (if negb (GetAncestor clicked GA_ROOTOWNER =? NULL)
                then GetAncestor clicked GA_ROOTOWNER
                else if negb (GetAncestor clicked GA_ROOT =? NULL)
                     then GetAncestor clicked GA_ROOT
                     else clicked)
  end /\
  injections (events r) = [] /\ focus_calls (events r) = [].
Proof.
  intros r Hr. split.
  - revert Hr. unfold r, GetTopLevelWindowFromClick. simpl.
    destruct (value (poll_button env true polls n)); simpl; [|discriminate].
    destruct (value (poll_button env false polls _)); simpl; [|discriminate].
    destruct GetCursorPos as [pos|]; simpl; [|congruence].
    destruct (WindowFromPoint pos =? NULL) eqn:Hhit; simpl; [congruence|].
    intro Hh. injection Hh as <-.
    destruct (GetAncestor (WindowFromPoint pos) GA_ROOTOWNER =? NULL) eqn:Hown; simpl.
    + destruct (GetAncestor (WindowFromPoint pos) GA_ROOT =? NULL) eqn:Hroot; simpl.
      * split; [now apply Z.eqb_neq | reflexivity].
      * split; [now apply Z.eqb_neq | reflexivity].
    + rewrite Hown. split; [now apply Z.eqb_neq | reflexivity].
  - assert (Hq : forall p,
               (forall vk st, p (EvGetAsyncKeyState vk st) = false) ->
               (forall ms, p (EvSleep ms) = false) ->
               (forall f, p (EvPrintf f) = false) ->
               (forall l f, p (EvLog l f) = false) ->
               (forall w, p (EvGetWindowText w) = false) ->
               existsb p (events r) = false).
    { intros p Hk Hs Hp Hl Hw.
      pose proof (poll_button_quiet p true polls Hk Hs).
      pose proof (poll_button_quiet p false polls Hk Hs).
      cut (quiet p (GetTopLevelWindowFromClick env GetCursorPos WindowFromPoint GetAncestor polls));
        [intro Hq; apply Hq|].
      unfold GetTopLevelWindowFromClick, printf, LogDebug, LogInfo, LogWarning, LogError,
        GetWindowText.
      repeat match goal with
      | |- quiet _ (bind _ _) => apply quiet_bind; [ | intro ]
      | |- quiet _ (ret _) => apply quiet_ret
      | |- quiet _ (emit _) => apply quiet_emit; auto
      | |- quiet _ (os_do _) => apply quiet_os_do; auto
      | |- quiet _ (if ?b then _ else _) => destruct b
      | |- quiet _ (match ?x with _ => _ end) => destruct x
      | |- quiet _ _ => assumption
      end. }
    split.
    + apply no_injection, Hq; reflexivity.
    + unfold focus_calls.
      assert (Hnone : existsb is_focus_call (events r) = false) by (apply Hq; reflexivity).
      clear -Hnone. induction (events r) as [|e evs IH]; [reflexivity|].
      simpl in *. apply orb_false_iff in Hnone. destruct Hnone as [He Hr].
      rewrite He. now apply IH.
Qed.

(** The events of a selection that got through both waits: the prompts,
    the press loop, a log line, the release loop, and a tail without any
    sleep or key read. *)
Lemma selection_events (polls : nat) (n : nat) :
  let press := poll_button env true polls n in
  let release := poll_button env false polls (clock press) in
  let r := GetTopLevelWindowFromClick env GetCursorPos WindowFromPoint GetAncestor polls n in
  value press = true -> value release = true ->
  (exists h, value r = Some h) /\
  exists head pressed tail,
    events r = head ++ events press ++ pressed :: events release ++ tail /\
    total_sleep head = 0 /\ keys_read head = [] /\
    total_sleep [pressed] = 0 /\ keys_read [pressed] = [] /\
    total_sleep tail = 0 /\ keys_read tail = [].
Proof.
  intros press release r Hp Hr.
  unfold r, GetTopLevelWindowFromClick. simpl. fold press. rewrite Hp. simpl.
  fold release. rewrite Hr. simpl.
  destruct GetCursorPos as [pos|]; simpl;
    [destruct (WindowFromPoint pos =? NULL); simpl|];
    (split; [eexists; reflexivity|]);
    exists [EvPrintf "--- Window Selection ---";
            EvPrintf "Please CLICK ANYWHERE on the window you want to target.";
            EvPrintf "Waiting for your click...";
            EvLog DEBUG "GetTopLevelWindowFromClick: Waiting for left mouse button click."];
    eexists; eexists; (split; [reflexivity|]); repeat split; reflexivity.
Qed.

(** X27: the selection returns only after a click.  When
    [GetTopLevelWindowFromClick] returns, it has read the left button down
    and, at a later read, up again; it slept 50 ms after every other read,
    and the left button is the only key it read. *)
Theorem selection_waits_for_click (polls : nat) (n : nat) (h : HWND) :
  let r := GetTopLevelWindowFromClick env GetCursorPos WindowFromPoint GetAncestor polls n in
  value r = Some h ->
  exists i j,
    button_down env (n + 2 * i) = true /\
    button_down env (n + 2 * i + 1 + 2 * j) = false /\
    total_sleep (events r) = 50 * Z.of_nat (i + j) /\
    keys_read (events r) = repeat VK_LBUTTON (i + j + 2).
Proof.
  intros r Hr.
  pose proof (poll_button_profile true polls n) as Hpress. cbv zeta in Hpress.
  pose proof (selection_events polls n) as Hev. cbv zeta in Hev. fold r in Hev.
  set (press := poll_button env true polls n) in *.
  pose proof (poll_button_profile false polls (clock press)) as Hrelease.
  cbv zeta in Hrelease.
  set (release := poll_button env false polls (clock press)) in *.
  assert (Hboth : value press = true /\ value release = true).
  { revert Hr. unfold r, GetTopLevelWindowFromClick. simpl. fold press.
    destruct (value press); simpl; [|discriminate]. fold release.
    destruct (value release); simpl; [auto | discriminate]. }
  destruct Hboth as [Hvp Hvr].
  destruct (Hev Hvp Hvr)
    as (_ & head & pressed & tail & Hevents & Hs0 & Hk0 & Hs1 & Hk1 & Hs2 & Hk2).
  destruct Hpress as [(_ & i & _ & Hdown & _ & Hclock & Hsp & Hkp) | (Hf & _)];
    [|congruence].
  destruct Hrelease as [(_ & j & _ & Hup & _ & _ & Hsr & Hkr) | (Hf & _)];
    [|congruence].
  exists i, j. rewrite Hclock in Hup.
  split; [exact Hdown|]. split; [exact Hup|].
  rewrite Hevents.
  change (pressed :: events release ++ tail) with ([pressed] ++ events release ++ tail).
  rewrite !total_sleep_app, !keys_read_app, Hs0, Hk0, Hs1, Hk1, Hs2, Hk2, Hsp, Hsr, Hkp, Hkr.
  split; [lia|]. cbn [app]. rewrite app_nil_r, <- repeat_app. f_equal. lia.
Qed.

(** X28: a click is enough.  If some read of the first loop would find the
    left button down, and the button is up at every later time, then with
    more reads allowed to each loop than that read's number the selection
    returns. *)
Theorem selection_returns (polls : nat) (n : nat) (i : nat) :
  (i < polls)%nat ->
  button_down env (n + 2 * i) = true ->
  (forall k, (n + 2 * i < k)%nat -> button_down env k = false) ->
  exists h,
    value (GetTopLevelWindowFromClick env GetCursorPos WindowFromPoint GetAncestor polls n)
    = Some h.
Proof.
  intros Hi Hdown Hup.
  destruct (poll_button_profile true polls n)
    as [(Hv & i0 & Hi0 & _ & Hbefore & Hclock & _) | (_ & Hall)];
    [|specialize (Hall i Hi); rewrite Hdown in Hall; discriminate].
  assert (Hle : (i0 <= i)%nat).
  { destruct (Nat.le_gt_cases i0 i) as [Hle|Hgt]; [exact Hle|].
    specialize (Hbefore i Hgt). rewrite Hdown in Hbefore. discriminate. }
  set (press := poll_button env true polls n) in *.
  destruct (poll_button_profile false polls (clock press))
    as [(Hv' & _) | (_ & Hall)].
  - apply (selection_events polls n Hv Hv').
  - assert (Hj : (i - i0 < polls)%nat) by lia.
    specialize (Hall (i - i0)%nat Hj). rewrite Hup in Hall; [discriminate|].
    rewrite Hclock. lia.
Qed.

End Selecting.

Lemma poll_button_progress_witness :
  let r := poll_button single_click true 5 O in
  (2 < 5)%nat /\ button_down single_click (0 + 2 * 2) = true /\
  value r = true /\
  (clock r <= 0 + 2 * 2 + 1)%nat /\
  (0 <= total_sleep (events r) <= 50 * Z.of_nat 2) /\
  50 * Z.of_nat (List.length (keys_read (events r))) = total_sleep (events r) + 50 /\
  Forall (fun vk => vk = VK_LBUTTON) (keys_read (events r)).
Proof.
  intro r. split; [lia|]. split; [reflexivity|].
  apply (poll_button_progress single_click true 5 O 2); [lia | reflexivity].
Defined.

Lemma selection_result_witness :
  let r := GetTopLevelWindowFromClick single_click (Some (3, 4)) (fun _ => 7) root_of 5 O in
  value r = Some 8 /\
  (8 <> NULL /\ 8 = root_of 7 GA_ROOT) /\
  injections (events r) = [] /\ focus_calls (events r) = [].
Proof.
  intro r. split; [reflexivity|].
  exact (selection_result single_click (Some (3, 4)) (fun _ => 7) root_of 5 O 8 eq_refl).
Defined.

Lemma selection_waits_for_click_witness :
  let r := GetTopLevelWindowFromClick single_click (Some (3, 4)) (fun _ => 7) root_of 5 O in
  value r = Some 8 /\
  exists i j,
    button_down single_click (0 + 2 * i) = true /\
    button_down single_click (0 + 2 * i + 1 + 2 * j) = false /\
    total_sleep (events r) = 50 * Z.of_nat (i + j) /\
    keys_read (events r) = repeat VK_LBUTTON (i + j + 2).
Proof.
  intro r. split; [reflexivity|].
  exact (selection_waits_for_click single_click (Some (3, 4)) (fun _ => 7) root_of 5 O 8 eq_refl).
Defined.

Lemma selection_returns_witness :
  (2 < 5)%nat /\ button_down single_click (0 + 2 * 2) = true /\
  (forall k, (0 + 2 * 2 < k)%nat -> button_down single_click k = false) /\
  exists h,
    value (GetTopLevelWindowFromClick single_click None (fun _ => 7) root_of 5 O) = Some h.
Proof.
  assert (Hup : forall k, (0 + 2 * 2 < k)%nat -> button_down single_click k = false).
  { intros k Hk. unfold button_down, single_click.
    destruct (Nat.eqb_spec k 4) as [->|_]; [lia | reflexivity]. }
  split; [lia|]. split; [reflexivity|]. split; [exact Hup|].
  apply (selection_returns single_click None (fun _ => 7) root_of 5 O 2);
    [lia | reflexivity | exact Hup].
Defined.
